(** * SchwiftyBox: authentication core, token codec and ID allocator

  A shallow embedding of the Go services of the backend
  ([internal/item], [internal/jwt], [internal/user], [internal/reset],
  [internal/handlers]) together with the properties the specification
  states about them.

  The repository holds two builds of the [jwt], [user] and [handlers]
  packages: a plain one (a user is an email and a password, tokens carry
  no kind) and one with organizations, prefixes and kind-tagged tokens.
  Both are embedded; the plain one under names ending in [Plain] or
  [_plain].

  Conventions.
  - Go strings are byte strings: Rocq's [string].  Where the code passes a
    string through JSON, the coercion to valid UTF-8 is written out
    ([Utf8.json_string]).
  - Go's [int] is a 64-bit two's complement integer: a [Z] with the
    wrap-around written out ([GoInt.wrap]).
  - Wall-clock instants and durations are [Z] nanoseconds.
  - A relational table with a unique key is a [gmap] from that key; a
    table without one is a list of rows in primary-key order.
  - A store call that can fail for reasons outside the program (lost
    connection, constraint of the engine) takes the fault as an explicit
    [option error] argument; [None] means the engine served the call.
  - A signature is kept by the HMAC block of the key it was made under;
    the digests that shape that block ([Sha2]) are computed. *)

From Stdlib Require Import ZArith Lia String Ascii List Bool.
From stdpp Require Import base option gmap strings list fin_maps.

Local Open Scope Z_scope.

(** ** Go's 64-bit [int] *)

Module GoInt.

Definition min_int : Z := - 2 ^ 63.
Definition max_int : Z := 2 ^ 63 - 1.

(** Two's complement wrap-around of a mathematical integer into [int]. *)
Definition wrap (z : Z) : Z := (z + 2 ^ 63) mod 2 ^ 64 - 2 ^ 63.

Definition in_range (z : Z) : Prop := min_int <= z <= max_int.

(** [n++] *)
Definition incr (n : Z) : Z := wrap (n + 1).

End GoInt.

(** ** Decimal formatting: [fmt.Sprintf("%04d", n)] and [strconv.FormatInt] *)

Module Fmt.

(** [byte('0' + d)] *)
Definition digit_byte (d : Z) : ascii := ascii_of_N (Z.to_N (48 + d)).

(** The digit loop of the formatter: [for u >= 10 { buf[i] = '0' + u%10;
    u /= 10 }] followed by the last digit.  The buffer is filled from the
    right, so each digit is put in front of what is already there.  A
    64-bit magnitude has at most 20 digits, which bounds the loop. *)
Fixpoint fmt_digits (fuel : nat) (u : Z) (buf : string) : string :=
  match fuel with
  | O => buf
  | S fuel' =>
      if 10 <=? u
      then fmt_digits fuel' (u / 10) (String (digit_byte (u mod 10)) buf)
      else String (digit_byte u) buf
  end.

Definition max_digits : nat := 20.

(** [for prec > len(digits) { buf[i] = '0' }] *)
Fixpoint zeros (k : nat) : string :=
  match k with
  | O => EmptyString
  | S k' => String "0"%char (zeros k')
  end.

Definition pad_zeros (prec : nat) (digits : string) : string :=
  String.append (zeros (prec - String.length digits)) digits.

(** [fmt.Sprintf("%04d", n)]: width 4 with the zero flag.  The sign takes
    one column of the width, the zeros go between the sign and the
    digits. *)
Definition Sprintf_04d (n : Z) : string :=
  if n <? 0
  then String "-"%char (pad_zeros 3 (fmt_digits max_digits (- n) EmptyString))
  else pad_zeros 4 (fmt_digits max_digits n EmptyString).

(** [strconv.FormatInt(n, 10)] *)
Definition FormatInt (n : Z) : string :=
  if n <? 0
  then String "-"%char (fmt_digits max_digits (- n) EmptyString)
  else fmt_digits max_digits n EmptyString.

(** Reading a string of decimal digits back (the value a reader of the
    identifier recovers from the sequence part). *)
Fixpoint dec_value (s : string) (acc : Z) : Z :=
  match s with
  | EmptyString => acc
  | String c r => dec_value r (10 * acc + (Z.of_N (N_of_ascii c) - 48))
  end.

End Fmt.

(** ** Errors, panics and the deferred [recover] *)

(** What the validator of the JWT library finds wrong with a claim. *)
Inductive claim_error : Type :=
| TokenExpired               (* jwt.ErrTokenExpired *)
| TokenNotValidYet           (* jwt.ErrTokenNotValidYet *)
| InvalidType (claim : string).  (* jwt.ErrInvalidType: "<claim> is invalid" *)

#[global] Instance claim_error_eq_dec : EqDecision claim_error.
Proof. solve_decision. Defined.

(** The error values the services return or test with [errors.Is]. *)
Inductive error : Type :=
| ErrRecordNotFound          (* gorm.ErrRecordNotFound *)
| ErrDuplicatedKey           (* gorm.ErrDuplicatedKey *)
| ErrUserAlreadyExists       (* user.ErrUserAlreadyExists *)
| ErrInvalidCredentials      (* user.ErrInvalidCredentials *)
| ErrUserNotFound            (* user.ErrUserNotFound *)
| ErrResetTokenNotFound      (* reset.ErrResetTokenNotFound *)
| ErrResetTokenExpired       (* reset.ErrResetTokenExpired *)
| ErrInvalidKey              (* jwt.ErrInvalidKey *)
| ErrTokenMalformed          (* jwt.ErrTokenMalformed *)
| ErrTokenUnverifiable       (* jwt.ErrTokenUnverifiable *)
| ErrTokenSignatureInvalid   (* jwt.ErrTokenSignatureInvalid *)
| ErrTokenInvalidClaims (causes : list claim_error)
                             (* jwt.ErrTokenInvalidClaims, joined with the
                                errors of the claims in the order the
                                validator met them *)
| ErrorsNew (msg : string)   (* errors.New(msg), created on the spot *)
| ErrDriver (msg : string).  (* any other failure reported by the store *)

#[global] Instance error_eq_dec : EqDecision error.
Proof. solve_decision. Defined.

(** [errors.Is(err, target)] for the sentinel values above. *)
Definition errors_Is (err target : error) : bool := bool_decide (err = target).

Module Go.

(** How a function body ends: it returns, or it panics. *)
Inductive exit (A : Type) : Type :=
  | Return (a : A)
  | Panic (msg : string).
Arguments Return {A} a.
Arguments Panic {A} msg.

(** [s[:hi]]: in bounds exactly when [hi <= len(s)], a run-time panic
    otherwise. *)
Definition slice_to (s : string) (hi : nat) : exit string :=
  if (hi <=? String.length s)%nat
  then Return (String.substring 0 hi s)
  else Panic "slice bounds out of range".

End Go.

(** ** The relational store *)

Module Database.

Record User : Type := {
  Email : string;
  Password : string;
  Prefix : string;
  ActiveOrganizationID : Z
}.

Record Organization : Type := {
  OrgID : Z;
  OrgName : string
}.

Record ResetToken : Type := {
  TokID : Z;
  Token : string;
  ExpiredAt : Z;
  UserEmail : string
}.

(** The tables.  [users] is keyed by its primary key [email];
    [backpack_id_next_numbers] holds the [number] column keyed by the
    uniquely indexed [backpack_id] column (the allocator never uses the
    surrogate id); [organizations] and [reset_tokens] are rows in
    primary-key order, their ids drawn from a sequence. *)
Record DB : Type := {
  users : gmap string User;
  organizations : list Organization;
  organization_users : list (Z * string);
  backpack_id_next_numbers : gmap string Z;
  reset_tokens : list ResetToken;
  organizations_seq : Z;
  reset_tokens_seq : Z
}.

Definition empty : DB := {|
  users := ∅; organizations := []; organization_users := [];
  backpack_id_next_numbers := ∅; reset_tokens := [];
  organizations_seq := 0; reset_tokens_seq := 0
|}.

Definition set_users (f : gmap string User -> gmap string User) (db : DB) : DB :=
  {| users := f (users db); organizations := organizations db;
     organization_users := organization_users db;
     backpack_id_next_numbers := backpack_id_next_numbers db;
     reset_tokens := reset_tokens db;
     organizations_seq := organizations_seq db;
     reset_tokens_seq := reset_tokens_seq db |}.

Definition set_next_numbers (f : gmap string Z -> gmap string Z) (db : DB) : DB :=
  {| users := users db; organizations := organizations db;
     organization_users := organization_users db;
     backpack_id_next_numbers := f (backpack_id_next_numbers db);
     reset_tokens := reset_tokens db;
     organizations_seq := organizations_seq db;
     reset_tokens_seq := reset_tokens_seq db |}.

Definition set_reset_tokens (f : list ResetToken -> list ResetToken) (seq : Z) (db : DB) : DB :=
  {| users := users db; organizations := organizations db;
     organization_users := organization_users db;
     backpack_id_next_numbers := backpack_id_next_numbers db;
     reset_tokens := f (reset_tokens db);
     organizations_seq := organizations_seq db;
     reset_tokens_seq := seq |}.

(** *** Transactions: [db.Begin()], [tx.Commit()], [tx.Rollback()] *)

Inductive TxState : Type := Open | Committed | RolledBack.

Record Tx : Type := {
  at_begin : DB;     (* the store as [Begin] found it *)
  pending : DB;      (* the store as the writes of the transaction see it *)
  state : TxState
}.

Definition Begin (db : DB) : Tx :=
  {| at_begin := db; pending := db; state := Open |}.

Definition Rollback (tx : Tx) : Tx :=
  match state tx with
  | Open => {| at_begin := at_begin tx; pending := at_begin tx; state := RolledBack |}
  | _ => tx
  end.

Definition Commit (fault : option error) (tx : Tx) : Tx * option error :=
  match state tx, fault with
  | Open, None =>
      ({| at_begin := at_begin tx; pending := pending tx; state := Committed |}, None)
  | Open, Some e => (Rollback tx, Some e)
  | _, _ => (tx, Some (ErrDriver "transaction has already been committed or rolled back"))
  end.

(** What the other clients of the store see once the call is over. *)
Definition store_after (tx : Tx) : DB :=
  match state tx with
  | Committed => pending tx
  | _ => at_begin tx
  end.

Definition write (f : DB -> DB) (tx : Tx) : Tx :=
  {| at_begin := at_begin tx; pending := f (pending tx); state := state tx |}.

End Database.

(** ** The ID allocator ([internal/item]) *)

Module Item.
Import Database.

(** The outcome the engine gives to each store call of [getNextID]. *)
Record Faults : Type := {
  find_err : option error;     (* [tx.Where(...).First(&nextNumber)] *)
  create_err : option error;   (* [tx.Create(&nextNumber)] *)
  save_err : option error;     (* [tx.Save(&nextNumber)] *)
  commit_err : option error    (* [tx.Commit()] *)
}.

Definition no_faults : Faults :=
  {| find_err := None; create_err := None; save_err := None; commit_err := None |}.

(** [tx.Where("backpack_id = ?", prefix).First(&nextNumber).Error] *)
Definition First_next_number (fault : option error) (tx : Tx) (prefix : string)
  : Z + error :=
  match fault with
  | Some e => inr e
  | None =>
      match backpack_id_next_numbers (pending tx) !! prefix with
      | Some n => inl n
      | None => inr ErrRecordNotFound
      end
  end.

(** [tx.Create(&nextNumber)] and [tx.Save(&nextNumber)]: both leave the
    row of [prefix] holding [number]. *)
Definition put_next_number (fault : option error) (tx : Tx) (prefix : string) (number : Z)
  : Tx * option error :=
  match fault with
  | Some e => (tx, Some e)
  | None => (write (set_next_numbers (fun m => <[prefix := number]> m)) tx, None)
  end.

(** The tail shared by both branches: commit, then format. *)
Definition commit_and_format (env : Faults) (tx : Tx) (number : Z)
  : Go.exit (string * option error) * Tx :=
  match Commit (commit_err env) tx with
  | (tx', Some err) => (Go.Return (EmptyString, Some err), tx')
  | (tx', None) => (Go.Return (Fmt.Sprintf_04d number, None), tx')
  end.

Definition getNextID_body (env : Faults) (tx : Tx) (prefix : string)
  : Go.exit (string * option error) * Tx :=
  match First_next_number (find_err env) tx prefix with
  | inr err =>
      if errors_Is err ErrRecordNotFound then
        (* Create new record *)
        match put_next_number (create_err env) tx prefix 1 with
        | (tx', Some err') => (Go.Return (EmptyString, Some err'), Rollback tx')
        | (tx', None) => commit_and_format env tx' 1
        end
      else (Go.Return (EmptyString, Some err), Rollback tx)
  | inl number =>
      (* Increment existing record *)
      let number' := GoInt.incr number in
      match put_next_number (save_err env) tx prefix number' with
      | (tx', Some err') => (Go.Return (EmptyString, Some err'), Rollback tx')
      | (tx', None) => commit_and_format env tx' number'
      end
  end.

(** [getNextID]: the body runs in a transaction under a deferred
    [recover] that rolls back; a recovered panic makes the function return
    the zero values of its results. The second component is the store
    after the call. *)
Definition getNextID (env : Faults) (db : DB) (prefix : string)
  : (string * option error) * DB :=
  match getNextID_body env (Begin db) prefix with
  | (Go.Return r, tx) => (r, store_after tx)
  | (Go.Panic _, tx) => ((EmptyString, None), store_after (Rollback tx))
  end.

(** [n] allocations for one prefix, one after the other. *)
Fixpoint allocate (n : nat) (db : DB) (prefix : string) : list string * DB :=
  match n with
  | O => ([], db)
  | S n' =>
      let '((id, _), db') := getNextID no_faults db prefix in
      let '(ids, db'') := allocate n' db' prefix in
      (id :: ids, db'')
  end.

End Item.

(** ** Allocations that run at the same time *)

(** [getNextID] one store call at a time, for requests that share the
    store.  Every request runs in a transaction of its own, opened by
    [s.db.Begin()] with no options: the isolation level is the default of
    the engine, which for PostgreSQL (the driver [database.go] opens) is
    READ COMMITTED.  There a statement sees what is committed when it
    starts; a write to a row that another open transaction has written
    waits until that transaction ends, and then goes on from the row as
    it is committed. *)
Module Allocations.
Import Database.

(** Where a request stands in [getNextID]. *)
Inductive Stage : Type :=
  | Starting                    (* before [s.db.Begin()] *)
  | Finding                     (* before [tx.Where(...).First(&nextNumber)] *)
  | Creating                    (* no row was found: before [tx.Create(&nextNumber)] *)
  | Saving (number : Z)         (* the row was found and [Number] incremented:
                                   before [tx.Save(&nextNumber)] *)
  | Committing (number : Z)     (* the row is written in the transaction:
                                   before [tx.Commit()] *)
  | Returned (id : string) (err : option error).

Record Request : Type := {
  prefix : string;
  env : Item.Faults;
  stage : Stage
}.

Definition request (prefix : string) : Request :=
  {| prefix := prefix; env := Item.no_faults; stage := Starting |}.

Definition at_stage (r : Request) (st : Stage) : Request :=
  {| prefix := prefix r; env := env r; stage := st |}.

(** Whether one of the other requests holds an uncommitted write to the
    row of [p]. *)
Definition row_locked (others : list Request) (p : string) : bool :=
  existsb (fun r => match stage r with
                    | Committing _ => String.eqb (prefix r) p
                    | _ => false
                    end) others.

(** The next store call of a request, on the committed store.  A request
    that has to wait is left where it is. *)
Definition step (store : DB) (others : list Request) (r : Request) : DB * Request :=
  match stage r with
  | Starting => (store, at_stage r Finding)
  | Finding =>
      match Item.First_next_number (Item.find_err (env r)) (Begin store) (prefix r) with
      | inr err =>
          if errors_Is err ErrRecordNotFound
          then (store, at_stage r Creating)
          else (store, at_stage r (Returned EmptyString (Some err)))
      | inl number => (store, at_stage r (Saving (GoInt.incr number)))
      end
  | Creating =>
      if row_locked others (prefix r) then (store, r)
      else
        match Item.create_err (env r) with
        | Some e => (store, at_stage r (Returned EmptyString (Some e)))
        | None =>
            match backpack_id_next_numbers store !! prefix r with
            | Some _ =>
                (store,
                 at_stage r (Returned EmptyString
                               (Some (ErrDriver "duplicate key value violates unique constraint"))))
            | None => (store, at_stage r (Committing 1))
            end
        end
  | Saving number =>
      if row_locked others (prefix r) then (store, r)
      else
        match Item.save_err (env r) with
        | Some e => (store, at_stage r (Returned EmptyString (Some e)))
        | None => (store, at_stage r (Committing number))
        end
  | Committing number =>
      match Item.commit_err (env r) with
      | Some e => (store, at_stage r (Returned EmptyString (Some e)))
      | None =>
          (set_next_numbers (fun m => <[prefix r := number]> m) store,
           at_stage r (Returned (Fmt.Sprintf_04d number) None))
      end
  | Returned _ _ => (store, r)
  end.

(** The requests run in the order of [schedule], which names the request
    that makes the next store call. *)
Fixpoint run (schedule : list nat) (store : DB) (requests : list Request)
  : DB * list Request :=
  match schedule with
  | [] => (store, requests)
  | i :: rest =>
      match requests !! i with
      | None => run rest store requests
      | Some r =>
          let '(store', r') := step store (delete i requests) r in
          run rest store' (<[i := r']> requests)
      end
  end.

(** Two requests, each making its four calls before the other starts. *)
Definition one_after_the_other : list nat := [0; 0; 0; 0; 1; 1; 1; 1]%nat.

(** Two requests that both read the row before either writes it. *)
Definition both_read_first : list nat := [0; 1; 0; 1; 0; 0; 1; 1]%nat.

End Allocations.

(** ** Byte strings *)

Module Bytes.

(** The value of a byte of a Go string. *)
Definition byte (c : ascii) : Z := Z.of_N (N_of_ascii c).

Definition of_string (s : string) : list Z := map byte (list_ascii_of_string s).

Definition to_string (l : list Z) : string :=
  string_of_list_ascii (map (fun b => ascii_of_N (Z.to_N (b mod 256))) l).

(** [n] zero bytes. *)
Definition zeros (n : nat) : string := to_string (repeat 0 n).

(** The [n] bytes of [v], most significant first
    ([binary.BigEndian.PutUint32], [PutUint64]). *)
Fixpoint big_endian (n : nat) (v : Z) : list Z :=
  match n with
  | O => []
  | S n' => Z.shiftr v (8 * Z.of_nat n') mod 256 :: big_endian n' v
  end.

(** [binary.BigEndian.Uint32], [Uint64]. *)
Definition of_big_endian (l : list Z) : Z := fold_left (fun acc b => 256 * acc + b) l 0.

(** [hex.EncodeToString] *)
Definition hex (s : string) : string :=
  let digit (n : Z) := ascii_of_N (Z.to_N (if n <? 10 then 48 + n else 87 + n)) in
  string_of_list_ascii (flat_map (fun b => [digit (b / 16); digit (b mod 16)]) (of_string s)).

(** A list cut into pieces of [n] elements. *)
Fixpoint chunks {A} (fuel n : nat) (l : list A) : list (list A) :=
  match fuel, l with
  | O, _ | _, [] => []
  | S fuel', _ => firstn n l :: chunks fuel' n (skipn n l)
  end.

End Bytes.

(** ** SHA-2 ([crypto/sha256], [crypto/sha512]) *)

(** The digests HMAC is built on.  [hmac.New] hashes a key that is longer
    than a block, so the digests decide which keys sign alike. *)
Module Sha2.
Import Bytes.

Record Params : Type := {
  bits : Z;                (* the word size *)
  K : list Z;              (* the round constants *)
  init : list Z;           (* the initial hash value *)
  Sum0 : Z * Z * Z;        (* the rotations of the two large sigmas *)
  Sum1 : Z * Z * Z;
  sig0 : Z * Z * Z;        (* two rotations and a shift for the small ones *)
  sig1 : Z * Z * Z;
  Size : nat               (* bytes of the digest *)
}.

(** The constants, as FIPS 180-4 defines them: the first bits of the
    fractional parts of the cube roots (round constants) and of the square
    roots (initial values) of the first prime numbers. *)

(** The [k]-th root of [n], rounded down, by bisection between [lo] and
    [hi]. *)
Fixpoint root_between (fuel : nat) (k n lo hi : Z) : Z :=
  match fuel with
  | O => lo
  | S fuel' =>
      if hi - lo <=? 1 then lo
      else
        let mid := (lo + hi) / 2 in
        if mid ^ k <=? n
        then root_between fuel' k n mid hi
        else root_between fuel' k n lo mid
  end.

Definition root (k n : Z) : Z :=
  root_between (Z.to_nat (Z.log2 n + 2)) k n 0 (2 ^ (Z.log2 n / k + 1)).

(** The first [w] bits of the fractional part of the [k]-th root of [p]. *)
Definition fraction_bits (k w p : Z) : Z := root k (p * 2 ^ (k * w)) mod 2 ^ w.

(** The primes among the first [fuel] numbers from [candidate] on, by
    trial division by the primes found. *)
Fixpoint primes_from (fuel : nat) (candidate : Z) (found : list Z) : list Z :=
  match fuel with
  | O => found
  | S fuel' =>
      if forallb (fun q => negb (candidate mod q =? 0)) found
      then primes_from fuel' (candidate + 1) (found ++ [candidate])
      else primes_from fuel' (candidate + 1) found
  end.

(** The first [n] primes; the 80th is 409. *)
Definition primes (n : nat) : list Z := firstn n (primes_from 410 2 []).

Definition sha256 : Params := Eval vm_compute in {|
  bits := 32;
  K := map (fraction_bits 3 32) (primes 64);
  init := map (fraction_bits 2 32) (primes 8);
  Sum0 := (2, 13, 22); Sum1 := (6, 11, 25);
  sig0 := (7, 18, 3); sig1 := (17, 19, 10);
  Size := 32
|}.

Definition sha512 : Params := Eval vm_compute in {|
  bits := 64;
  K := map (fraction_bits 3 64) (primes 80);
  init := map (fraction_bits 2 64) (primes 8);
  Sum0 := (28, 34, 39); Sum1 := (14, 18, 41);
  sig0 := (1, 8, 7); sig1 := (19, 61, 6);
  Size := 64
|}.

(** SHA-384 is SHA-512 from another initial value (the square roots of the
    9th to 16th primes), cut to 48 bytes. *)
Definition sha384 : Params := Eval vm_compute in {|
  bits := 64;
  K := K sha512;
  init := map (fraction_bits 2 64) (skipn 8 (primes 16));
  Sum0 := Sum0 sha512; Sum1 := Sum1 sha512;
  sig0 := sig0 sha512; sig1 := sig1 sha512;
  Size := 48
|}.

Section Digest.
Variable p : Params.

(** [BlockSize]: 16 words. *)
Definition BlockSize : nat := Z.to_nat (2 * bits p).

Definition word_bytes : nat := Z.to_nat (bits p / 8).

Definition word (x : Z) : Z := x mod 2 ^ bits p.

Definition add (x y : Z) : Z := word (x + y).

Definition rotr (n x : Z) : Z :=
  Z.lor (Z.shiftr x n) (word (Z.shiftl x (bits p - n))).

Definition Sigma (r : Z * Z * Z) (x : Z) : Z :=
  let '(a, b, c) := r in Z.lxor (Z.lxor (rotr a x) (rotr b x)) (rotr c x).

Definition sigma (r : Z * Z * Z) (x : Z) : Z :=
  let '(a, b, c) := r in Z.lxor (Z.lxor (rotr a x) (rotr b x)) (Z.shiftr x c).

Definition Ch (x y z : Z) : Z :=
  Z.lxor (Z.land x y) (Z.land (Z.lxor x (2 ^ bits p - 1)) z).

Definition Maj (x y z : Z) : Z :=
  Z.lxor (Z.lxor (Z.land x y) (Z.land x z)) (Z.land y z).

(** The padding: a 1 bit, zeros, and the length of the message in bits
    in the last two words of the last block. *)
Definition pad (msg : list Z) : list Z :=
  let len := length msg in
  let field := (2 * word_bytes)%nat in
  let used := ((len + 1 + field) mod BlockSize)%nat in
  let fill := ((BlockSize - used) mod BlockSize)%nat in
  msg ++ [128] ++ repeat 0 fill ++ big_endian field (8 * Z.of_nat len).

(** The message schedule, newest word first: [W t] from the words 2, 7,
    15 and 16 places before it. *)
Fixpoint schedule (n : nat) (rev_w : list Z) : list Z :=
  match n with
  | O => rev_w
  | S n' =>
      let w := add (add (sigma (sig1 p) (nth 1 rev_w 0)) (nth 6 rev_w 0))
                   (add (sigma (sig0 p) (nth 14 rev_w 0)) (nth 15 rev_w 0)) in
      schedule n' (w :: rev_w)
  end.

Definition State : Type := Z * Z * Z * Z * Z * Z * Z * Z.

Definition round (st : State) (kw : Z * Z) : State :=
  let '(a, b, c, d, e, f, g, h) := st in
  let t1 := add (add (add h (Sigma (Sum1 p) e)) (Ch e f g)) (add (fst kw) (snd kw)) in
  let t2 := add (Sigma (Sum0 p) a) (Maj a b c) in
  (add t1 t2, a, b, c, add d t1, e, f, g).

Definition state_of (l : list Z) : State :=
  (nth 0 l 0, nth 1 l 0, nth 2 l 0, nth 3 l 0, nth 4 l 0, nth 5 l 0, nth 6 l 0, nth 7 l 0).

Definition list_of (st : State) : list Z :=
  let '(a, b, c, d, e, f, g, h) := st in [a; b; c; d; e; f; g; h].

(** One block: schedule, the rounds, and the sum with the value before. *)
Definition block (h : list Z) (bytes : list Z) : list Z :=
  let w16 := map of_big_endian (chunks 16 word_bytes bytes) in
  let w := rev (schedule (length (K p) - 16) (rev w16)) in
  let st := fold_left round (combine (K p) w) (state_of h) in
  map (fun xy => add (fst xy) (snd xy)) (combine h (list_of st)).

Definition Sum (msg : string) : string :=
  let padded := pad (of_string msg) in
  let h := fold_left block (chunks (length padded) BlockSize padded) (init p) in
  to_string (firstn (Size p) (flat_map (big_endian word_bytes) h)).

End Digest.

End Sha2.

(** ** HMAC ([crypto/hmac]) *)

Module Hmac.

(** The key as [hmac.New] uses it: a key longer than a block is replaced
    by its digest, and the key is then filled with zero bytes up to the
    block size.  The tag of a message depends on the key through this
    block only. *)
Definition block_key (p : Sha2.Params) (key : string) : string :=
  let k := if (Sha2.BlockSize p <? String.length key)%nat then Sha2.Sum p key else key in
  String.append k (Bytes.zeros (Sha2.BlockSize p - String.length k)).

End Hmac.

(** ** UTF-8 ([unicode/utf8]) and the strings of [encoding/json] *)

Module Utf8.
Import Bytes.

(** The entries of table [first]: what a leading byte announces. *)
Inductive Lead : Type :=
  | Ascii                            (* a byte below 0x80, a character by itself *)
  | Invalid                          (* not the first byte of any encoding *)
  | Multi (more : nat) (lo hi : Z).  (* [more] bytes follow, the first of
                                        them within [lo, hi] *)

Definition first (b : Z) : Lead :=
  if b <? 0x80 then Ascii
  else if b <? 0xC2 then Invalid
  else if b <? 0xE0 then Multi 1 0x80 0xBF
  else if b =? 0xE0 then Multi 2 0xA0 0xBF
  else if b <? 0xED then Multi 2 0x80 0xBF
  else if b =? 0xED then Multi 2 0x80 0x9F
  else if b <? 0xF0 then Multi 2 0x80 0xBF
  else if b =? 0xF0 then Multi 3 0x90 0xBF
  else if b <? 0xF4 then Multi 3 0x80 0xBF
  else if b =? 0xF4 then Multi 3 0x80 0x8F
  else Invalid.

Definition within (lo hi : Z) (c : ascii) : bool := (lo <=? byte c) && (byte c <=? hi).

(** [utf8.DecodeRuneInString], as far as the size goes: the number of
    bytes of the encoding the string starts with, and [None] where Go
    returns [RuneError] with size 1 (or 0, for the empty string). *)
Definition rune_size (s : string) : option nat :=
  match s with
  | EmptyString => None
  | String c0 r =>
      match first (byte c0), r with
      | Ascii, _ => Some 1%nat
      | Multi 1 lo hi, String c1 _ =>
          if within lo hi c1 then Some 2%nat else None
      | Multi 2 lo hi, String c1 (String c2 _) =>
          if within lo hi c1 && within 0x80 0xBF c2 then Some 3%nat else None
      | Multi 3 lo hi, String c1 (String c2 (String c3 _)) =>
          if within lo hi c1 && within 0x80 0xBF c2 && within 0x80 0xBF c3
          then Some 4%nat else None
      | _, _ => None
      end
  end.

(** [utf8.ValidString]; [pending] counts the bytes still to pass of the
    encoding under way. *)
Fixpoint valid (pending : nat) (s : string) : bool :=
  match s with
  | EmptyString => true
  | String c r =>
      match pending with
      | S k => valid k r
      | O =>
          match rune_size (String c r) with
          | Some n => valid (n - 1) r
          | None => false
          end
      end
  end.

Definition ValidString (s : string) : bool := valid 0 s.

(** U+FFFD, the replacement character, in UTF-8. *)
Definition replacement : string :=
  String (ascii_of_nat 239) (String (ascii_of_nat 191) (String (ascii_of_nat 189) EmptyString)).

(** A Go string as it comes back from a JSON text.  [encoding/json]
    writes every byte that is not part of a valid encoding as the escape of U+FFFD
    (the loop of [appendString]: [RuneError] with size 1), and coerces
    the string literals it reads in the same way; everything else it
    escapes is read back as it was. *)
Fixpoint coerce (pending : nat) (s : string) : string :=
  match s with
  | EmptyString => EmptyString
  | String c r =>
      match pending with
      | S k => String c (coerce k r)
      | O =>
          match rune_size (String c r) with
          | Some n => String c (coerce (n - 1) r)
          | None => String.append replacement (coerce 0 r)
          end
      end
  end.

Definition json_string (s : string) : string := coerce 0 s.




End Utf8.

(** ** The token codec ([github.com/golang-jwt/jwt/v5]) *)

(** The compact tokens of the JWT library, at the level the services use
    it.  A token is kept by what the parser reads off its three segments:
    the signing method of the header, the claims of the payload and the
    signature.  A signature that is the HMAC of the first two segments is
    kept by the block key it was made under ([Hmac.block_key]): the tag is
    a function of that block and of the text, and it is taken to tell
    different blocks apart.  Encoding is deterministic (the keys of the
    payload are sorted), so the service makes the same string exactly when
    method, claims and block agree. *)
Module JwtCodec.

(** A claim value, [interface{}] as JSON decoding produces it.  A number
    is a [float64] in Go; the numbers met here are whole seconds, which
    [float64] carries exactly (below 2^53). *)
Inductive Value : Type :=
  | VString (s : string)
  | VNumber (n : Z)
  | VBool (b : bool)
  | VNull.

#[global] Instance Value_eq_dec : EqDecision Value.
Proof. solve_decision. Defined.

Inductive Hash : Type := SHA256 | SHA384 | SHA512.

#[global] Instance Hash_eq_dec : EqDecision Hash.
Proof. solve_decision. Defined.

Definition params (h : Hash) : Sha2.Params :=
  match h with
  | SHA256 => Sha2.sha256
  | SHA384 => Sha2.sha384
  | SHA512 => Sha2.sha512
  end.

(** The [alg] of the header, as [jwt.GetSigningMethod] resolves it. *)
Inductive Method : Type :=
  | HS (h : Hash)                (* HS256, HS384, HS512 *)
  | Registered (alg : string)    (* a registered method of another family:
                                    RS256, PS256, ES256, EdDSA, none, ... *)
  | Unavailable.                 (* no [alg], or a name that is not registered *)

(** The third segment. *)
Inductive Signature : Type :=
  | Tag (block : string)   (* the HMAC of the first two segments, with the
                              hash of the header's method, under a key
                              whose block is [block] *)
  | NoTag.                 (* any other bytes *)

Inductive TokenString : Type :=
  | Opaque (raw : string)        (* a text the parser cannot take apart *)
  | Compact (method : Method) (claims : gmap string Value) (signature : Signature).

(** A token with an HMAC signature made under [key]. *)
Definition Signed (h : Hash) (claims : gmap string Value) (key : string) : TokenString :=
  Compact (HS h) claims (Tag (Hmac.block_key (params h) key)).

Definition second : Z := 1000000000.
Definition minute : Z := 60 * second.
Definition hour : Z := 60 * minute.

(** [t.Unix()]: whole seconds since the epoch, for an instant in
    nanoseconds. *)
Definition Unix (t : Z) : Z := t / second.

(** [v.(string)]: the value and [ok]. *)
Definition as_string (v : option Value) : string * bool :=
  match v with
  | Some (VString s) => (s, true)
  | _ => (EmptyString, false)
  end.

(** A value as it comes back from a JSON text. *)
Definition json_value (v : Value) : Value :=
  match v with
  | VString s => VString (Utf8.json_string s)
  | _ => v
  end.

(** [jwt.NewWithClaims(jwt.SigningMethodHS256, claims).SignedString(key)]:
    the claims are marshalled, the two segments signed with HMAC-SHA256.
    Neither step fails for a [[]byte] key and claims that are strings and
    integers. *)
Definition SignedString (claims : gmap string Value) (key : string)
  : TokenString * option error :=
  (Signed SHA256 (json_value <$> claims) key, None).

(** [MapClaims.parseNumericDate]: no claim and the number 0 both stand for
    no date. *)
Definition parseNumericDate (claims : gmap string Value) (key : string)
  : option Z + claim_error :=
  match claims !! key with
  | None => inl None
  | Some (VNumber n) => if n =? 0 then inl None else inl (Some n)
  | Some _ => inr (InvalidType key)
  end.

(** [Validator.verifyExpiresAt]: [now.Before(exp)], the claim not being
    required. *)
Definition verifyExpiresAt (claims : gmap string Value) (now : Z) : option claim_error :=
  match parseNumericDate claims "exp" with
  | inr err => Some err
  | inl None => None
  | inl (Some exp) => if now <? exp * second then None else Some TokenExpired
  end.

(** [Validator.verifyNotBefore]: [!now.Before(nbf)]. *)
Definition verifyNotBefore (claims : gmap string Value) (now : Z) : option claim_error :=
  match parseNumericDate claims "nbf" with
  | inr err => Some err
  | inl None => None
  | inl (Some nbf) => if now <? nbf * second then Some TokenNotValidYet else None
  end.

(** [Validator.Validate] with the options of [jwt.Parse]: expiry and
    not-before are checked; issued-at, audience, issuer and subject are
    not. *)
Definition Validate (claims : gmap string Value) (now : Z) : list claim_error :=
  option_list (verifyExpiresAt claims now) ++ option_list (verifyNotBefore claims now).

(** [token.Method.Verify(text, signature, key)] for a [[]byte] key: the
    HMAC methods recompute the tag; the other families refuse the type of
    the key. *)
Definition Verify (m : Method) (sig : Signature) (key : string) : bool :=
  match m, sig with
  | HS h, Tag block => bool_decide (block = Hmac.block_key (params h) key)
  | _, _ => false
  end.

(** [jwt.Parse(tokenString, keyfunc)] at the instant [now], for a key
    function that returns [key] whatever the header says: the segments are
    decoded (JSON coerces the strings it reads), the signature is verified,
    then the claims are validated. *)
Definition Parse (tokenString : TokenString) (key : string) (now : Z)
  : gmap string Value + error :=
  match tokenString with
  | Opaque _ => inr ErrTokenMalformed
  | Compact Unavailable _ _ => inr ErrTokenUnverifiable
  | Compact m payload sig =>
      let claims := json_value <$> payload in
      if Verify m sig key then
        match Validate claims now with
        | [] => inl claims
        | errs => inr (ErrTokenInvalidClaims errs)
        end
      else inr ErrTokenSignatureInvalid
  end.

Record JWTConfig : Type := {
  SecretKey : string;
  AccessTokenDuration : Z;
  RefreshTokenDuration : Z
}.

Record TokenResponse : Type := {
  Token : TokenString;          (* json:"token" *)
  RefreshToken : TokenString    (* json:"refresh_token" *)
}.

End JwtCodec.

(** ** The JWT service, with kind-tagged tokens *)

Module Jwt.
Import JwtCodec.

Definition GenerateToken (s : JWTConfig) (now : Z) (email : string) (expiry : Z)
  : TokenString * option error :=
  SignedString
    (<["email"%string := VString email]>
       (<["exp"%string := VNumber (Unix (now + expiry))]> ∅))
    (SecretKey s).

Definition GenerateAccessToken (s : JWTConfig) (now : Z) (email : string)
  : TokenString * option error :=
  SignedString
    (<["email"%string := VString email]>
       (<["token_type"%string := VString "access"]>
          (<["exp"%string := VNumber (Unix (now + AccessTokenDuration s))]> ∅)))
    (SecretKey s).

Definition GenerateRefreshToken (s : JWTConfig) (now : Z) (email : string)
  : TokenString * option error :=
  SignedString
    (<["email"%string := VString email]>
       (<["token_type"%string := VString "refresh"]>
          (<["exp"%string := VNumber (Unix (now + RefreshTokenDuration s))]> ∅)))
    (SecretKey s).

(** [GenerateTokenPair]: the clock is read once for each token. *)
Definition GenerateTokenPair (s : JWTConfig) (now_access now_refresh : Z) (email : string)
  : option TokenResponse * option error :=
  match GenerateAccessToken s now_access email with
  | (_, Some err) => (None, Some err)
  | (accessToken, None) =>
      match GenerateRefreshToken s now_refresh email with
      | (_, Some err) => (None, Some err)
      | (refreshToken, None) =>
          (Some {| Token := accessToken; RefreshToken := refreshToken |}, None)
      end
  end.

(** The part both validators share after the kind check. *)
Definition email_claim (claims : gmap string Value) : string * option error :=
  let '(email, ok) := as_string (claims !! "email"%string) in
  if negb ok then (EmptyString, Some ErrInvalidKey) else (email, None).

Definition ValidateToken (s : JWTConfig) (now : Z) (tokenString : TokenString)
  : string * option error :=
  match Parse tokenString (SecretKey s) now with
  | inr err => (EmptyString, Some err)
  | inl claims =>
      (* accept tokens without token_type for backward compatibility *)
      let '(tokenType, ok) := as_string (claims !! "token_type"%string) in
      if ok && negb (String.eqb tokenType "access")
      then (EmptyString, Some ErrInvalidKey)
      else email_claim claims
  end.

Definition ValidateRefreshToken (s : JWTConfig) (now : Z) (tokenString : TokenString)
  : string * option error :=
  match Parse tokenString (SecretKey s) now with
  | inr err => (EmptyString, Some err)
  | inl claims =>
      let '(tokenType, ok) := as_string (claims !! "token_type"%string) in
      if ok && negb (String.eqb tokenType "refresh")
      then (EmptyString, Some ErrInvalidKey)
      else email_claim claims
  end.

Definition GetAccessTokenDuration (s : JWTConfig) : Z := AccessTokenDuration s.

End Jwt.

(** The claim sets the three generators write, by kind. *)
Module ClaimSets.
Import JwtCodec.

Definition claims_of (email : string) (kind : option string) (exp : Z) : gmap string Value :=
  match kind with
  | None => <["email"%string := VString email]> (<["exp"%string := VNumber exp]> ∅)
  | Some k =>
      <["email"%string := VString email]>
        (<["token_type"%string := VString k]> (<["exp"%string := VNumber exp]> ∅))
  end.

End ClaimSets.

(** ** The JWT service without kind tags (the plain build) *)

Module JwtPlain.
Import JwtCodec.

Definition GenerateToken (s : JWTConfig) (now : Z) (email : string) (expiry : Z)
  : TokenString * option error :=
  SignedString
    (<["email"%string := VString email]>
       (<["exp"%string := VNumber (Unix (now + expiry))]> ∅))
    (SecretKey s).

Definition GenerateTokenPair (s : JWTConfig) (now_access now_refresh : Z) (email : string)
  : option TokenResponse * option error :=
  match GenerateToken s now_access email (AccessTokenDuration s) with
  | (_, Some err) => (None, Some err)
  | (accessToken, None) =>
      match GenerateToken s now_refresh email (RefreshTokenDuration s) with
      | (_, Some err) => (None, Some err)
      | (refreshToken, None) =>
          (Some {| Token := accessToken; RefreshToken := refreshToken |}, None)
      end
  end.

Definition ValidateToken (s : JWTConfig) (now : Z) (tokenString : TokenString)
  : string * option error :=
  match Parse tokenString (SecretKey s) now with
  | inr err => (EmptyString, Some err)
  | inl claims =>
      let '(email, ok) := as_string (claims !! "email"%string) in
      if negb ok then (EmptyString, Some ErrInvalidKey) else (email, None)
  end.

Definition GetAccessTokenDuration (s : JWTConfig) : Z := AccessTokenDuration s.

End JwtPlain.

(** ** The user service ([internal/user]) *)

Module User.
Import Database.

(** [db.First(&user, "email = ?", email).Error] *)
Definition First_user (fault : option error) (db : DB) (email : string)
  : User + error :=
  match fault with
  | Some e => inr e
  | None =>
      match users db !! email with
      | Some user => inl user
      | None => inr ErrRecordNotFound
      end
  end.

(** [ValidateUser]; it reads the same in both builds of the package. *)
Definition ValidateUser (fault : option error) (db : DB) (email password : string)
  : option error :=
  match First_user fault db email with
  | inr err =>
      if errors_Is err ErrRecordNotFound then Some ErrInvalidCredentials else Some err
  | inl user =>
      if negb (String.eqb (Password user) password)
      then Some ErrInvalidCredentials
      else None
  end.

(** [GetUser]; it reads the same in both builds of the package. *)
Definition GetUser (fault : option error) (db : DB) (email : string)
  : option User * option error :=
  match First_user fault db email with
  | inr err =>
      if errors_Is err ErrRecordNotFound then (None, Some ErrUserNotFound) else (None, Some err)
  | inl user => (Some user, None)
  end.

(** The outcome the engine gives to each store call of [CreateUser].
    [duplicate_err] is what the engine reports for a second row with the
    same primary key: [ErrDuplicatedKey] where the dialect translates it,
    the driver's own error otherwise. *)
Record Faults : Type := {
  begin_err : option error;         (* [s.db.Begin()] *)
  create_org_err : option error;    (* [tx.Create(organization)] *)
  create_user_err : option error;   (* [tx.Create(user)] *)
  duplicate_err : error;
  append_err : option error;        (* [Association("Users").Append(user)] *)
  commit_err : option error         (* [tx.Commit()] *)
}.

Definition no_faults : Faults :=
  {| begin_err := None; create_org_err := None; create_user_err := None;
     duplicate_err := ErrDuplicatedKey; append_err := None; commit_err := None |}.

(** [tx.Create(organization)]: the row gets the next id of the sequence,
    which [Create] writes back into the struct. *)
Definition Create_organization (fault : option error) (tx : Tx) (name : string)
  : Tx * (Organization + error) :=
  match fault with
  | Some e => (tx, inr e)
  | None =>
      let id := organizations_seq (pending tx) + 1 in
      let organization := {| OrgID := id; OrgName := name |} in
      (write (fun db =>
                {| users := users db;
                   organizations := organizations db ++ [organization];
                   organization_users := organization_users db;
                   backpack_id_next_numbers := backpack_id_next_numbers db;
                   reset_tokens := reset_tokens db;
                   organizations_seq := id;
                   reset_tokens_seq := reset_tokens_seq db |}) tx,
       inl organization)
  end.

(** [tx.Create(user)]: [email] is the primary key. *)
Definition Create_user (fault : option error) (duplicate : error) (tx : Tx) (user : User)
  : Tx * option error :=
  match fault with
  | Some e => (tx, Some e)
  | None =>
      match users (pending tx) !! Email user with
      | Some _ => (tx, Some duplicate)
      | None => (write (set_users (fun m => <[Email user := user]> m)) tx, None)
      end
  end.

(** [tx.Model(&organization).Association("Users").Append(user)] *)
Definition Append_user (fault : option error) (tx : Tx) (organization : Organization) (user : User)
  : Tx * option error :=
  match fault with
  | Some e => (tx, Some e)
  | None =>
      (write (fun db =>
                {| users := users db;
                   organizations := organizations db;
                   organization_users :=
                     organization_users db ++ [(OrgID organization, Email user)];
                   backpack_id_next_numbers := backpack_id_next_numbers db;
                   reset_tokens := reset_tokens db;
                   organizations_seq := organizations_seq db;
                   reset_tokens_seq := reset_tokens_seq db |}) tx,
       None)
  end.

(** The statements of [CreateUser] that run inside the transaction. *)
Definition CreateUser_body (env : Faults) (tx : Tx) (email password : string)
  : Go.exit (option error) * Tx :=
  (* Create organization first *)
  match Create_organization (create_org_err env) tx (String.append email "_org") with
  | (tx1, inr err) => (Go.Return (Some err), Rollback tx1)
  | (tx1, inl organization) =>
      (* Create user with organization; the prefix is [email[:3]] *)
      match Go.slice_to email 3 with
      | Go.Panic msg => (Go.Panic msg, tx1)
      | Go.Return prefix =>
          let user := {| Email := email; Password := password; Prefix := prefix;
                         ActiveOrganizationID := OrgID organization |} in
          match Create_user (create_user_err env) (duplicate_err env) tx1 user with
          | (tx2, Some err) =>
              (Go.Return (if errors_Is err ErrDuplicatedKey
                          then Some ErrUserAlreadyExists else Some err),
               Rollback tx2)
          | (tx2, None) =>
              (* the junction row: an error is logged and dropped *)
              let '(tx3, _) := Append_user (append_err env) tx2 organization user in
              let '(tx4, err) := Commit (commit_err env) tx3 in
              (Go.Return err, tx4)
          end
      end
  end.

(** [CreateUser] of the build with organizations, together with the
    transaction as the call leaves it ([None] when the call returns before
    one is open).  The result is unnamed, so after a panic that the
    deferred function recovers the caller receives the zero value, a nil
    error. *)
Definition CreateUser_tx (env : Faults) (db : DB) (email password : string)
  : option error * option Tx :=
  if String.eqb email "" then (Some (ErrorsNew "email cannot be empty"), None)
  else if String.eqb password "" then (Some (ErrorsNew "password cannot be empty"), None)
  else
    match begin_err env with
    | Some e => (Some e, None)
    | None =>
        match CreateUser_body env (Begin db) email password with
        | (Go.Return r, tx) => (r, Some tx)
        | (Go.Panic _, tx) =>
            (* the deferred function: [recover() != nil], so [tx.Rollback()] *)
            (None, Some (Rollback tx))
        end
    end.

(** [CreateUser] with the store after the call. *)
Definition CreateUser (env : Faults) (db : DB) (email password : string)
  : option error * DB :=
  let '(err, tx) := CreateUser_tx env db email password in
  (err, match tx with
        | Some tx => store_after tx
        | None => db
        end).

(** [CreateUser] of the plain build: one row, no transaction. *)
Definition CreateUser_plain (fault : option error) (duplicate : error) (db : DB)
    (email password : string) : option error * DB :=
  let user := {| Email := email; Password := password; Prefix := EmptyString;
                 ActiveOrganizationID := 0 |} in
  match Create_user fault duplicate (Begin db) user with
  | (_, Some err) =>
      (if errors_Is err ErrDuplicatedKey then Some ErrUserAlreadyExists else Some err, db)
  | (tx, None) => (None, pending tx)
  end.

End User.

(** ** The password-reset service ([internal/reset]) *)

Module Reset.
Import Database.

(** [s.db.Where("user_email = ?", userEmail).Delete(&database.ResetToken{})] *)
Definition delete_tokens_of (userEmail : string) (rows : list ResetToken) : list ResetToken :=
  filter (fun r => UserEmail r ≠ userEmail) rows.

(** [db.Delete(&resetToken)]: by primary key. *)
Definition delete_token (id : Z) (rows : list ResetToken) : list ResetToken :=
  filter (fun r => TokID r ≠ id) rows.

(** [db.Create(&resetToken)]: the [token] column is uniquely indexed. *)
Definition Create_token (fault : option error) (db : DB)
    (token : string) (expiredAt : Z) (userEmail : string) : DB * option error :=
  match fault with
  | Some e => (db, Some e)
  | None =>
      if bool_decide (Exists (fun r => Token r = token) (reset_tokens db))
      then (db, Some (ErrDriver "duplicate key value violates unique constraint"))
      else
        let id := reset_tokens_seq db + 1 in
        (set_reset_tokens
           (fun rows => rows ++ [{| TokID := id; Token := token;
                                    ExpiredAt := expiredAt; UserEmail := userEmail |}])
           id db,
         None)
  end.

(** [Model(&database.User{}).Where("email = ?", email).Update("password", p)] *)
Definition Update_password (db : DB) (email password : string) : DB :=
  set_users
    (fun m => match m !! email with
              | Some u => <[email := {| Email := Email u; Password := password;
                                        Prefix := Prefix u;
                                        ActiveOrganizationID := ActiveOrganizationID u |}]> m
              | None => m
              end) db.

(** The outcome the engine gives to the store calls of the service.  Each
    call of the service issues at most one [Delete]; the service drops its
    result, so a failed [Delete] goes unnoticed. *)
Record Faults : Type := {
  find_user_err : option error;
  create_err : option error;
  find_token_err : option error;
  update_err : option error;
  delete_err : option error
}.

Definition no_faults : Faults :=
  {| find_user_err := None; create_err := None; find_token_err := None;
     update_err := None; delete_err := None |}.

(** A [Delete] whose result is dropped: the rows go when the engine serves
    the call and stay when it does not. *)
Definition Delete_dropped (fault : option error)
    (f : list ResetToken -> list ResetToken) (db : DB) : DB :=
  match fault with
  | Some _ => db
  | None => set_reset_tokens f (reset_tokens_seq db) db
  end.

(** [CreateResetToken]; [token] is the 15 characters [generateToken]
    draws. *)
Definition CreateResetToken (env : Faults) (db : DB) (now : Z) (token : string)
    (userEmail : string) : (string * option error) * DB :=
  match User.First_user (find_user_err env) db userEmail with
  | inr err =>
      if errors_Is err ErrRecordNotFound
      then ((EmptyString, Some (ErrorsNew "user not found")), db)
      else ((EmptyString, Some err), db)
  | inl _ =>
      (* Delete any existing tokens for this user *)
      let db1 := Delete_dropped (delete_err env) (delete_tokens_of userEmail) db in
      let expiredAt := now + 5 * JwtCodec.minute in
      match Create_token (create_err env) db1 token expiredAt userEmail with
      | (db2, Some err) => ((EmptyString, Some err), db2)
      | (db2, None) => ((token, None), db2)
      end
  end.

(** [ValidateResetToken]: an expired token is deleted when it is seen. *)
Definition ValidateResetToken (env : Faults) (db : DB) (now : Z) (token : string)
  : (option ResetToken * option error) * DB :=
  match find_token_err env with
  | Some e => ((None, Some e), db)
  | None =>
      match List.find (fun r => String.eqb (Token r) token) (reset_tokens db) with
      | None => ((None, Some ErrResetTokenNotFound), db)
      | Some resetToken =>
          if ExpiredAt resetToken <? now
          then
            (* Delete expired token *)
            ((None, Some ErrResetTokenExpired),
             Delete_dropped (delete_err env) (delete_token (TokID resetToken)) db)
          else ((Some resetToken, None), db)
      end
  end.

Definition ResetPassword (env : Faults) (db : DB) (now : Z) (token newPassword : string)
  : option error * DB :=
  match ValidateResetToken env db now token with
  | ((_, Some err), db1) => (Some err, db1)
  | ((None, None), db1) => (None, db1)   (* not reached: a nil error comes with a row *)
  | ((Some resetToken, None), db1) =>
      match update_err env with
      | Some e => (Some e, db1)
      | None =>
          let db2 := Update_password db1 (UserEmail resetToken) newPassword in
          (* Delete the used token *)
          (None, Delete_dropped (delete_err env) (delete_token (TokID resetToken)) db2)
      end
  end.

(** The rows of a user that can still be redeemed at [now]. *)
Definition live_tokens (db : DB) (userEmail : string) (now : Z) : list ResetToken :=
  filter (fun r => UserEmail r = userEmail ∧ now < ExpiredAt r) (reset_tokens db).

End Reset.

(** ** HTTP handlers ([internal/handlers]) *)

(** What a handler writes with [c.JSON(code, body)]. *)
Module Http.

Inductive Body : Type :=
  | ErrorBody (msg : string)                        (* gin.H{"error": msg} *)
  | MessageBody (msg : string)                      (* gin.H{"message": msg} *)
  | TokenBody (token : JwtCodec.TokenString)        (* gin.H{"token": token} *)
  | TokenPairBody (tokens : JwtCodec.TokenResponse) (* {"token":..,"refresh_token":..} *).

Record Response : Type := { Code : Z; Payload : Body }.

Definition StatusOK : Z := 200.
Definition StatusBadRequest : Z := 400.
Definition StatusUnauthorized : Z := 401.
Definition StatusNotFound : Z := 404.
Definition StatusInternalServerError : Z := 500.

(** The [refresh_token] field of a response body, when it has one. *)
Definition refresh_token_of (b : Body) : option JwtCodec.TokenString :=
  match b with
  | TokenPairBody tokens => Some (JwtCodec.RefreshToken tokens)
  | _ => None
  end.

(** The [token] field of a response body, when it has one. *)
Definition token_of (b : Body) : option JwtCodec.TokenString :=
  match b with
  | TokenBody token => Some token
  | TokenPairBody tokens => Some (JwtCodec.Token tokens)
  | _ => None
  end.

(** The body of a refresh request as [ShouldBindJSON] sees it. *)
Inductive RefreshBody : Type :=
  | Unreadable                                       (* [GetRawData] failed *)
  | NotJSON (why : string)                           (* no [RefreshRequest] in it *)
  | RefreshJSON (refresh_token : JwtCodec.TokenString).

(** [c.ShouldBindJSON(&req)] with [binding:"required"] on the field. *)
Definition bind_refresh (body : RefreshBody) : JwtCodec.TokenString + string :=
  match body with
  | Unreadable => inr "unexpected EOF"%string
  | NotJSON why => inr why
  | RefreshJSON (JwtCodec.Opaque EmptyString) =>
      inr "Field validation for 'RefreshToken' failed on the 'required' tag"%string
  | RefreshJSON token => inl token
  end.

(** The instants at which a refresh call reads the clock. *)
Record Clock : Type := {
  at_validate : Z;     (* inside [jwt.Parse] *)
  at_access : Z;       (* when the access token is made *)
  at_refresh : Z       (* when the refresh token is made *)
}.

End Http.

(** The handlers of the build with kind-tagged tokens. *)
Module Handlers.
Import Database JwtCodec Http.

Record Handlers : Type := {
  jwtService : JWTConfig;
  db : DB
}.

Definition RefreshToken (h : Handlers) (get_user_fault : option error)
    (clock : Clock) (body : RefreshBody) : Response :=
  match body with
  | Unreadable =>
      {| Code := StatusBadRequest; Payload := ErrorBody "Failed to read request body" |}
  | _ =>
      match bind_refresh body with
      | inr why =>
          {| Code := StatusBadRequest; Payload := ErrorBody (String.append "Invalid input: " why) |}
      | inl refreshToken =>
          (* Validate refresh token *)
          match Jwt.ValidateRefreshToken (jwtService h) (at_validate clock) refreshToken with
          | (_, Some _) =>
              {| Code := StatusUnauthorized; Payload := ErrorBody "Invalid refresh token" |}
          | (email, None) =>
              (* Verify user still exists *)
              match User.GetUser get_user_fault (db h) email with
              | (_, Some err) =>
                  if errors_Is err ErrUserNotFound
                  then {| Code := StatusUnauthorized; Payload := ErrorBody "User not found" |}
                  else {| Code := StatusInternalServerError;
                          Payload := ErrorBody "Failed to validate user" |}
              | (_, None) =>
                  (* Generate new token pair (both access and refresh tokens) *)
                  match Jwt.GenerateTokenPair (jwtService h)
                          (at_access clock) (at_refresh clock) email with
                  | (Some tokens, None) => {| Code := StatusOK; Payload := TokenPairBody tokens |}
                  | _ => {| Code := StatusInternalServerError;
                            Payload := ErrorBody "Failed to generate tokens" |}
                  end
              end
          end
      end
  end.

Record ResetFaults : Type := {
  find_user_err : option error;
  create_err : option error;
  find_token_err : option error;
  update_err : option error;
  delete_err : option error
}.

Definition no_faults : ResetFaults :=
  {| find_user_err := None; create_err := None; find_token_err := None;
     update_err := None; delete_err := None |}.

(** [RequestPasswordReset]; [username] is [None] when binding fails (no
    JSON body, or no username in it; the text of the binding error is left
    out).  The clock is read for the token text and again for the
    expiry. *)
Definition RequestPasswordReset (env : ResetFaults) (db : DB)
    (now_token now_expiry : Z) (username : option string) : Response * DB :=
  match username with
  | None => ({| Code := StatusBadRequest; Payload := ErrorBody "Invalid input: " |}, db)
  | Some username =>
      (* Check if user exists *)
      match User.First_user (find_user_err env) db username with
      | inr err =>
          if errors_Is err ErrRecordNotFound
          then ({| Code := StatusNotFound; Payload := ErrorBody "User not found" |}, db)
          else ({| Code := StatusInternalServerError;
                   Payload := ErrorBody "Failed to process request" |}, db)
      | inl user =>
          let token := String.append "reset_" (Fmt.FormatInt (Unix now_token)) in
          let expiredAt := now_expiry + 5 * minute in
          (* Save reset token *)
          match Reset.Create_token (create_err env) db token expiredAt (Email user) with
          | (db', Some _) =>
              ({| Code := StatusInternalServerError;
                  Payload := ErrorBody "Failed to create reset token" |}, db')
          | (db', None) =>
              ({| Code := StatusOK; Payload := MessageBody "Password reset token sent" |}, db')
          end
      end
  end.

(** [SetNewPassword]; the request is [None] when binding fails. *)
Definition SetNewPassword (env : ResetFaults) (db : DB) (now : Z)
    (req : option (string * string)) : Response * DB :=
  match req with
  | None => ({| Code := StatusBadRequest; Payload := ErrorBody "Invalid input: " |}, db)
  | Some (password, token) =>
      (* Find reset token: [token = ? AND expired_at > ?] *)
      match find_token_err env with
      | Some _ =>
          ({| Code := StatusInternalServerError;
              Payload := ErrorBody "Failed to validate token" |}, db)
      | None =>
          match List.find (fun r => String.eqb (Database.Token r) token && (now <? ExpiredAt r))
                  (reset_tokens db) with
          | None =>
              ({| Code := StatusBadRequest; Payload := ErrorBody "Invalid or expired token" |}, db)
          | Some resetToken =>
              match update_err env with
              | Some _ =>
                  ({| Code := StatusInternalServerError;
                      Payload := ErrorBody "Failed to update password" |}, db)
              | None =>
                  let db1 := Reset.Update_password db (UserEmail resetToken) password in
                  (* Delete used reset token; the result of the call is dropped *)
                  let db2 :=
                    match delete_err env with
                    | Some _ => db1
                    | None => set_reset_tokens (Reset.delete_token (TokID resetToken))
                                (reset_tokens_seq db1) db1
                    end in
                  ({| Code := StatusOK; Payload := MessageBody "Password updated successfully" |},
                   db2)
              end
          end
      end
  end.

End Handlers.

(** The handlers of the plain build. *)
Module HandlersPlain.
Import Database JwtCodec Http.

Record Handlers : Type := {
  jwtService : JWTConfig;
  db : DB
}.

Definition RefreshToken (h : Handlers) (get_user_fault : option error)
    (clock : Clock) (body : RefreshBody) : Response :=
  match bind_refresh body with
  | inr why =>
      {| Code := StatusBadRequest; Payload := ErrorBody (String.append "Invalid input: " why) |}
  | inl refreshToken =>
      match JwtPlain.ValidateToken (jwtService h) (at_validate clock) refreshToken with
      | (_, Some _) =>
          {| Code := StatusUnauthorized; Payload := ErrorBody "Invalid refresh token" |}
      | (email, None) =>
          (* Verify user still exists *)
          match User.GetUser get_user_fault (db h) email with
          | (_, Some err) =>
              if errors_Is err ErrUserNotFound
              then {| Code := StatusUnauthorized; Payload := ErrorBody "User not found" |}
              else {| Code := StatusInternalServerError;
                      Payload := ErrorBody "Failed to validate user" |}
          | (_, None) =>
              (* Generate new access token *)
              match JwtPlain.GenerateToken (jwtService h) (at_access clock) email
                      (JwtPlain.GetAccessTokenDuration (jwtService h)) with
              | (_, Some _) =>
                  {| Code := StatusInternalServerError;
                     Payload := ErrorBody "Failed to generate token" |}
              | (newToken, None) => {| Code := StatusOK; Payload := TokenBody newToken |}
              end
          end
      end
  end.

End HandlersPlain.

(** ** Concrete stores, tokens and requests used in the examples *)

Module Examples.
Import Database JwtCodec.

(** A store whose counter for prefix ABC stands at 41. *)
Definition db_abc41 : DB :=
  set_next_numbers (fun m => <["ABC"%string := 41]> m) Database.empty.

Definition cfg : JWTConfig :=
  {| SecretKey := "your-secret-key";
     AccessTokenDuration := 15 * minute;
     RefreshTokenDuration := 24 * hour |}.

Definition alice : User :=
  {| Email := "alice@example.com"; Password := "password123";
     Prefix := "ali"; ActiveOrganizationID := 1 |}.

(** A store with the single user alice. *)
Definition db_alice : DB :=
  set_users (fun m => <["alice@example.com"%string := alice]> m) Database.empty.





(** An address typed in ISO-8859-1: "ren", the byte 0xE9 (e with an acute
    accent there) and the domain.  The byte is not valid UTF-8. *)
Definition latin1_email : string :=
  String.append "ren" (String (ascii_of_nat 233) "@example.com").


(** An engine that serves every call but the write of the junction row. *)
Definition junction_fails : User.Faults :=
  {| User.begin_err := None; User.create_org_err := None; User.create_user_err := None;
     User.duplicate_err := ErrDuplicatedKey;
     User.append_err := Some (ErrDriver "no such table: organization_users");
     User.commit_err := None |}.

Definition clock : Http.Clock :=
  {| Http.at_validate := 60 * second;
     Http.at_access := 60 * second + 1;
     Http.at_refresh := 60 * second + 2 |}.

End Examples.

Module RefreshExamples.
Import Database JwtCodec Examples.

(** alice's refresh token, issued at the epoch. *)
Definition alice_refresh : TokenString :=
  fst (Jwt.GenerateRefreshToken cfg 0 "alice@example.com").

(** The refresh token the plain build issued to alice at the epoch. *)
Definition alice_refresh_plain : TokenString :=
  fst (JwtPlain.GenerateToken cfg 0 "alice@example.com" (RefreshTokenDuration cfg)).

Definition handlers : Handlers.Handlers :=
  {| Handlers.jwtService := cfg; Handlers.db := db_alice |}.

Definition handlers_plain : HandlersPlain.Handlers :=
  {| HandlersPlain.jwtService := cfg; HandlersPlain.db := db_alice |}.

(** The same services after alice was deleted from the store. *)
Definition handlers_no_alice : Handlers.Handlers :=
  {| Handlers.jwtService := cfg; Handlers.db := Database.empty |}.

Definition handlers_plain_no_alice : HandlersPlain.Handlers :=
  {| HandlersPlain.jwtService := cfg; HandlersPlain.db := Database.empty |}.

(** A second call, a minute after the first. *)
Definition later : Http.Clock :=
  {| Http.at_validate := 120 * second;
     Http.at_access := 120 * second + 1;
     Http.at_refresh := 120 * second + 2 |}.

End RefreshExamples.

Module ResetExamples.
Import Database JwtCodec Examples.

(** alice asks for a reset at second 1000 and again at second 1001. *)
Definition after_first_request : Http.Response * DB :=
  Handlers.RequestPasswordReset Handlers.no_faults db_alice
    (1000 * second) (1000 * second) (Some "alice@example.com"%string).

Definition after_second_request : Http.Response * DB :=
  Handlers.RequestPasswordReset Handlers.no_faults (snd after_first_request)
    (1001 * second) (1001 * second) (Some "alice@example.com"%string).

(** The first token is redeemed at second 1002. *)
Definition after_redeeming_first : Http.Response * DB :=
  Handlers.SetNewPassword Handlers.no_faults (snd after_second_request)
    (1002 * second) (Some ("hunter2"%string, "reset_1000"%string)).

(** The same two requests through the reset service, which draws the
    tokens at random. *)
Definition service_after_first : (string * option error) * DB :=
  Reset.CreateResetToken Reset.no_faults db_alice (1000 * second)
    "AAAAAAAAAAAAAAA" "alice@example.com".

Definition service_after_second : (string * option error) * DB :=
  Reset.CreateResetToken Reset.no_faults (snd service_after_first) (1001 * second)
    "BBBBBBBBBBBBBBB" "alice@example.com".

End ResetExamples.

Module ItemExamples.

(** An engine that serves the reads and writes and refuses the commit. *)
Definition commit_fails : Item.Faults :=
  {| Item.find_err := None; Item.create_err := None; Item.save_err := None;
     Item.commit_err := Some (ErrDriver "connection reset") |}.

End ItemExamples.

Module ResetTokens.

(** The token text [RequestPasswordReset] builds: "reset_" and the second
    of the request in decimal. *)
Definition token_at (now : Z) : string :=
  String.append "reset_" (Fmt.FormatInt (JwtCodec.Unix now)).

End ResetTokens.

(** ** The rest of the reset service *)

Module ResetService.
Import Database.

(** [CleanupExpiredTokens]: [Where("expired_at < ?", time.Now()).Delete]. *)
Definition CleanupExpiredTokens (fault : option error) (db : DB) (now : Z)
  : option error * DB :=
  match fault with
  | Some e => (Some e, db)
  | None =>
      (None,
       set_reset_tokens (filter (fun r => ~ ExpiredAt r < now)) (reset_tokens_seq db) db)
  end.

Definition letters : string :=
  "ABCDEFGHIJKLMNOPQRSTUVWXYZabcdefghijklmnopqrstuvwxyz0123456789".

(** [letters[i]]; an index out of range is a run-time panic in Go, which
    the results of [rand.Intn(len(letters))] never are. *)
Definition letter_at (alphabet : string) (i : nat) : ascii :=
  match String.get i alphabet with
  | Some c => c
  | None => "000"%char
  end.

(** [generateToken]: 15 bytes, the i-th being [letters[rand.Intn(62)]];
    [draw i] is the result of the i-th call of [rand.Intn]. *)
Definition generateToken (draw : nat -> nat) : string :=
  string_of_list_ascii (map (fun i => letter_at letters (draw i)) (seq 0 15)).

End ResetService.

Module ResetServiceExamples.

(** An engine that serves the look-up and refuses the insert. *)
Definition insert_fails : Reset.Faults :=
  {| Reset.find_user_err := None;
     Reset.create_err := Some (ErrDriver "connection reset");
     Reset.find_token_err := None; Reset.update_err := None;
     Reset.delete_err := None |}.

(** An engine that serves every call but the [Delete]. *)
Definition delete_fails : Reset.Faults :=
  {| Reset.find_user_err := None; Reset.create_err := None;
     Reset.find_token_err := None; Reset.update_err := None;
     Reset.delete_err := Some (ErrDriver "connection reset") |}.

End ResetServiceExamples.

(** ** Registration and login handlers *)

Module AuthHandlers.
Import Database JwtCodec Http.

Definition StatusCreated : Z := 201.
Definition StatusConflict : Z := 409.

(** [RegisterUser] of the build with organizations; the request is [None]
    when [ShouldBindJSON] fails (the text of the binding error is left
    out).  The second component is the store after the call. *)
Definition RegisterUser (env : User.Faults) (db : DB) (req : option (string * string))
  : Response * DB :=
  match req with
  | None => ({| Code := StatusBadRequest; Payload := ErrorBody "Invalid input: " |}, db)
  | Some (email, password) =>
      match User.CreateUser env db email password with
      | (Some err, db') =>
          if errors_Is err ErrUserAlreadyExists
          then ({| Code := StatusConflict; Payload := ErrorBody "User already exists" |}, db')
          else ({| Code := StatusInternalServerError;
                   Payload := ErrorBody "Failed to create user" |}, db')
      | (None, db') =>
          ({| Code := StatusCreated; Payload := MessageBody "User created successfully" |}, db')
      end
  end.

(** [Login] of the build with kind-tagged tokens; the clock is read once
    for each token of the pair. *)
Definition Login (h : Handlers.Handlers) (fault : option error)
    (now_access now_refresh : Z) (req : option (string * string)) : Response :=
  match req with
  | None => {| Code := StatusBadRequest; Payload := ErrorBody "Invalid input: " |}
  | Some (email, password) =>
      match User.ValidateUser fault (Handlers.db h) email password with
      | Some err =>
          if errors_Is err ErrInvalidCredentials
          then {| Code := StatusUnauthorized; Payload := ErrorBody "Invalid credentials" |}
          else {| Code := StatusInternalServerError; Payload := ErrorBody "Login failed" |}
      | None =>
          match Jwt.GenerateTokenPair (Handlers.jwtService h) now_access now_refresh email with
          | (Some tokens, None) => {| Code := StatusOK; Payload := TokenPairBody tokens |}
          | _ => {| Code := StatusInternalServerError;
                    Payload := ErrorBody "Failed to generate tokens" |}
          end
      end
  end.

End AuthHandlers.

Module AuthExamples.

(** An engine that serves every call and reports a duplicate key as an
    error of its driver. *)
Definition untranslated : User.Faults :=
  {| User.begin_err := None; User.create_org_err := None; User.create_user_err := None;
     User.duplicate_err := ErrDriver "duplicate key value violates unique constraint";
     User.append_err := None; User.commit_err := None |}.

End AuthExamples.

(** ** The bearer-token middleware ([internal/middleware]) *)

Module Middleware.
Import JwtCodec Http.

(** [strings.HasPrefix(s, prefix)] *)
Definition HasPrefix (s prefix : string) : bool := String.prefix prefix s.

(** [strings.TrimPrefix(s, prefix)] *)
Definition TrimPrefix (s prefix : string) : string :=
  if HasPrefix s prefix
  then String.substring (String.length prefix) (String.length s - String.length prefix) s
  else s.

(** What the middleware does with a request: it answers and aborts, or it
    sets [user_email] and hands the request on. *)
Inductive Outcome : Type :=
  | Abort (resp : Response)
  | Next (user_email : string).

Section AuthMiddleware.

(** The token a text spells; the compact serialization of tokens is not
    part of the embedding. *)
Variable token_of_text : string -> TokenString.

(** [AuthMiddleware]; [authHeader] is [c.GetHeader("Authorization")], the
    empty string when the header is missing. *)
Definition AuthMiddleware (jwtService : JWTConfig) (now : Z) (authHeader : string)
  : Outcome :=
  if String.eqb authHeader ""
  then Abort {| Code := StatusUnauthorized;
                Payload := ErrorBody "Authorization header required" |}
  else if negb (HasPrefix authHeader "Bearer ")
  then Abort {| Code := StatusUnauthorized;
                Payload := ErrorBody "Invalid authorization header format" |}
  else
    let token := TrimPrefix authHeader "Bearer " in
    match Jwt.ValidateToken jwtService now (token_of_text token) with
    | (_, Some _) =>
        Abort {| Code := StatusUnauthorized; Payload := ErrorBody "Invalid token" |}
    | (email, None) => Next email
    end.

End AuthMiddleware.

End Middleware.

Module MiddlewareExamples.
Import JwtCodec.

(** A reading of token texts that knows alice's two tokens issued at the
    epoch and takes every other text for what it is. *)
Definition token_of_text (text : string) : TokenString :=
  if String.eqb text "alice-access"
  then fst (Jwt.GenerateAccessToken Examples.cfg 0 "alice@example.com")
  else if String.eqb text "alice-refresh"
  then fst (Jwt.GenerateRefreshToken Examples.cfg 0 "alice@example.com")
  else Opaque text.

End MiddlewareExamples.

(** ** The item service ([internal/item]) *)

Module ItemService.
Import Database.

(** A row of [items]; the preloaded relations (parent, tags, children) are
    not part of the embedding. *)
Record Item : Type := {
  ItemID : Z;
  Name : string;
  BackpackID : string;
  Description : string;
  AddedAt : Z;
  ItemUserEmail : string;
  ParentID : option Z
}.

(** The store with the [items] table next to the tables of [Database]. *)
Record Store : Type := {
  base : DB;
  items : list Item;
  items_seq : Z
}.

Definition uppercase : string := "ABCDEFGHIJKLMNOPQRSTUVWXYZ".

(** [generatePrefix]: 3 bytes, the i-th being [letters[rand.Intn(26)]];
    [draw i] is the result of the i-th call of [rand.Intn]. *)
Definition generatePrefix (draw : nat -> nat) : string :=
  string_of_list_ascii (map (fun i => ResetService.letter_at uppercase (draw i)) (seq 0 3)).

(** [item.ErrItemNotFound], made with [errors.New]. *)
Definition ErrItemNotFound : error := ErrorsNew "item not found".

Record Faults : Type := {
  find_user_err : option error;    (* [s.db.Where(...).First(&user)] *)
  save_user_err : option error;    (* [s.db.Save(&user)] *)
  allocator : Item.Faults;         (* the store calls of [getNextID] *)
  create_item_err : option error   (* [s.db.Create(item)] *)
}.

Definition no_faults : Faults :=
  {| find_user_err := None; save_user_err := None; allocator := Item.no_faults;
     create_item_err := None |}.

(** [s.db.Save(&user)]: all columns of the row whose key is [user.Email]. *)
Definition Save_user (fault : option error) (db : DB) (user : User) : DB * option error :=
  match fault with
  | Some e => (db, Some e)
  | None => (set_users (fun m => <[Email user := user]> m) db, None)
  end.

(** [s.db.Create(item)]: the row gets the next id of the sequence. *)
Definition Create_item (fault : option error) (st : Store) (item : Item)
  : Store * (Item + error) :=
  match fault with
  | Some e => (st, inr e)
  | None =>
      let id := items_seq st + 1 in
      let row := {| ItemID := id; Name := Name item; BackpackID := BackpackID item;
                    Description := Description item; AddedAt := AddedAt item;
                    ItemUserEmail := ItemUserEmail item; ParentID := ParentID item |} in
      ({| base := base st; items := items st ++ [row]; items_seq := id |}, inl row)
  end.

Definition with_base (st : Store) (db : DB) : Store :=
  {| base := db; items := items st; items_seq := items_seq st |}.

(** [CreateItem]; [draw] feeds [generatePrefix], [now] is the reading of
    the clock for [AddedAt]. *)
Definition CreateItem (env : Faults) (draw : nat -> nat) (st : Store) (now : Z)
    (name description userEmail : string) (parentID : option Z)
  : (option Item * option error) * Store :=
  (* Get user to check prefix *)
  match User.First_user (find_user_err env) (base st) userEmail with
  | inr err => ((None, Some err), st)
  | inl user =>
      (* Generate prefix if not exists *)
      let prefixed :=
        if String.eqb (Prefix user) ""
        then
          let user' := {| Email := Email user; Password := Password user;
                          Prefix := generatePrefix draw;
                          ActiveOrganizationID := ActiveOrganizationID user |} in
          match Save_user (save_user_err env) (base st) user' with
          | (db1, Some err) => inr (err, db1)
          | (db1, None) => inl (user', db1)
          end
        else inl (user, base st) in
      match prefixed with
      | inr (err, db1) => ((None, Some err), with_base st db1)
      | inl (user1, db1) =>
          (* Get next ID *)
          match Item.getNextID (allocator env) db1 (Prefix user1) with
          | ((_, Some err), db2) => ((None, Some err), with_base st db2)
          | ((nextID, None), db2) =>
              let backpackID := String.append (Prefix user1) nextID in
              let item := {| ItemID := 0; Name := name; BackpackID := backpackID;
                             Description := description; AddedAt := now;
                             ItemUserEmail := userEmail; ParentID := parentID |} in
              match Create_item (create_item_err env) (with_base st db2) item with
              | (st3, inr err) => ((None, Some err), st3)
              | (st3, inl row) => ((Some row, None), st3)
              end
          end
      end
  end.

(** [GetItem]: [Where("id = ? AND user_email = ?", id, userEmail).First]. *)
Definition GetItem (fault : option error) (st : Store) (id : Z) (userEmail : string)
  : option Item * option error :=
  match fault with
  | Some e =>
      if errors_Is e ErrRecordNotFound then (None, Some ErrItemNotFound) else (None, Some e)
  | None =>
      match List.find (fun i => (ItemID i =? id) && String.eqb (ItemUserEmail i) userEmail)
              (items st) with
      | Some item => (Some item, None)
      | None => (None, Some ErrItemNotFound)
      end
  end.

End ItemService.

Module ItemNumbers.

(** The number an allocation gives after the counter [c]: 1 when the
    prefix has no row, the stored number plus one otherwise. *)
Definition next_number (c : option Z) : Z :=
  match c with
  | Some n => n + 1
  | None => 1
  end.

End ItemNumbers.

Module ItemServiceExamples.
Import Database ItemService.

(** bob has registered without a prefix. *)
Definition bob : User :=
  {| Email := "bob@example.com"; Password := "password123";
     Prefix := ""; ActiveOrganizationID := 1 |}.

Definition store_bob : Store :=
  {| base := set_users (fun m => <["bob@example.com"%string := bob]> m) Database.empty;
     items := []; items_seq := 0 |}.

(** Draws 16, 1, 23: the letters Q, B, X. *)
Definition draw (i : nat) : nat :=
  match i with
  | O => 16%nat
  | S O => 1%nat
  | _ => 23%nat
  end.

(** alice, whose prefix is "ali", on a store without items. *)
Definition store_alice : Store :=
  {| base := Examples.db_alice; items := []; items_seq := 0 |}.

(** An engine that serves everything but the insert of the item. *)
Definition item_insert_fails : Faults :=
  {| find_user_err := None; save_user_err := None; allocator := Item.no_faults;
     create_item_err := Some (ErrDriver "connection reset") |}.

End ItemServiceExamples.

(** ** The item handler ([internal/handlers]) *)

Module ItemHandlers.
Import Database ItemService.

Inductive ItemBody : Type :=
  | ItemError (msg : string)     (* gin.H{"error": msg} *)
  | ItemJSON (item : Item).      (* the item *)

Record ItemResponse : Type := { ICode : Z; IPayload : ItemBody }.

(** [CreateItem] of the handlers: [user_email] is what the middleware left
    in the context, the request is [None] when binding fails; the clock is
    read for the identifier and again for [AddedAt]. *)
Definition CreateItem (find_user_err create_err : option error) (st : Store)
    (now_id now_added : Z) (user_email : option string) (req : option (string * string))
  : ItemResponse * Store :=
  match user_email with
  | None =>
      ({| ICode := Http.StatusUnauthorized; IPayload := ItemError "User not authenticated" |},
       st)
  | Some userEmail =>
      match req with
      | None => ({| ICode := Http.StatusBadRequest; IPayload := ItemError "Invalid input: " |},
                 st)
      | Some (name, description) =>
          (* Get user to generate backpack_id *)
          match User.First_user find_user_err (base st) userEmail with
          | inr _ =>
              ({| ICode := Http.StatusInternalServerError;
                  IPayload := ItemError "Failed to get user" |}, st)
          | inl user =>
              (* Generate backpack_id (simple implementation) *)
              let backpackID :=
                String.append (Prefix user)
                  (String.append "_" (Fmt.FormatInt (JwtCodec.Unix now_id))) in
              let item := {| ItemID := 0; Name := name; BackpackID := backpackID;
                             Description := description; AddedAt := now_added;
                             ItemUserEmail := userEmail; ParentID := None |} in
              match Create_item create_err st item with
              | (st', inr _) =>
                  ({| ICode := Http.StatusInternalServerError;
                      IPayload := ItemError "Failed to create item" |}, st')
              | (st', inl row) =>
                  ({| ICode := AuthHandlers.StatusCreated; IPayload := ItemJSON row |}, st')
              end
          end
      end
  end.

End ItemHandlers.

(** ** The organization service ([internal/organization]) *)

Module Organization.
Import Database.

(** [organization.ErrOrganizationNotFound], made with [errors.New]. *)
Definition ErrOrganizationNotFound : error := ErrorsNew "organization not found".

(** [GetOrganization]: [db.First(&organization, id)]. *)
Definition GetOrganization (fault : option error) (db : DB) (id : Z)
  : option Organization * option error :=
  match fault with
  | Some e =>
      if errors_Is e ErrRecordNotFound
      then (None, Some ErrOrganizationNotFound) else (None, Some e)
  | None =>
      match List.find (fun o => OrgID o =? id) (organizations db) with
      | Some organization => (Some organization, None)
      | None => (None, Some ErrOrganizationNotFound)
      end
  end.

(** [GetOrganizationsByUser]: the join of [organizations] with
    [organization_users] on the organization id, for the rows of the
    user.  The order of the result is the engine's. *)
Definition GetOrganizationsByUser (fault : option error) (db : DB) (userEmail : string)
  : list Organization * option error :=
  match fault with
  | Some e => ([], Some e)
  | None =>
      (flat_map
         (fun o =>
            flat_map
              (fun row => if (fst row =? OrgID o) && String.eqb (snd row) userEmail
                          then [o] else [])
              (organization_users db))
         (organizations db),
       None)
  end.

(** [INSERT INTO organization_users ... ON CONFLICT DO NOTHING] *)
Definition insert_membership (organizationID : Z) (userEmail : string) (db : DB) : DB :=
  if bool_decide ((organizationID, userEmail) ∈ organization_users db)
  then db
  else {| users := users db; organizations := organizations db;
          organization_users := organization_users db ++ [(organizationID, userEmail)];
          backpack_id_next_numbers := backpack_id_next_numbers db;
          reset_tokens := reset_tokens db;
          organizations_seq := organizations_seq db;
          reset_tokens_seq := reset_tokens_seq db |}.

(** [AddUserToOrganization] *)
Definition AddUserToOrganization (get_err insert_err : option error) (db : DB)
    (organizationID : Z) (userEmail : string) : option error * DB :=
  (* Check if organization exists *)
  match GetOrganization get_err db organizationID with
  | (_, Some err) => (Some err, db)
  | (_, None) =>
      match insert_err with
      | Some e => (Some e, db)
      | None => (None, insert_membership organizationID userEmail db)
      end
  end.

End Organization.

(** * Properties of the embedded code *)

(** ** Arithmetic of [int] *)

Module GoIntFacts.
Import GoInt.

Lemma wrap_in_range z : in_range z -> wrap z = z.
Proof.
  unfold in_range, min_int, max_int, wrap. intros H.
  rewrite Z.mod_small; lia.
Qed.

Lemma incr_below_max n : min_int <= n < max_int -> incr n = n + 1.
Proof.
  intros H. unfold incr. apply wrap_in_range.
  unfold in_range, min_int, max_int in *. lia.
Qed.

Lemma incr_max : incr max_int = min_int.
Proof. reflexivity. Qed.

End GoIntFacts.

(** ** Decimal formatting *)

Module FmtFacts.
Import Fmt.

Lemma digit_byte_value d :
  0 <= d < 10 -> Z.of_N (N_of_ascii (digit_byte d)) - 48 = d.
Proof.
  intros H. unfold digit_byte.
  rewrite N_ascii_embedding by lia. lia.
Qed.

Lemma dec_value_append s1 s2 acc :
  dec_value (String.append s1 s2) acc = dec_value s2 (dec_value s1 acc).
Proof.
  revert acc. induction s1 as [|c s1 IH]; intros acc; simpl; [reflexivity|].
  apply IH.
Qed.

Lemma length_append s1 s2 :
  String.length (String.append s1 s2) = (String.length s1 + String.length s2)%nat.
Proof. induction s1 as [|c s1 IH]; simpl; [reflexivity|]. now rewrite IH. Qed.

Lemma append_String a s1 s2 :
  String.append (String a s1) s2 = String a (String.append s1 s2).
Proof. reflexivity. Qed.

Lemma append_snoc ds c buf :
  String.append ds (String c buf)
  = String.append (String.append ds (String c EmptyString)) buf.
Proof.
  induction ds as [|a ds IH]; [reflexivity|].
  now rewrite !append_String, IH.
Qed.

Lemma length_zeros k : String.length (zeros k) = k.
Proof. induction k as [|k IH]; simpl; [reflexivity|]. now rewrite IH. Qed.

Lemma dec_value_zeros_0 k : dec_value (zeros k) 0 = 0.
Proof. induction k as [|k IH]; simpl; [reflexivity|]. exact IH. Qed.

(** What the digit loop produces: the digits [ds] of [u], most
    significant first, in front of the buffer. *)
Lemma fmt_digits_spec fuel : forall u buf,
  0 <= u < 10 ^ Z.of_nat fuel -> (0 < fuel)%nat ->
  exists ds,
    fmt_digits fuel u buf = String.append ds buf /\
    (0 < String.length ds)%nat /\
    (forall acc, dec_value ds acc = acc * 10 ^ Z.of_nat (String.length ds) + u) /\
    u < 10 ^ Z.of_nat (String.length ds) /\
    (String.length ds = 1%nat \/ 10 ^ (Z.of_nat (String.length ds) - 1) <= u).
Proof.
  induction fuel as [|fuel IH]; intros u buf Hu Hf; [lia|].
  simpl. destruct (10 <=? u) eqn:E.
  - apply Z.leb_le in E.
    assert (Hfuel : (0 < fuel)%nat).
    { destruct fuel; [|lia]. simpl in Hu. lia. }
    assert (Hq : 0 <= u / 10 < 10 ^ Z.of_nat fuel).
    { split; [apply Z.div_pos; lia|].
      apply Z.div_lt_upper_bound; [lia|].
      rewrite Nat2Z.inj_succ, Z.pow_succ_r in Hu by lia. lia. }
    destruct (IH (u / 10) (String (digit_byte (u mod 10)) buf) Hq Hfuel)
      as (ds & Heq & Hlen & Hval & Hub & Hlb).
    exists (String.append ds (String (digit_byte (u mod 10)) EmptyString)).
    assert (Hl : String.length (String.append ds (String (digit_byte (u mod 10)) EmptyString))
                 = S (String.length ds)).
    { rewrite length_append. simpl. lia. }
    assert (Hm : 0 <= u mod 10 < 10) by (apply Z.mod_pos_bound; lia).
    assert (Hdm : u = 10 * (u / 10) + u mod 10) by (apply Z.div_mod; lia).
    assert (Hp : 10 ^ Z.of_nat (S (String.length ds))
                 = 10 * 10 ^ Z.of_nat (String.length ds)).
    { rewrite Nat2Z.inj_succ. apply Z.pow_succ_r. lia. }
    rewrite Hl, Hp. repeat split.
    + rewrite Heq. apply append_snoc.
    + lia.
    + intros acc. rewrite dec_value_append, Hval. simpl.
      rewrite digit_byte_value by exact Hm. lia.
    + lia.
    + right. replace (Z.of_nat (S (String.length ds)) - 1)
        with (Z.of_nat (String.length ds)) by lia.
      destruct Hlb as [H1 | Hlb].
      * rewrite H1. simpl. lia.
      * assert (Hs : 10 ^ Z.of_nat (String.length ds)
                     = 10 * 10 ^ (Z.of_nat (String.length ds) - 1)).
        { rewrite <- Z.pow_succ_r by lia. f_equal. lia. }
        lia.
  - apply Z.leb_gt in E.
    exists (String (digit_byte u) EmptyString). simpl. repeat split.
    + lia.
    + intros acc. rewrite digit_byte_value by lia. lia.
    + lia.
    + now left.
Qed.

Lemma pow10_lt_length (a b : nat) : 10 ^ Z.of_nat a < 10 ^ Z.of_nat b -> (a < b)%nat.
Proof.
  intros H. apply Nat2Z.inj_lt.
  apply (Z.pow_lt_mono_r_iff 10); lia.
Qed.

(** The non-negative case of ["%04d"]: the digits of [n], with zeros in
    front up to four columns and never fewer digits than [n] has. *)
Lemma Sprintf_04d_nonneg n :
  0 <= n < 10 ^ 20 ->
  dec_value (Sprintf_04d n) 0 = n /\
  (4 <= String.length (Sprintf_04d n))%nat /\
  (n < 10000 -> String.length (Sprintf_04d n) = 4%nat) /\
  (10000 <= n -> (4 < String.length (Sprintf_04d n))%nat).
Proof.
  intros Hn. unfold Sprintf_04d.
  destruct (n <? 0) eqn:E; [apply Z.ltb_lt in E; lia|].
  destruct (fmt_digits_spec max_digits n EmptyString) as (ds & Heq & Hlen & Hval & Hub & Hlb).
  { exact Hn. } { unfold max_digits. lia. }
  assert (Hds : fmt_digits max_digits n EmptyString = ds).
  { rewrite Heq. clear. induction ds as [|c ds IH]; [reflexivity|].
    now rewrite append_String, IH. }
  rewrite Hds. unfold pad_zeros.
  rewrite dec_value_append, dec_value_zeros_0, Hval, length_append, length_zeros.
  split; [lia|]. split; [lia|]. split.
  - intros Hlt.
    assert (String.length ds <= 4)%nat; [|lia].
    destruct Hlb as [H1 | Hlb]; [lia|].
    assert (H : 10 ^ Z.of_nat (String.length ds - 1) < 10 ^ Z.of_nat 4).
    { replace (Z.of_nat (String.length ds - 1)) with (Z.of_nat (String.length ds) - 1) by lia.
      change (10 ^ Z.of_nat 4) with 10000. lia. }
    apply pow10_lt_length in H. lia.
  - intros Hge.
    assert (H : 10 ^ Z.of_nat 4 < 10 ^ Z.of_nat (String.length ds)).
    { change (10 ^ Z.of_nat 4) with 10000. lia. }
    apply pow10_lt_length in H. lia.
Qed.

End FmtFacts.

(** ** The ID allocator *)

Module ItemFacts.
Import Database Item.

Lemma getNextID_absent db prefix :
  backpack_id_next_numbers db !! prefix = None ->
  getNextID no_faults db prefix
  = (("0001"%string, None), set_next_numbers (fun m => <[prefix := 1]> m) db).
Proof.
  intros H. unfold getNextID, getNextID_body, First_next_number.
  cbn [find_err no_faults pending Begin]. rewrite H. reflexivity.
Qed.

Lemma getNextID_present db prefix n :
  backpack_id_next_numbers db !! prefix = Some n ->
  getNextID no_faults db prefix
  = ((Fmt.Sprintf_04d (GoInt.incr n), None),
     set_next_numbers (fun m => <[prefix := GoInt.incr n]> m) db).
Proof.
  intros H. unfold getNextID, getNextID_body, First_next_number.
  cbn [find_err no_faults pending Begin]. rewrite H. reflexivity.
Qed.

(** Allocations made one after the other for a prefix whose counter stands
    at [n] return [n + 1], [n + 2], ... and leave the counter at the last
    value returned. *)
Lemma allocate_run k : forall db prefix n,
  backpack_id_next_numbers db !! prefix = Some n ->
  GoInt.min_int <= n -> n + Z.of_nat k <= GoInt.max_int ->
  fst (allocate k db prefix)
  = map (fun i => Fmt.Sprintf_04d (n + Z.of_nat i)) (seq 1 k) /\
  backpack_id_next_numbers (snd (allocate k db prefix)) !! prefix = Some (n + Z.of_nat k).
Proof.
  induction k as [|k IH]; intros db prefix n Hn Hlo Hhi.
  - simpl. rewrite Z.add_0_r. auto.
  - cbn [allocate]. rewrite (getNextID_present _ _ _ Hn).
    rewrite GoIntFacts.incr_below_max by lia.
    destruct (IH (set_next_numbers (fun m => <[prefix := n + 1]> m) db) prefix (n + 1))
      as [Hids Hlast]; [cbn; apply lookup_insert_eq|lia|lia|].
    destruct (allocate k _ prefix) as [ids db''] eqn:E. cbn [fst snd] in *.
    split.
    + rewrite Hids. cbn [seq map].
      replace (n + Z.of_nat 1) with (n + 1) by lia. f_equal.
      rewrite <- (seq_shift k 1), map_map. apply map_ext. intros i. f_equal. lia.
    + rewrite Hlast. f_equal. lia.
Qed.

End ItemFacts.

(** ** Sequence numbers *)

(** C1. For every prefix, the first allocation by [getNextID] returns
    sequence number 1 (the row is created holding 1, with no increment
    before first use); every later allocation returns the stored counter
    plus one and persists that value; the returned string is the sequence
    as a zero-padded 4-digit decimal, and a sequence of 10000 or more is
    emitted with all its digits (more than four), neither rejected nor
    capped. *)
Theorem getNextID_sequence (db : Database.DB) (prefix : string) :
  (Database.backpack_id_next_numbers db !! prefix = None ->
   exists db',
     Item.getNextID Item.no_faults db prefix = (("0001"%string, None), db') /\
     Database.backpack_id_next_numbers db' !! prefix = Some 1) /\
  (forall n,
     Database.backpack_id_next_numbers db !! prefix = Some n ->
     GoInt.min_int <= n < GoInt.max_int ->
     exists db',
       Item.getNextID Item.no_faults db prefix = ((Fmt.Sprintf_04d (n + 1), None), db') /\
       Database.backpack_id_next_numbers db' !! prefix = Some (n + 1)) /\
  (forall k,
     0 <= k <= GoInt.max_int ->
     Fmt.dec_value (Fmt.Sprintf_04d k) 0 = k /\
     (k < 10000 -> String.length (Fmt.Sprintf_04d k) = 4%nat) /\
     (10000 <= k -> (4 < String.length (Fmt.Sprintf_04d k))%nat)).
Proof.
  split; [|split].
  - intros H. eexists. split; [apply ItemFacts.getNextID_absent, H|].
    cbn. apply lookup_insert_eq.
  - intros n H Hn. eexists. split.
    + rewrite (ItemFacts.getNextID_present _ _ _ H).
      rewrite GoIntFacts.incr_below_max by exact Hn. reflexivity.
    + cbn. apply lookup_insert_eq.
  - intros k Hk.
    destruct (FmtFacts.Sprintf_04d_nonneg k) as (Hv & _ & H4 & H5).
    { unfold GoInt.max_int in Hk. lia. }
    auto.
Qed.

(** C1, at a store whose counter for ABC stands at 41: the next identifier
    is 0042 and the row then holds 42. *)
Lemma getNextID_sequence_witness :
  exists db',
    Item.getNextID Item.no_faults Examples.db_abc41 "ABC"
    = ((Fmt.Sprintf_04d (41 + 1), None), db') /\
    Database.backpack_id_next_numbers db' !! "ABC"%string = Some (41 + 1).
Proof.
  apply (proj1 (proj2 (getNextID_sequence Examples.db_abc41 "ABC")) 41).
  - vm_compute. reflexivity.
  - unfold GoInt.min_int, GoInt.max_int. lia.
Defined.

(** The boundary of the padding: the allocation after 9999 is emitted as
    the five digits 10000. *)
Example getNextID_after_9999 :
  fst (Item.getNextID Item.no_faults
         (Database.set_next_numbers (fun m => <["ABC"%string := 9999]> m) Database.empty)
         "ABC")
  = ("10000"%string, None).
Proof. vm_compute. reflexivity. Qed.

(** ** Allocations at the same time *)

Module AllocationFacts.
Import Database Allocations.

(** A request that runs alone, its four store calls one after the other,
    is [getNextID]: same identifier, same error, same store. *)
Lemma run_alone (faults : Item.Faults) (db : DB) (p : string) :
  Item.find_err faults <> Some ErrRecordNotFound ->
  run [0; 0; 0; 0]%nat db [{| prefix := p; env := faults; stage := Starting |}]
  = (snd (Item.getNextID faults db p),
     [{| prefix := p; env := faults;
         stage := Returned (fst (fst (Item.getNextID faults db p)))
                    (snd (fst (Item.getNextID faults db p))) |}]).
Proof.
  intros Hfind. unfold Item.getNextID, Item.getNextID_body, Item.First_next_number.
  cbn [run lookup list_lookup delete list_delete insert list_insert step stage at_stage
       prefix env row_locked existsb].
  unfold Item.First_next_number.
  destruct (Item.find_err faults) as [e|] eqn:Hf.
  - unfold errors_Is. case_bool_decide as He; [congruence|].
    cbn [stage step at_stage lookup list_lookup]. reflexivity.
  - cbn [Begin pending]. destruct (backpack_id_next_numbers db !! p) as [n|] eqn:Hn.
    + cbn [stage step at_stage lookup list_lookup delete list_delete row_locked existsb
           prefix env insert list_insert].
      unfold Item.put_next_number, Item.commit_and_format.
      destruct (Item.save_err faults) as [se|];
        cbn [stage step at_stage lookup list_lookup delete list_delete row_locked existsb
             prefix env insert list_insert]; [reflexivity|].
      destruct (Item.commit_err faults) as [ce|]; reflexivity.
    + unfold errors_Is. rewrite bool_decide_true by reflexivity.
      cbn [stage step at_stage lookup list_lookup delete list_delete row_locked existsb
           prefix env insert list_insert].
      unfold Item.put_next_number, Item.commit_and_format.
      destruct (Item.create_err faults) as [ce|];
        cbn [stage step at_stage lookup list_lookup delete list_delete row_locked existsb
             prefix env insert list_insert]; [reflexivity|].
      rewrite Hn.
      cbn [stage step at_stage lookup list_lookup delete list_delete row_locked existsb
           prefix env insert list_insert].
      destruct (Item.commit_err faults) as [ce|]; reflexivity.
Qed.

End AllocationFacts.

(** C9. Two allocations for one prefix whose transactions both read the
    counter row before either writes it return the same identifier: the
    transaction of [getNextID] takes no lock on the row it reads, and
    [Save] writes the number computed from that read.  For a row that
    stands at [n], both requests return the identifier of [n + 1] with a
    nil error and the row ends at [n + 1]; run one after the other, the
    same two requests return [n + 1] and [n + 2], as [getNextID] called
    twice does. *)
Theorem getNextID_concurrent_duplicate
    (db : Database.DB) (prefix : string) (n : Z) :
  Database.backpack_id_next_numbers db !! prefix = Some n ->
  let returned (number : Z) :=
    Allocations.at_stage (Allocations.request prefix)
      (Allocations.Returned (Fmt.Sprintf_04d number) None) in
  (exists store,
     Allocations.run Allocations.both_read_first db
       [Allocations.request prefix; Allocations.request prefix]
     = (store, [returned (GoInt.incr n); returned (GoInt.incr n)]) /\
     Database.backpack_id_next_numbers store !! prefix = Some (GoInt.incr n)) /\
  (exists store,
     Allocations.run Allocations.one_after_the_other db
       [Allocations.request prefix; Allocations.request prefix]
     = (store, [returned (GoInt.incr n); returned (GoInt.incr (GoInt.incr n))]) /\
     Database.backpack_id_next_numbers store !! prefix = Some (GoInt.incr (GoInt.incr n)) /\
     fst (Item.getNextID Item.no_faults db prefix)
     = (Fmt.Sprintf_04d (GoInt.incr n), None) /\
     fst (Item.getNextID Item.no_faults (snd (Item.getNextID Item.no_faults db prefix)) prefix)
     = (Fmt.Sprintf_04d (GoInt.incr (GoInt.incr n)), None) /\
     store = snd (Item.getNextID Item.no_faults
                    (snd (Item.getNextID Item.no_faults db prefix)) prefix)).
Proof.
  intros Hn returned. subst returned. cbn beta.
  assert (Hn' : forall x : Z,
            <[prefix := x]> (Database.backpack_id_next_numbers db) !! prefix = Some x)
    by (intros x; apply lookup_insert_eq).
  split.
  - eexists. split.
    + unfold Allocations.both_read_first, Allocations.request.
      repeat (progress
                (cbn [Allocations.run lookup list_lookup delete list_delete insert
                      list_insert Allocations.step Allocations.stage Allocations.at_stage
                      Allocations.prefix Allocations.env Allocations.row_locked existsb
                      Item.find_err Item.save_err Item.commit_err Item.no_faults orb
                      Database.Begin Database.pending Database.backpack_id_next_numbers
                      Database.set_next_numbers];
                 unfold Item.First_next_number; rewrite ?Hn, ?Hn')).
      reflexivity.
    + cbn [Database.backpack_id_next_numbers Database.set_next_numbers].
      apply lookup_insert_eq.
  - eexists. split; [|split; [|split; [|split]]].
    + unfold Allocations.one_after_the_other, Allocations.request.
      repeat (progress
                (cbn [Allocations.run lookup list_lookup delete list_delete insert
                      list_insert Allocations.step Allocations.stage Allocations.at_stage
                      Allocations.prefix Allocations.env Allocations.row_locked existsb
                      Item.find_err Item.save_err Item.commit_err Item.no_faults orb
                      Database.Begin Database.pending Database.backpack_id_next_numbers
                      Database.set_next_numbers];
                 unfold Item.First_next_number; rewrite ?Hn, ?Hn')).
      reflexivity.
    + cbn [Database.backpack_id_next_numbers Database.set_next_numbers].
      apply lookup_insert_eq.
    + unfold Item.getNextID, Item.getNextID_body, Item.First_next_number.
      cbn [Item.find_err Item.no_faults Database.Begin Database.pending]. now rewrite Hn.
    + unfold Item.getNextID, Item.getNextID_body, Item.First_next_number.
      cbn [Item.find_err Item.no_faults Database.Begin Database.pending]. rewrite Hn.
      cbn. now rewrite lookup_insert_eq.
    + unfold Item.getNextID, Item.getNextID_body, Item.First_next_number.
      cbn [Item.find_err Item.no_faults Database.Begin Database.pending]. rewrite Hn.
      cbn. now rewrite lookup_insert_eq.
Qed.

(** C9, on the store whose counter for ABC stands at 41: both requests
    are given ABC's number 0042. *)
Lemma getNextID_concurrent_duplicate_witness :
  exists store,
    Allocations.run Allocations.both_read_first Examples.db_abc41
      [Allocations.request "ABC"; Allocations.request "ABC"]
    = (store,
       [Allocations.at_stage (Allocations.request "ABC")
          (Allocations.Returned (Fmt.Sprintf_04d (GoInt.incr 41)) None);
        Allocations.at_stage (Allocations.request "ABC")
          (Allocations.Returned (Fmt.Sprintf_04d (GoInt.incr 41)) None)]) /\
    Database.backpack_id_next_numbers store !! "ABC"%string = Some (GoInt.incr 41).
Proof.
  refine (proj1 (getNextID_concurrent_duplicate Examples.db_abc41 "ABC" 41 _)).
  vm_compute. reflexivity.
Defined.

(** The identifier both requests are given. *)
Example getNextID_concurrent_0042 :
  map Allocations.stage
    (snd (Allocations.run Allocations.both_read_first Examples.db_abc41
            [Allocations.request "ABC"; Allocations.request "ABC"]))
  = [Allocations.Returned "0042" None; Allocations.Returned "0042" None].
Proof. vm_compute. reflexivity. Qed.

(** ** SHA-2 and the blocks of HMAC *)

Module Sha2Facts.

(** The digests of "abc" (FIPS 180-4), of the empty message and of
    messages longer than a block. *)
Example sha256_abc :
  Bytes.hex (Sha2.Sum Sha2.sha256 "abc")
  = "ba7816bf8f01cfea414140de5dae2223b00361a396177a9cb410ff61f20015ad"%string.
Proof. vm_compute. reflexivity. Qed.

Example sha256_empty :
  Bytes.hex (Sha2.Sum Sha2.sha256 "")
  = "e3b0c44298fc1c149afbf4c8996fb92427ae41e4649b934ca495991b7852b855"%string.
Proof. vm_compute. reflexivity. Qed.

Example sha256_100_a :
  Bytes.hex (Sha2.Sum Sha2.sha256 (string_of_list_ascii (repeat "a"%char 100)))
  = "2816597888e4a0d3a36b82b83316ab32680eb8f00f8cd3b904d681246d285a0e"%string.
Proof. vm_compute. reflexivity. Qed.

Example sha384_abc :
  Bytes.hex (Sha2.Sum Sha2.sha384 "abc")
  = String.append "cb00753f45a35e8bb5a03d699ac65007272c32ab0eded163"
      "1a8b605a43ff5bed8086072ba1e7cc2358baeca134c825a7".
Proof. vm_compute. reflexivity. Qed.

Example sha384_200_a :
  Bytes.hex (Sha2.Sum Sha2.sha384 (string_of_list_ascii (repeat "a"%char 200)))
  = String.append "0691b6e978614b67d60557b2a2cddd53406508522efa21c6"
      "24dbbfa8ab6e726d5c586b489c7c09f24109a64c10211d48".
Proof. vm_compute. reflexivity. Qed.

Example sha512_abc :
  Bytes.hex (Sha2.Sum Sha2.sha512 "abc")
  = String.append
      "ddaf35a193617abacc417349ae20413112e6fa4e89a97ea20a9eeee64b55d39a"
      "2192992a274fc1a836ba3c23a3feebbd454d4423643ce80e2a9ac94fa54ca49f".
Proof. vm_compute. reflexivity. Qed.

Example sha512_200_a :
  Bytes.hex (Sha2.Sum Sha2.sha512 (string_of_list_ascii (repeat "a"%char 200)))
  = String.append
      "4b11459c33f52a22ee8236782714c150a3b2c60994e9acee17fe68947a3e6789"
      "f31e7668394592da7bef827cddca88c4e6f86e4df7ed1ae6cba71f3e98faee9f".
Proof. vm_compute. reflexivity. Qed.

(** A block is 64 bytes for SHA-256 and 128 for SHA-384 and SHA-512. *)
Example BlockSizes :
  Sha2.BlockSize Sha2.sha256 = 64%nat /\ Sha2.BlockSize Sha2.sha384 = 128%nat /\
  Sha2.BlockSize Sha2.sha512 = 128%nat.
Proof. repeat split. Qed.

(** The block of a key longer than a block is the block of its digest:
    the two sign alike. *)
Example block_key_of_long_key :
  Hmac.block_key Sha2.sha256 (string_of_list_ascii (repeat "a"%char 100))
  = Hmac.block_key Sha2.sha256
      (Sha2.Sum Sha2.sha256 (string_of_list_ascii (repeat "a"%char 100))).
Proof. vm_compute. reflexivity. Qed.

End Sha2Facts.

(** ** UTF-8 and the strings of JSON *)

Module Utf8Facts.
Import Bytes Utf8.

Lemma append_replacement (s : string) :
  String.append replacement s
  = String (ascii_of_nat 239) (String (ascii_of_nat 191) (String (ascii_of_nat 189) s)).
Proof. reflexivity. Qed.


(** The size of an encoding is read off its own bytes: copying the rest
    of the encoding does not change it. *)
Lemma rune_size_coerce c r n :
  rune_size (String c r) = Some n ->
  rune_size (String c (coerce (n - 1) r)) = Some n.
Proof.
  unfold rune_size. destruct (first (byte c)) as [| |more lo hi].
  - now intros [= <-].
  - discriminate.
  - destruct more as [|[|[|[|m]]]]; destruct r as [|c1 [|c2 [|c3 r3]]];
      try discriminate;
      match goal with
      | |- (if ?b then _ else _) = _ -> _ => destruct b eqn:E; [|discriminate]
      end; intros [= <-]; cbn [Nat.sub coerce]; now rewrite E.
Qed.

(** What comes back from a JSON text is valid UTF-8. *)
Lemma coerce_valid : forall s k, valid k (coerce k s) = true.
Proof.
  induction s as [|c r IH]; intros k; [reflexivity|].
  destruct k as [|k]; cbn [coerce]; [|cbn [valid]; apply IH].
  destruct (rune_size (String c r)) as [n|] eqn:E.
  - cbn [valid]. rewrite (rune_size_coerce _ _ _ E). apply IH.
  - rewrite append_replacement. apply (IH 0%nat).
Qed.

(** A valid string comes back as it is. *)
Lemma valid_coerce : forall s k, valid k s = true -> coerce k s = s.
Proof.
  induction s as [|c r IH]; intros k H; [reflexivity|].
  destruct k as [|k]; cbn [coerce valid] in *.
  - destruct (rune_size (String c r)) as [n|]; [|discriminate].
    now rewrite IH.
  - now rewrite IH.
Qed.

Lemma json_string_ValidString s : ValidString (json_string s) = true.
Proof. apply coerce_valid. Qed.

Lemma json_string_valid s : ValidString s = true -> json_string s = s.
Proof. apply valid_coerce. Qed.

Lemma json_string_fixed s : json_string s = s <-> ValidString s = true.
Proof.
  split; [|apply json_string_valid].
  intros H. rewrite <- H. apply json_string_ValidString.
Qed.

Lemma json_string_idempotent s : json_string (json_string s) = json_string s.
Proof. apply json_string_valid, json_string_ValidString. Qed.



End Utf8Facts.

(** ** The token codec and the validators *)

Module JwtFacts.
Import JwtCodec.

Lemma json_value_idempotent v : json_value (json_value v) = json_value v.
Proof. destruct v; cbn; [|reflexivity..]. now rewrite Utf8Facts.json_string_idempotent. Qed.

(** Decoding twice is decoding once. *)
Lemma json_claims_idempotent (claims : gmap string Value) :
  json_value <$> (json_value <$> claims) = json_value <$> claims.
Proof.
  rewrite <- map_fmap_compose. apply map_fmap_ext. intros k v _.
  apply json_value_idempotent.
Qed.

Lemma lookup_json (claims : gmap string Value) (key : string) :
  (json_value <$> claims) !! key = json_value <$> (claims !! key).
Proof. apply lookup_fmap. Qed.


(** The dates are numbers: decoding leaves them alone. *)
Lemma parseNumericDate_json claims key :
  parseNumericDate (json_value <$> claims) key = parseNumericDate claims key.
Proof.
  unfold parseNumericDate. rewrite lookup_json.
  destruct (claims !! key) as [[s|n|b|]|]; reflexivity.
Qed.

Lemma Validate_json claims now :
  Validate (json_value <$> claims) now = Validate claims now.
Proof.
  unfold Validate, verifyExpiresAt, verifyNotBefore.
  now rewrite !parseNumericDate_json.
Qed.


(** [Parse] on a token with an HMAC tag. *)
Lemma Parse_Compact_HS h payload block key now :
  Parse (Compact (HS h) payload (Tag block)) key now
  = if bool_decide (block = Hmac.block_key (params h) key)
    then match Validate payload now with
         | [] => inl (json_value <$> payload)
         | errs => inr (ErrTokenInvalidClaims errs)
         end
    else inr ErrTokenSignatureInvalid.
Proof. cbn [Parse Verify]. now rewrite Validate_json. Qed.

(** [Parse] hands claims back only for a token with an HMAC tag made under
    a key with the block of the key in use, and the claims are those of
    the payload, decoded. *)
Lemma Parse_inl tokenString key now claims :
  Parse tokenString key now = inl claims ->
  exists h payload,
    tokenString = Signed h payload key /\
    claims = json_value <$> payload /\
    Validate payload now = [].
Proof.
  destruct tokenString as [raw|m payload sig]; [discriminate|].
  destruct m as [h|alg|]; [|destruct sig; discriminate..].
  destruct sig as [block|]; [|discriminate].
  rewrite Parse_Compact_HS. case_bool_decide as Hb; [|discriminate]. subst block.
  destruct (Validate payload now) eqn:HV; [|discriminate].
  intros [= <-]. now exists h, payload.
Qed.

(** When [Parse] accepts. *)
Lemma Parse_Signed h payload key now :
  Validate payload now = [] ->
  Parse (Signed h payload key) key now = inl (json_value <$> payload).
Proof.
  intros H. unfold Signed. rewrite Parse_Compact_HS, bool_decide_true by reflexivity.
  now rewrite H.
Qed.






(** The expiry a generator writes is the issuing instant plus the
    lifetime, cut down to the whole second. *)
Lemma Unix_truncates t : Unix t * second <= t < Unix t * second + second.
Proof.
  unfold Unix, second.
  pose proof (Z.mod_pos_bound t 1000000000 ltac:(lia)).
  pose proof (Z.div_mod t 1000000000 ltac:(lia)). lia.
Qed.

End JwtFacts.




Module RoundTripFacts.
Import JwtCodec ClaimSets.

Lemma claims_of_exp email kind exp :
  claims_of email kind exp !! "exp"%string = Some (VNumber exp).
Proof. destruct kind; unfold claims_of; now simplify_map_eq. Qed.

Lemma claims_of_nbf email kind exp :
  claims_of email kind exp !! "nbf"%string = None.
Proof. destruct kind; unfold claims_of; now simplify_map_eq. Qed.

Lemma claims_of_email email kind exp :
  claims_of email kind exp !! "email"%string = Some (VString email).
Proof. destruct kind; unfold claims_of; now simplify_map_eq. Qed.

Lemma claims_of_kind email kind exp :
  claims_of email kind exp !! "token_type"%string = VString <$> kind.
Proof. destruct kind; unfold claims_of; now simplify_map_eq. Qed.

(** The claim set of a generator as it comes back from the payload. *)
Lemma claims_of_json email kind exp :
  json_value <$> claims_of email kind exp
  = claims_of (Utf8.json_string email) (Utf8.json_string <$> kind) exp.
Proof.
  destruct kind; unfold claims_of; cbn [fmap option_fmap option_map];
    now rewrite !fmap_insert, fmap_empty.
Qed.

(** The validator of the library on a claim set of a generator: there is
    no [nbf], and an [exp] of 0 counts as none. *)
Lemma Validate_claims_of email kind exp t :
  Validate (claims_of email kind exp) t
  = if (exp =? 0) || (t <? exp * second) then [] else [TokenExpired].
Proof.
  unfold Validate, verifyExpiresAt, verifyNotBefore, parseNumericDate.
  rewrite claims_of_exp, claims_of_nbf.
  destruct (exp =? 0); [reflexivity|]. now destruct (t <? exp * second).
Qed.

(** What a validator answers on a token a generator made: the expiry
    decides before the kind, the kind before the email is read. *)
Lemma validate_generated (s : JWTConfig) t email kind exp (expected : string) :
  Utf8.json_string <$> kind = kind ->
  match Parse (fst (SignedString (claims_of email kind exp) (SecretKey s))) (SecretKey s) t with
  | inr err => (EmptyString, Some err)
  | inl claims =>
      let '(tokenType, ok) := as_string (claims !! "token_type"%string) in
      if ok && negb (String.eqb tokenType expected)
      then (EmptyString, Some ErrInvalidKey)
      else Jwt.email_claim claims
  end
  = if (exp =? 0) || (t <? exp * second)
    then match kind with
         | Some k => if String.eqb k expected then (Utf8.json_string email, None)
                     else (EmptyString, Some ErrInvalidKey)
         | None => (Utf8.json_string email, None)
         end
    else (EmptyString, Some (ErrTokenInvalidClaims [TokenExpired])).
Proof.
  intros Hkind. cbn [SignedString fst]. unfold Signed.
  rewrite JwtFacts.Parse_Compact_HS, bool_decide_true by reflexivity.
  rewrite JwtFacts.json_claims_idempotent, claims_of_json, Hkind, Validate_claims_of.
  destruct ((exp =? 0) || (t <? exp * second)); [|reflexivity].
  rewrite claims_of_kind. unfold Jwt.email_claim. rewrite claims_of_email.
  destruct kind as [k|]; simpl; [|reflexivity].
  now destruct (String.eqb k expected).
Qed.

Lemma before_expiry exp t : t < exp * second -> (exp =? 0) || (t <? exp * second) = true.
Proof. intros H. apply Z.ltb_lt in H. rewrite H. apply orb_true_r. Qed.

End RoundTripFacts.

(** C8 (as amended). A claim set of the supported fields (email, optional
    kind, expiry) comes back from a token, read before its expiry, with
    its strings as JSON carries them: every byte that is not part of a
    valid UTF-8 encoding is replaced by U+FFFD, and nothing else changes.
    The expiry a generator writes is the issuing instant plus the lifetime
    cut down to the whole second.  So [ValidateToken] applied to
    [GenerateToken email d], at any instant before that expiry, returns the
    email as JSON carries it, which is exactly [email] when, and only when,
    [email] is valid UTF-8; the kind-tagged generators round-trip through
    their own validators in the same way. *)
Theorem token_round_trip
    (s : JwtCodec.JWTConfig) (now d t : Z) (email : string) :
  t < JwtCodec.Unix (now + d) * JwtCodec.second ->
  JwtCodec.Unix (now + d) * JwtCodec.second <= now + d
    < JwtCodec.Unix (now + d) * JwtCodec.second + JwtCodec.second /\
  (forall kind key,
     JwtCodec.Parse
       (fst (JwtCodec.SignedString
               (ClaimSets.claims_of email kind (JwtCodec.Unix (now + d))) key)) key t
     = inl (ClaimSets.claims_of (Utf8.json_string email) (Utf8.json_string <$> kind)
              (JwtCodec.Unix (now + d)))) /\
  Jwt.ValidateToken s t (fst (Jwt.GenerateToken s now email d))
  = (Utf8.json_string email, None) /\
  (d = JwtCodec.AccessTokenDuration s ->
   Jwt.ValidateToken s t (fst (Jwt.GenerateAccessToken s now email))
   = (Utf8.json_string email, None)) /\
  (d = JwtCodec.RefreshTokenDuration s ->
   Jwt.ValidateRefreshToken s t (fst (Jwt.GenerateRefreshToken s now email))
   = (Utf8.json_string email, None)) /\
  (Utf8.json_string email = email <-> Utf8.ValidString email = true).
Proof.
  intros Ht. pose proof (RoundTripFacts.before_expiry _ _ Ht) as Hb.
  split; [apply JwtFacts.Unix_truncates|].
  split; [|split; [|split; [|split]]].
  - intros kind key. cbn [JwtCodec.SignedString fst]. unfold JwtCodec.Signed.
    rewrite JwtFacts.Parse_Compact_HS, bool_decide_true by reflexivity.
    rewrite JwtFacts.json_claims_idempotent, RoundTripFacts.claims_of_json.
    rewrite RoundTripFacts.Validate_claims_of.
    now rewrite Hb.
  - etransitivity;
      [exact (RoundTripFacts.validate_generated s t email None _ "access" eq_refl)|].
    now rewrite Hb.
  - intros ->. etransitivity;
      [exact (RoundTripFacts.validate_generated s t email (Some "access"%string) _ "access"
                eq_refl)|].
    now rewrite Hb.
  - intros ->. etransitivity;
      [exact (RoundTripFacts.validate_generated s t email (Some "refresh"%string) _ "refresh"
                eq_refl)|].
    now rewrite Hb.
  - apply Utf8Facts.json_string_fixed.
Qed.

(** C8, as stated, fails on an email that is not valid UTF-8: for the
    address typed in ISO-8859-1 the token gives back another string, the
    byte 0xE9 having become the three bytes of U+FFFD. *)
Lemma token_round_trip_invalid_utf8 :
  Jwt.ValidateToken Examples.cfg JwtCodec.second
    (fst (Jwt.GenerateToken Examples.cfg 0 Examples.latin1_email (15 * JwtCodec.minute)))
  = (String.append "ren" (String.append Utf8.replacement "@example.com"), None) /\
  String.append "ren" (String.append Utf8.replacement "@example.com")
  <> Examples.latin1_email /\
  String.length Examples.latin1_email = 16%nat /\
  String.length (String.append "ren" (String.append Utf8.replacement "@example.com"))
  = 18%nat.
Proof.
  split; [vm_compute; reflexivity|]. split; [|split; vm_compute; reflexivity].
  intros H. vm_compute in H. discriminate H.
Qed.

(** C8 (as amended), for alice: a 15-minute token issued at the epoch and
    read one second later. *)
Lemma token_round_trip_witness :
  Jwt.ValidateToken Examples.cfg JwtCodec.second
    (fst (Jwt.GenerateToken Examples.cfg 0 "alice@example.com" (15 * JwtCodec.minute)))
  = ("alice@example.com"%string, None).
Proof.
  refine (proj1 (proj2 (proj2
            (token_round_trip Examples.cfg 0 (15 * JwtCodec.minute) JwtCodec.second
               "alice@example.com" _)))).
  vm_compute. reflexivity.
Defined.

(** The second-level cut matters at the edge: a token with a lifetime of
    0.9 s issued at 0.5 s carries expiry 1 s, and is refused at 1.2 s
    although 1.4 s has not been reached. *)
Example token_refused_within_cut_second :
  Jwt.ValidateToken Examples.cfg 1200000000
    (fst (Jwt.GenerateToken Examples.cfg 500000000 "alice@example.com" 900000000))
  = (EmptyString, Some (ErrTokenInvalidClaims [TokenExpired])).
Proof. vm_compute. reflexivity. Qed.

(** ** Credentials *)

Module UserFacts.
Import Database.

Lemma ValidateUser_found db email password user :
  users db !! email = Some user ->
  User.ValidateUser None db email password
  = if String.eqb (Password user) password then None else Some ErrInvalidCredentials.
Proof.
  intros H. unfold User.ValidateUser, User.First_user. rewrite H.
  now destruct (String.eqb (Password user) password).
Qed.

Lemma ValidateUser_missing db email password :
  users db !! email = None ->
  User.ValidateUser None db email password = Some ErrInvalidCredentials.
Proof.
  intros H. unfold User.ValidateUser, User.First_user. now rewrite H.
Qed.

Lemma GetUser_missing db email :
  users db !! email = None ->
  User.GetUser None db email = (None, Some ErrUserNotFound).
Proof. intros H. unfold User.GetUser, User.First_user. now rewrite H. Qed.

Lemma GetUser_ok fault db email r :
  User.GetUser fault db email = (r, None) -> is_Some (users db !! email).
Proof.
  unfold User.GetUser, User.First_user. destruct fault as [e|].
  - destruct (errors_Is e ErrRecordNotFound); discriminate.
  - destruct (users db !! email) as [u|]; [eauto|]. simpl. discriminate.
Qed.

End UserFacts.

(** C5. Whatever users are stored, [ValidateUser] answers a lookup miss
    and a password mismatch with the one value [ErrInvalidCredentials], so
    the two failures cannot be told apart from the error; the password
    check is equality of the byte strings, the stored one against the
    supplied one, and the call succeeds exactly when they are equal. *)
Theorem ValidateUser_same_error
    (db : Database.DB) (nobody real wrong anything : string) (user : Database.User) :
  Database.users db !! nobody = None ->
  Database.users db !! real = Some user ->
  Database.Password user <> wrong ->
  User.ValidateUser None db nobody anything = Some ErrInvalidCredentials /\
  User.ValidateUser None db real wrong = Some ErrInvalidCredentials /\
  User.ValidateUser None db nobody anything = User.ValidateUser None db real wrong /\
  (forall password,
     User.ValidateUser None db real password = None <-> Database.Password user = password).
Proof.
  intros Hmiss Hreal Hwrong.
  assert (H1 := UserFacts.ValidateUser_missing db nobody anything Hmiss).
  assert (H2 : User.ValidateUser None db real wrong = Some ErrInvalidCredentials).
  { rewrite (UserFacts.ValidateUser_found _ _ _ _ Hreal).
    apply String.eqb_neq in Hwrong. now rewrite Hwrong. }
  split; [exact H1|]. split; [exact H2|]. split; [congruence|].
  intros password. rewrite (UserFacts.ValidateUser_found _ _ _ _ Hreal).
  destruct (String.eqb_spec (Database.Password user) password) as [Heq|Hne].
  - tauto.
  - split; [discriminate|tauto].
Qed.

(** C5, on the store that holds alice only. *)
Lemma ValidateUser_same_error_witness :
  User.ValidateUser None Examples.db_alice "nobody@x.com" "anything"
  = User.ValidateUser None Examples.db_alice "alice@example.com" "wrongpassword".
Proof.
  refine (proj1 (proj2 (proj2
            (ValidateUser_same_error Examples.db_alice "nobody@x.com" "alice@example.com"
               "wrongpassword" "anything" Examples.alice _ _ _)))).
  - vm_compute. reflexivity.
  - vm_compute. reflexivity.
  - discriminate.
Defined.

(** ** What an accepted token is *)

Module ValidatorFacts.
Import JwtCodec.

(** The shape both validators share: when the answer is an email and
    nil, the token has an HMAC tag under the block of the secret, its
    claims passed the validator of the library, the email is the [email]
    claim as decoded, and a string [token_type], as decoded, is the
    expected one. *)
Lemma accepted_inv (expected : string) tokenString key t email :
  match Parse tokenString key t with
  | inr err => (EmptyString, Some err)
  | inl claims =>
      let '(tokenType, ok) := as_string (claims !! "token_type"%string) in
      if ok && negb (String.eqb tokenType expected)
      then (EmptyString, Some ErrInvalidKey)
      else Jwt.email_claim claims
  end = (email, None) ->
  exists h payload raw,
    tokenString = Signed h payload key /\
    Validate payload t = [] /\
    payload !! "email"%string = Some (VString raw) /\
    email = Utf8.json_string raw /\
    (forall kind, payload !! "token_type"%string = Some (VString kind) ->
                  Utf8.json_string kind = expected).
Proof.
  destruct (Parse tokenString key t) as [claims|err] eqn:HP; [|discriminate].
  apply JwtFacts.Parse_inl in HP as (h & payload & -> & -> & HV).
  rewrite !JwtFacts.lookup_json. unfold Jwt.email_claim. rewrite JwtFacts.lookup_json.
  intros H. exists h, payload.
  assert (He : exists raw, payload !! "email"%string = Some (VString raw) /\
                           email = Utf8.json_string raw /\
                           (forall kind, payload !! "token_type"%string = Some (VString kind) ->
                                         Utf8.json_string kind = expected)).
  { destruct (payload !! "token_type"%string) as [[k|?|?|]|] eqn:Hk; cbn in H.
    - destruct (String.eqb_spec (Utf8.json_string k) expected) as [E|Hne]; cbn in H;
        [|discriminate].
      destruct (payload !! "email"%string) as [[e|?|?|]|]; cbn in H; try discriminate.
      injection H as <-. exists e. repeat split. now intros kind [= <-].
    - destruct (payload !! "email"%string) as [[e|?|?|]|]; cbn in H; try discriminate.
      injection H as <-. exists e. repeat split. discriminate.
    - destruct (payload !! "email"%string) as [[e|?|?|]|]; cbn in H; try discriminate.
      injection H as <-. exists e. repeat split. discriminate.
    - destruct (payload !! "email"%string) as [[e|?|?|]|]; cbn in H; try discriminate.
      injection H as <-. exists e. repeat split. discriminate.
    - destruct (payload !! "email"%string) as [[e|?|?|]|]; cbn in H; try discriminate.
      injection H as <-. exists e. repeat split. discriminate. }
  destruct He as (raw & He & -> & Hk). exists raw. auto.
Qed.

(** An email a validator returns is valid UTF-8: it comes back from JSON
    as it is. *)
Lemma ValidateRefreshToken_email s now tok email :
  Jwt.ValidateRefreshToken s now tok = (email, None) -> Utf8.json_string email = email.
Proof.
  intros H. apply (accepted_inv "refresh") in H as (h & p & raw & _ & _ & _ & -> & _).
  apply Utf8Facts.json_string_idempotent.
Qed.

Lemma ValidateToken_email s now tok email :
  Jwt.ValidateToken s now tok = (email, None) -> Utf8.json_string email = email.
Proof.
  intros H. apply (accepted_inv "access") in H as (h & p & raw & _ & _ & _ & -> & _).
  apply Utf8Facts.json_string_idempotent.
Qed.

Lemma plain_accepted_inv s now tok email :
  JwtPlain.ValidateToken s now tok = (email, None) ->
  exists h payload raw,
    tok = Signed h payload (SecretKey s) /\
    Validate payload now = [] /\
    payload !! "email"%string = Some (VString raw) /\
    email = Utf8.json_string raw.
Proof.
  unfold JwtPlain.ValidateToken.
  destruct (Parse tok (SecretKey s) now) as [claims|err] eqn:HP; [|discriminate].
  apply JwtFacts.Parse_inl in HP as (h & payload & -> & -> & HV).
  rewrite JwtFacts.lookup_json.
  destruct (payload !! "email"%string) as [[e|?|?|]|] eqn:He; cbn; try discriminate.
  intros [= <-]. now exists h, payload, e.
Qed.

Lemma plain_ValidateToken_email s now tok email :
  JwtPlain.ValidateToken s now tok = (email, None) -> Utf8.json_string email = email.
Proof.
  intros H. apply plain_accepted_inv in H as (h & p & raw & _ & _ & _ & ->).
  apply Utf8Facts.json_string_idempotent.
Qed.

End ValidatorFacts.

(** ** Refresh *)

Module HandlersFacts.
Import Database JwtCodec Http.

(** A token a validator accepts is a compact one, so binding lets it
    through. *)
Lemma bind_refresh_compact m claims sig :
  bind_refresh (RefreshJSON (Compact m claims sig)) = inl (Compact m claims sig).
Proof. reflexivity. Qed.

Lemma bind_refresh_inl body tok :
  bind_refresh body = inl tok -> body = RefreshJSON tok.
Proof.
  destruct body as [|why|t]; simpl; try discriminate.
  destruct t as [raw|m c sig]; [|now intros [= <-]].
  destruct raw; [discriminate|now intros [= <-]].
Qed.

Lemma ValidateRefreshToken_signed s now tok email :
  Jwt.ValidateRefreshToken s now tok = (email, None) ->
  exists h claims, tok = Signed h claims (SecretKey s).
Proof.
  intros H. apply (ValidatorFacts.accepted_inv "refresh") in H as (h & p & _ & -> & _).
  eauto.
Qed.

Lemma ValidateToken_plain_signed s now tok email :
  JwtPlain.ValidateToken s now tok = (email, None) ->
  exists h claims, tok = Signed h claims (SecretKey s).
Proof.
  intros H. apply ValidatorFacts.plain_accepted_inv in H as (h & p & _ & -> & _).
  eauto.
Qed.

(** The handler of the tagged build, once the token is bound and
    validated: all that is left is the look-up of the user and the new
    pair. *)
Lemma RefreshToken_validated h fault clock tok email :
  Jwt.ValidateRefreshToken (Handlers.jwtService h) (at_validate clock) tok = (email, None) ->
  Handlers.RefreshToken h fault clock (RefreshJSON tok)
  = match User.GetUser fault (Handlers.db h) email with
    | (_, Some err) =>
        if errors_Is err ErrUserNotFound
        then {| Code := StatusUnauthorized; Payload := ErrorBody "User not found" |}
        else {| Code := StatusInternalServerError;
                Payload := ErrorBody "Failed to validate user" |}
    | (_, None) =>
        {| Code := StatusOK;
           Payload := TokenPairBody
             {| Token := fst (Jwt.GenerateAccessToken (Handlers.jwtService h)
                                (at_access clock) email);
                RefreshToken := fst (Jwt.GenerateRefreshToken (Handlers.jwtService h)
                                       (at_refresh clock) email) |} |}
    end.
Proof.
  intros HV. destruct (ValidateRefreshToken_signed _ _ _ _ HV) as (hs & claims & ->).
  unfold Handlers.RefreshToken, Signed. rewrite bind_refresh_compact.
  fold (Signed hs claims (SecretKey (Handlers.jwtService h))). rewrite HV. reflexivity.
Qed.

(** The same for the plain build: one new token. *)
Lemma RefreshToken_plain_validated h fault clock tok email :
  JwtPlain.ValidateToken (HandlersPlain.jwtService h) (at_validate clock) tok = (email, None) ->
  HandlersPlain.RefreshToken h fault clock (RefreshJSON tok)
  = match User.GetUser fault (HandlersPlain.db h) email with
    | (_, Some err) =>
        if errors_Is err ErrUserNotFound
        then {| Code := StatusUnauthorized; Payload := ErrorBody "User not found" |}
        else {| Code := StatusInternalServerError;
                Payload := ErrorBody "Failed to validate user" |}
    | (_, None) =>
        {| Code := StatusOK;
           Payload := TokenBody
             (fst (JwtPlain.GenerateToken (HandlersPlain.jwtService h) (at_access clock) email
                     (AccessTokenDuration (HandlersPlain.jwtService h)))) |}
    end.
Proof.
  intros HV. destruct (ValidateToken_plain_signed _ _ _ _ HV) as (hs & claims & ->).
  unfold HandlersPlain.RefreshToken, Signed. rewrite bind_refresh_compact.
  fold (Signed hs claims (SecretKey (HandlersPlain.jwtService h))). rewrite HV. reflexivity.
Qed.

(** A 200 from the tagged build comes from a bound, validated token. *)
Lemma RefreshToken_ok_inv h fault clock body :
  Code (Handlers.RefreshToken h fault clock body) = StatusOK ->
  exists tok email,
    body = RefreshJSON tok /\
    Jwt.ValidateRefreshToken (Handlers.jwtService h) (at_validate clock) tok = (email, None).
Proof.
  unfold Handlers.RefreshToken. intros H.
  destruct body as [|why|t]; [discriminate H|discriminate H|].
  destruct (bind_refresh (RefreshJSON t)) as [tok|why] eqn:Hb; [|discriminate H].
  apply bind_refresh_inl in Hb. injection Hb as ->.
  destruct (Jwt.ValidateRefreshToken (Handlers.jwtService h) (at_validate clock) tok)
    as [email [e|]] eqn:HV; [discriminate H|].
  eauto.
Qed.

Lemma RefreshToken_plain_ok_inv h fault clock body :
  Code (HandlersPlain.RefreshToken h fault clock body) = StatusOK ->
  exists tok email,
    body = RefreshJSON tok /\
    JwtPlain.ValidateToken (HandlersPlain.jwtService h) (at_validate clock) tok = (email, None).
Proof.
  unfold HandlersPlain.RefreshToken. intros H.
  destruct (bind_refresh body) as [tok|why] eqn:Hb; [|discriminate H].
  apply bind_refresh_inl in Hb. subst body.
  destruct (JwtPlain.ValidateToken (HandlersPlain.jwtService h) (at_validate clock) tok)
    as [email [e|]] eqn:HV; [discriminate H|].
  eauto.
Qed.

(** A generated token, as the parser reads it. *)
Lemma generated_token s now email kind duration :
  Utf8.json_string <$> kind = kind ->
  fst (SignedString (ClaimSets.claims_of email kind (Unix (now + duration))) (SecretKey s))
  = Signed SHA256
      (ClaimSets.claims_of (Utf8.json_string email) kind (Unix (now + duration)))
      (SecretKey s).
Proof.
  intros Hk. cbn [SignedString fst]. now rewrite RoundTripFacts.claims_of_json, Hk.
Qed.

Lemma GenerateAccessToken_token s now email :
  fst (Jwt.GenerateAccessToken s now email)
  = Signed SHA256
      (ClaimSets.claims_of (Utf8.json_string email) (Some "access"%string)
         (Unix (now + AccessTokenDuration s)))
      (SecretKey s).
Proof. exact (generated_token s now email (Some "access"%string) _ eq_refl). Qed.


Lemma GenerateToken_plain_token s now email duration :
  fst (JwtPlain.GenerateToken s now email duration)
  = Signed SHA256
      (ClaimSets.claims_of (Utf8.json_string email) None (Unix (now + duration)))
      (SecretKey s).
Proof. exact (generated_token s now email None _ eq_refl). Qed.


End HandlersFacts.




(** A refresh made within the second of issue gives the presented refresh
    token back: alice's token issued at 60.000000002 s and presented at
    once. *)
Example RefreshToken_same_second :
  Http.refresh_token_of
    (Http.Payload
       (Handlers.RefreshToken RefreshExamples.handlers None Examples.clock
          (Http.RefreshJSON
             (fst (Jwt.GenerateRefreshToken Examples.cfg (60 * JwtCodec.second)
                     "alice@example.com")))))
  = Some (fst (Jwt.GenerateRefreshToken Examples.cfg (60 * JwtCodec.second)
                 "alice@example.com")).
Proof. vm_compute. reflexivity. Qed.

(** C4. A refresh token that still validates (good signature, unexpired)
    whose user is no longer in the store is answered 401 "User not found",
    and the answer carries no token; this holds in both builds.  The
    look-up comes before any token is made: no call for that user's token
    ends in 200, whatever the store reports. *)
Theorem RefreshToken_user_gone
    (cfg : JwtCodec.JWTConfig) (db : Database.DB) (clock : Http.Clock)
    (tok : JwtCodec.TokenString) (email : string) :
  Database.users db !! email = None ->
  (Jwt.ValidateRefreshToken cfg (Http.at_validate clock) tok = (email, None) ->
   Handlers.RefreshToken {| Handlers.jwtService := cfg; Handlers.db := db |}
     None clock (Http.RefreshJSON tok)
   = {| Http.Code := Http.StatusUnauthorized; Http.Payload := Http.ErrorBody "User not found" |}
   /\
   forall fault,
     let resp := Handlers.RefreshToken {| Handlers.jwtService := cfg; Handlers.db := db |}
                   fault clock (Http.RefreshJSON tok) in
     Http.Code resp <> Http.StatusOK /\ Http.token_of (Http.Payload resp) = None /\
     Http.refresh_token_of (Http.Payload resp) = None) /\
  (JwtPlain.ValidateToken cfg (Http.at_validate clock) tok = (email, None) ->
   HandlersPlain.RefreshToken
     {| HandlersPlain.jwtService := cfg; HandlersPlain.db := db |}
     None clock (Http.RefreshJSON tok)
   = {| Http.Code := Http.StatusUnauthorized; Http.Payload := Http.ErrorBody "User not found" |}
   /\
   forall fault,
     let resp := HandlersPlain.RefreshToken
                   {| HandlersPlain.jwtService := cfg; HandlersPlain.db := db |}
                   fault clock (Http.RefreshJSON tok) in
     Http.Code resp <> Http.StatusOK /\ Http.token_of (Http.Payload resp) = None).
Proof.
  intros Hgone. split; intros HV.
  - split.
    + rewrite (HandlersFacts.RefreshToken_validated
               {| Handlers.jwtService := cfg; Handlers.db := db |} _ _ _ _ HV). cbn [Handlers.db].
      now rewrite (UserFacts.GetUser_missing _ _ Hgone).
    + intros fault resp. subst resp.
      rewrite (HandlersFacts.RefreshToken_validated
               {| Handlers.jwtService := cfg; Handlers.db := db |} _ _ _ _ HV). cbn [Handlers.db].
      destruct (User.GetUser fault db email) as [u [e|]] eqn:HG.
      * destruct (errors_Is e ErrUserNotFound); (split; [discriminate|split; reflexivity]).
      * apply UserFacts.GetUser_ok in HG. rewrite Hgone in HG. now destruct HG.
  - split.
    + rewrite (HandlersFacts.RefreshToken_plain_validated
               {| HandlersPlain.jwtService := cfg; HandlersPlain.db := db |} _ _ _ _ HV).
      cbn [HandlersPlain.db]. now rewrite (UserFacts.GetUser_missing _ _ Hgone).
    + intros fault resp. subst resp.
      rewrite (HandlersFacts.RefreshToken_plain_validated
               {| HandlersPlain.jwtService := cfg; HandlersPlain.db := db |} _ _ _ _ HV).
      cbn [HandlersPlain.db].
      destruct (User.GetUser fault db email) as [u [e|]] eqn:HG.
      * destruct (errors_Is e ErrUserNotFound); (split; [discriminate|reflexivity]).
      * apply UserFacts.GetUser_ok in HG. rewrite Hgone in HG. now destruct HG.
Qed.

(** C4, for alice's refresh token presented after she was deleted. *)
Lemma RefreshToken_user_gone_witness :
  Handlers.RefreshToken RefreshExamples.handlers_no_alice None Examples.clock
    (Http.RefreshJSON RefreshExamples.alice_refresh)
  = {| Http.Code := Http.StatusUnauthorized; Http.Payload := Http.ErrorBody "User not found" |}.
Proof.
  refine (proj1 (proj1 (RefreshToken_user_gone Examples.cfg Database.empty Examples.clock
                          RefreshExamples.alice_refresh "alice@example.com" _) _)).
  - vm_compute. reflexivity.
  - vm_compute. reflexivity.
Defined.

(** ** Registration *)

Module CreateUserFacts.
Import Database User.

Lemma slice_to_in_bounds (s : string) (hi : nat) :
  (hi <= String.length s)%nat -> Go.slice_to s hi = Go.Return (String.substring 0 hi s).
Proof.
  intros H. unfold Go.slice_to. apply Nat.leb_le in H. now rewrite H.
Qed.

Lemma slice_to_out_of_bounds (s : string) (hi : nat) :
  (String.length s < hi)%nat -> Go.slice_to s hi = Go.Panic "slice bounds out of range".
Proof.
  intros H. unfold Go.slice_to. apply Nat.leb_gt in H. now rewrite H.
Qed.



(** [CreateUser] without the transaction it leaves. *)
Lemma CreateUser_eq env db email password :
  CreateUser env db email password
  = if String.eqb email "" then (Some (ErrorsNew "email cannot be empty"), db)
    else if String.eqb password "" then (Some (ErrorsNew "password cannot be empty"), db)
    else
      match begin_err env with
      | Some e => (Some e, db)
      | None =>
          match CreateUser_body env (Begin db) email password with
          | (Go.Return r, tx) => (r, store_after tx)
          | (Go.Panic _, tx) => (None, store_after (Rollback tx))
          end
      end.
Proof.
  unfold CreateUser, CreateUser_tx.
  destruct (String.eqb email ""); [reflexivity|].
  destruct (String.eqb password ""); [reflexivity|].
  destruct (begin_err env); [reflexivity|].
  now destruct (CreateUser_body env (Begin db) email password) as [[r|msg] tx].
Qed.

(** Past the two guards and [Begin], [CreateUser] is its body under the
    deferred [recover]. *)
Lemma CreateUser_tx_guards env db email password :
  email <> EmptyString -> password <> EmptyString -> begin_err env = None ->
  CreateUser_tx env db email password
  = match CreateUser_body env (Begin db) email password with
    | (Go.Return r, tx) => (r, Some tx)
    | (Go.Panic _, tx) => (None, Some (Rollback tx))
    end.
Proof.
  intros He Hp Hb. unfold CreateUser_tx.
  apply String.eqb_neq in He. apply String.eqb_neq in Hp.
  now rewrite He, Hp, Hb.
Qed.

Lemma CreateUser_guards env db email password :
  email <> EmptyString -> password <> EmptyString -> begin_err env = None ->
  CreateUser env db email password
  = match CreateUser_body env (Begin db) email password with
    | (Go.Return r, tx) => (r, store_after tx)
    | (Go.Panic _, tx) => (None, store_after (Rollback tx))
    end.
Proof.
  intros He Hp Hb. rewrite CreateUser_eq.
  apply String.eqb_neq in He. apply String.eqb_neq in Hp.
  now rewrite He, Hp, Hb.
Qed.

(** [CreateUser] is [CreateUser_tx] seen from the store. *)
Lemma CreateUser_of_tx env db email password err tx :
  CreateUser_tx env db email password = (err, Some tx) ->
  CreateUser env db email password = (err, store_after tx).
Proof. intros H. unfold CreateUser. now rewrite H. Qed.

(** The body when the organization is written and the slice is in
    bounds: what is left is the user row, the junction row and the
    commit. *)
Lemma CreateUser_body_org_written env db email password :
  create_org_err env = None -> (3 <= String.length email)%nat ->
  CreateUser_body env (Begin db) email password
  = let organization := {| OrgID := organizations_seq db + 1;
                           OrgName := String.append email "_org" |} in
    let user := {| Email := email; Password := password;
                   Prefix := String.substring 0 3 email;
                   ActiveOrganizationID := organizations_seq db + 1 |} in
    let tx1 := fst (Create_organization None (Begin db) (String.append email "_org")) in
    match Create_user (create_user_err env) (duplicate_err env) tx1 user with
    | (tx2, Some err) =>
        (Go.Return (if errors_Is err ErrDuplicatedKey
                    then Some ErrUserAlreadyExists else Some err),
         Rollback tx2)
    | (tx2, None) =>
        let '(tx3, _) := Append_user (append_err env) tx2 organization user in
        let '(tx4, err) := Commit (commit_err env) tx3 in
        (Go.Return err, tx4)
    end.
Proof.
  intros Ho Hlen. unfold CreateUser_body. rewrite Ho.
  cbn [Create_organization]. rewrite (slice_to_in_bounds _ _ Hlen). reflexivity.
Qed.

End CreateUserFacts.




(** C10. Past the emptiness checks, [CreateUser] takes [email[:3]] with no
    length guard.  The slice is in bounds exactly when the email has at
    least 3 bytes, and then the body runs to a return.  For a non-empty
    email of 1 or 2 bytes the slice panics with the transaction open and
    the organization written in it; [CreateUser] nevertheless returns, with
    a nil error, and the transaction it leaves is rolled back, the
    organization gone: the deferred function has recovered the panic and
    rolled back.  The store is as it was: no user and no organization were
    created. *)
Theorem CreateUser_short_email
    (env : User.Faults) (db : Database.DB) (email password : string) :
  email <> EmptyString -> password <> EmptyString ->
  User.begin_err env = None -> User.create_org_err env = None ->
  ((exists prefix, Go.slice_to email 3 = Go.Return prefix)
   <-> (3 <= String.length email)%nat) /\
  ((3 <= String.length email)%nat ->
   exists r tx,
     User.CreateUser_body env (Database.Begin db) email password = (Go.Return r, tx) /\
     User.CreateUser_tx env db email password = (r, Some tx)) /\
  ((String.length email < 3)%nat ->
   (1 <= String.length email <= 2)%nat /\
   (exists msg tx,
      User.CreateUser_body env (Database.Begin db) email password = (Go.Panic msg, tx) /\
      Database.state tx = Database.Open /\
      Database.organizations (Database.pending tx)
      = Database.organizations db ++
        [{| Database.OrgID := Database.organizations_seq db + 1;
            Database.OrgName := String.append email "_org" |}]) /\
   (exists tx',
      User.CreateUser_tx env db email password = (None, Some tx') /\
      Database.state tx' = Database.RolledBack /\
      Database.pending tx' = db) /\
   User.CreateUser env db email password = (None, db)).
Proof.
  intros He Hp Hb Ho. split; [|split].
  - split.
    + intros [prefix H]. unfold Go.slice_to in H.
      destruct (3 <=? String.length email)%nat eqn:E; [|discriminate].
      now apply Nat.leb_le in E.
    + intros H. eexists. now apply CreateUserFacts.slice_to_in_bounds.
  - intros Hlen.
    rewrite (CreateUserFacts.CreateUser_tx_guards _ _ _ _ He Hp Hb).
    rewrite (CreateUserFacts.CreateUser_body_org_written _ _ _ _ Ho Hlen). cbn zeta.
    destruct (User.Create_user _ _ _ _) as [tx2 [err|]]; [eauto|].
    destruct (User.Append_user _ _ _ _) as [tx3 a].
    destruct (Database.Commit _ tx3) as [tx4 err]. eauto.
  - intros Hlen.
    assert (Hbody : User.CreateUser_body env (Database.Begin db) email password
                    = (Go.Panic "slice bounds out of range",
                       fst (User.Create_organization None (Database.Begin db)
                              (String.append email "_org")))).
    { unfold User.CreateUser_body. rewrite Ho. cbn [User.Create_organization].
      now rewrite (CreateUserFacts.slice_to_out_of_bounds _ _ Hlen). }
    split; [|split; [|split]].
    + destruct email; [congruence|]. simpl in *. lia.
    + do 2 eexists. split; [exact Hbody|]. repeat split.
    + rewrite (CreateUserFacts.CreateUser_tx_guards _ _ _ _ He Hp Hb), Hbody.
      eexists. split; [reflexivity|]. repeat split.
    + rewrite (CreateUserFacts.CreateUser_guards _ _ _ _ He Hp Hb), Hbody. reflexivity.
Qed.

(** C10, for the 2-byte email "ab" on the store that holds alice: the call
    reports success and the store is unchanged. *)
Lemma CreateUser_short_email_witness :
  User.CreateUser User.no_faults Examples.db_alice "ab" "password123"
  = (None, Examples.db_alice).
Proof.
  refine (proj2 (proj2 (proj2 (proj2 (proj2
            (CreateUser_short_email User.no_faults Examples.db_alice "ab" "password123"
               _ _ _ _)) _)))).
  - discriminate.
  - discriminate.
  - reflexivity.
  - reflexivity.
  - simpl. lia.
Defined.

(** ** Password-reset tokens *)

Module ResetFacts.
Import Database.

Lemma filter_delete_tokens_of email (rows : list ResetToken) :
  filter (fun r => UserEmail r = email) (Reset.delete_tokens_of email rows) = [].
Proof.
  unfold Reset.delete_tokens_of.
  induction rows as [|r rows IH]; [reflexivity|].
  rewrite filter_cons. case_decide as Hr; [|exact IH].
  rewrite filter_cons. case_decide; [contradiction|exact IH].
Qed.

(** The reset service leaves a user with exactly the token it has just
    made: the rows the user had before are gone. *)
Lemma CreateResetToken_replaces_prior db now token email db' :
  Reset.CreateResetToken Reset.no_faults db now token email = ((token, None), db') ->
  filter (fun r => UserEmail r = email) (reset_tokens db')
  = [{| TokID := reset_tokens_seq db + 1; Token := token;
        ExpiredAt := now + 5 * JwtCodec.minute; UserEmail := email |}].
Proof.
  unfold Reset.CreateResetToken, User.First_user. cbn [Reset.find_user_err Reset.no_faults].
  destruct (users db !! email) as [u|]; [|cbn; discriminate].
  unfold Reset.Create_token. cbn [Reset.create_err Reset.no_faults].
  case_bool_decide as Hdup; [discriminate|].
  intros [= <-]. cbn.
  rewrite filter_app, filter_delete_tokens_of, filter_cons.
  cbn. case_decide; [reflexivity|contradiction].
Qed.

(** A token redeemed through [SetNewPassword] is no longer in the table
    (when the engine serves the delete). *)
Lemma SetNewPassword_deletes_used db now password token resp db' :
  Handlers.SetNewPassword Handlers.no_faults db now (Some (password, token)) = (resp, db') ->
  Http.Code resp = Http.StatusOK ->
  exists used,
    List.find (fun r => String.eqb (Token r) token && (now <? ExpiredAt r)) (reset_tokens db)
    = Some used /\
    forall r, r ∈ reset_tokens db' -> TokID r <> TokID used.
Proof.
  unfold Handlers.SetNewPassword.
  cbn [Handlers.find_token_err Handlers.update_err Handlers.delete_err Handlers.no_faults].
  destruct (List.find _ (reset_tokens db)) as [used|]; [|intros [= <- <-]; discriminate].
  intros [= <- <-] _. exists used. split; [reflexivity|].
  cbn. unfold Reset.delete_token. intros r Hr.
  apply list_elem_of_filter in Hr. tauto.
Qed.

(** [RequestPasswordReset] never removes a row: what it leaves is the
    table it found, with at most the new row after it.  A token of the
    user that was live before the request is therefore still there. *)
Lemma RequestPasswordReset_keeps_rows env db now_token now_expiry username resp db' :
  Handlers.RequestPasswordReset env db now_token now_expiry username = (resp, db') ->
  exists new, reset_tokens db' = reset_tokens db ++ new.
Proof.
  unfold Handlers.RequestPasswordReset.
  destruct username as [username|]; [|intros [= <- <-]; exists []; now rewrite app_nil_r].
  destruct (User.First_user _ db username) as [user|err].
  - unfold Reset.Create_token.
    destruct (Handlers.create_err env) as [e|];
      [intros [= <- <-]; exists []; now rewrite app_nil_r|].
    case_bool_decide; intros [= <- <-]; [exists []; now rewrite app_nil_r|].
    eexists. reflexivity.
  - destruct (errors_Is err ErrRecordNotFound); intros [= <- <-];
      exists []; now rewrite app_nil_r.
Qed.

Lemma RequestPasswordReset_keeps_live env db now_token now_expiry username resp db' email now r :
  Handlers.RequestPasswordReset env db now_token now_expiry username = (resp, db') ->
  r ∈ Reset.live_tokens db email now -> r ∈ Reset.live_tokens db' email now.
Proof.
  intros H Hr. destruct (RequestPasswordReset_keeps_rows _ _ _ _ _ _ _ H) as [new Hnew].
  unfold Reset.live_tokens in *. rewrite Hnew, filter_app.
  apply elem_of_app. now left.
Qed.

End ResetFacts.

(** C6 on the handlers: alice asks for a reset at second 1000 and again at
    second 1001.  Both requests are answered 200, and afterwards two of
    her tokens are live, the first one still among them; the first token
    then still changes her password at second 1002, and the second one
    stays live after that. *)
Lemma RequestPasswordReset_two_live_tokens :
  Http.Code (fst ResetExamples.after_first_request) = Http.StatusOK /\
  Http.Code (fst ResetExamples.after_second_request) = Http.StatusOK /\
  Database.Token <$>
    Reset.live_tokens (snd ResetExamples.after_second_request) "alice@example.com"
      (1001 * JwtCodec.second)
  = ["reset_1000"%string; "reset_1001"%string] /\
  Http.Code (fst ResetExamples.after_redeeming_first) = Http.StatusOK /\
  Database.Password <$>
    (Database.users (snd ResetExamples.after_redeeming_first) !! "alice@example.com"%string)
  = Some "hunter2"%string /\
  Database.Token <$>
    Reset.live_tokens (snd ResetExamples.after_redeeming_first) "alice@example.com"
      (1002 * JwtCodec.second)
  = ["reset_1001"%string].
Proof. repeat split; vm_compute; reflexivity. Qed.

(** The reset service on the same two requests: after the second one only
    the second token is left. *)
Example CreateResetToken_one_live_token :
  fst ResetExamples.service_after_second = ("BBBBBBBBBBBBBBB"%string, None) /\
  Database.Token <$>
    Reset.live_tokens (snd ResetExamples.service_after_second) "alice@example.com"
      (1001 * JwtCodec.second)
  = ["BBBBBBBBBBBBBBB"%string].
Proof. split; vm_compute; reflexivity. Qed.

(** * Further properties of the embedded code *)

(** ** The allocator beyond the successful path *)

Module AllocatorFacts.
Import Database Item.

(** The store after a call is the store before it, or that store with the
    row of the prefix rewritten. *)
Lemma getNextID_store env db prefix :
  snd (getNextID env db prefix) = db \/
  exists v, snd (getNextID env db prefix)
            = set_next_numbers (fun m => <[prefix := v]> m) db.
Proof.
  unfold getNextID, getNextID_body, First_next_number, put_next_number, commit_and_format.
  destruct (find_err env) as [fe|]; cbn.
  - destruct (errors_Is fe ErrRecordNotFound); cbn; [|auto].
    destruct (create_err env); cbn; [auto|].
    destruct (commit_err env); cbn; [auto|right; eexists; reflexivity].
  - destruct (backpack_id_next_numbers db !! prefix) as [n|]; cbn.
    + destruct (save_err env); cbn; [auto|].
      destruct (commit_err env); cbn; [auto|right; eexists; reflexivity].
    + destruct (create_err env); cbn; [auto|].
      destruct (commit_err env); cbn; [auto|right; eexists; reflexivity].
Qed.

(** A call that reports an error has rolled back. *)
Lemma getNextID_error env db prefix e :
  snd (fst (getNextID env db prefix)) = Some e ->
  getNextID env db prefix = ((EmptyString, Some e), db).
Proof.
  unfold getNextID, getNextID_body, First_next_number, put_next_number, commit_and_format.
  destruct (find_err env) as [fe|]; cbn.
  - destruct (errors_Is fe ErrRecordNotFound); cbn.
    + destruct (create_err env); cbn; [now intros [= <-]|].
      destruct (commit_err env); cbn; [now intros [= <-]|discriminate].
    + now intros [= <-].
  - destruct (backpack_id_next_numbers db !! prefix) as [n|]; cbn.
    + destruct (save_err env); cbn; [now intros [= <-]|].
      destruct (commit_err env); cbn; [now intros [= <-]|discriminate].
    + destruct (create_err env); cbn; [now intros [= <-]|].
      destruct (commit_err env); cbn; [now intros [= <-]|discriminate].
Qed.

(** ["%04d"] writes different numbers differently. *)
Lemma Sprintf_04d_inj a b :
  0 <= a <= GoInt.max_int -> 0 <= b <= GoInt.max_int ->
  Fmt.Sprintf_04d a = Fmt.Sprintf_04d b -> a = b.
Proof.
  intros Ha Hb H. unfold GoInt.max_int in *.
  destruct (FmtFacts.Sprintf_04d_nonneg a) as [Hva _]; [lia|].
  destruct (FmtFacts.Sprintf_04d_nonneg b) as [Hvb _]; [lia|].
  rewrite <- Hva, <- Hvb. now rewrite H.
Qed.

End AllocatorFacts.

(** X1. Whatever the engine does to the store calls of [getNextID], a call
    that returns an error returns the empty string with it and leaves the
    store exactly as it found it: the row is neither created nor
    advanced. *)
Theorem getNextID_failure_leaves_store
    (env : Item.Faults) (db : Database.DB) (prefix : string) (e : error) :
  snd (fst (Item.getNextID env db prefix)) = Some e ->
  fst (fst (Item.getNextID env db prefix)) = EmptyString /\
  snd (Item.getNextID env db prefix) = db.
Proof.
  intros H. rewrite (AllocatorFacts.getNextID_error _ _ _ _ H). auto.
Qed.

(** X1, with an engine that refuses the commit, on the store whose counter
    for ABC stands at 41. *)
Lemma getNextID_failure_leaves_store_witness :
  fst (fst (Item.getNextID ItemExamples.commit_fails Examples.db_abc41 "ABC")) = EmptyString /\
  snd (Item.getNextID ItemExamples.commit_fails Examples.db_abc41 "ABC") = Examples.db_abc41.
Proof.
  apply (getNextID_failure_leaves_store ItemExamples.commit_fails Examples.db_abc41
           "ABC" (ErrDriver "connection reset")).
  vm_compute. reflexivity.
Defined.

(** X2. [getNextID] for one prefix never touches the counter of another
    prefix, nor any other table, whether it succeeds or fails. *)
Theorem getNextID_other_prefixes_untouched
    (env : Item.Faults) (db : Database.DB) (prefix other : string) :
  other <> prefix ->
  let db' := snd (Item.getNextID env db prefix) in
  Database.backpack_id_next_numbers db' !! other
  = Database.backpack_id_next_numbers db !! other /\
  Database.users db' = Database.users db /\
  Database.organizations db' = Database.organizations db /\
  Database.organization_users db' = Database.organization_users db /\
  Database.reset_tokens db' = Database.reset_tokens db.
Proof.
  intros Hne db'. subst db'.
  destruct (AllocatorFacts.getNextID_store env db prefix) as [-> | [v ->]]; [auto|].
  unfold Database.set_next_numbers.
  cbn [Database.backpack_id_next_numbers Database.users Database.organizations
       Database.organization_users Database.reset_tokens].
  rewrite lookup_insert_ne by congruence. auto.
Qed.

(** X2, for an allocation under XYZ seen from the counter of ABC. *)
Lemma getNextID_other_prefixes_untouched_witness :
  Database.backpack_id_next_numbers
    (snd (Item.getNextID Item.no_faults Examples.db_abc41 "XYZ")) !! "ABC"%string
  = Database.backpack_id_next_numbers Examples.db_abc41 !! "ABC"%string.
Proof.
  refine (proj1 (getNextID_other_prefixes_untouched Item.no_faults Examples.db_abc41
                   "XYZ" "ABC" _)).
  discriminate.
Defined.

(** X3. Allocations made one after the other for a prefix whose counter
    stands at [n >= 0] return the identifiers of [n + 1], [n + 2], ...,
    [n + k] in that order, no two of them equal, and leave the counter at
    [n + k]. *)
Theorem allocate_contiguous_distinct
    (k : nat) (db : Database.DB) (prefix : string) (n : Z) :
  Database.backpack_id_next_numbers db !! prefix = Some n ->
  0 <= n -> n + Z.of_nat k <= GoInt.max_int ->
  fst (Item.allocate k db prefix)
  = map (fun i => Fmt.Sprintf_04d (n + Z.of_nat i)) (seq 1 k) /\
  NoDup (fst (Item.allocate k db prefix)) /\
  Database.backpack_id_next_numbers (snd (Item.allocate k db prefix)) !! prefix
  = Some (n + Z.of_nat k).
Proof.
  intros Hn H0 Hmax.
  destruct (ItemFacts.allocate_run k db prefix n Hn) as [Hids Hlast];
    [unfold GoInt.min_int; lia|exact Hmax|].
  split; [exact Hids|]. split; [|exact Hlast].
  rewrite Hids.
  change (NoDup ((fun i => Fmt.Sprintf_04d (n + Z.of_nat i)) <$> seq 1 k)).
  apply NoDup_fmap_2_strong; [|apply NoDup_seq].
  intros i j Hi Hj Heq. apply elem_of_seq in Hi, Hj.
  apply AllocatorFacts.Sprintf_04d_inj in Heq; lia.
Qed.

(** X3, for three allocations after 41. *)
Lemma allocate_contiguous_distinct_witness :
  fst (Item.allocate 3 Examples.db_abc41 "ABC")
  = map (fun i => Fmt.Sprintf_04d (41 + Z.of_nat i)) (seq 1 3) /\
  NoDup (fst (Item.allocate 3 Examples.db_abc41 "ABC")) /\
  Database.backpack_id_next_numbers (snd (Item.allocate 3 Examples.db_abc41 "ABC"))
    !! "ABC"%string
  = Some (41 + Z.of_nat 3).
Proof.
  apply (allocate_contiguous_distinct 3 Examples.db_abc41 "ABC" 41).
  - vm_compute. reflexivity.
  - lia.
  - unfold GoInt.max_int. lia.
Defined.

(** ** Tokens: lifetime, secret and kind *)

Module TokenFacts.
Import JwtCodec ClaimSets.

(** The written expiry lies within the last second before the asked
    one. *)
Lemma before_written_expiry t instant :
  t < instant - second -> (t <? Unix instant * second) = true.
Proof.
  intros H. apply Z.ltb_lt. pose proof (JwtFacts.Unix_truncates instant). lia.
Qed.

Lemma after_asked_expiry t instant :
  instant <= t -> (t <? Unix instant * second) = false.
Proof.
  intros H. apply Z.ltb_ge. pose proof (JwtFacts.Unix_truncates instant). lia.
Qed.





End TokenFacts.

(** X4. A token of any of the three generators is accepted by its
    validator, which returns the email as JSON carries it, exactly until
    the expiry written in it, and refused from then on with
    [jwt.ErrTokenInvalidClaims] joined with [jwt.ErrTokenExpired]; a
    written expiry of 0 counts as none, and such a token is accepted at
    every instant.  As the written expiry is the asked one cut to the
    whole second, a token issued at [now] for [d] is accepted at every
    instant before [now + d - 1s] and, unless its written expiry is 0,
    refused at every instant from [now + d] on. *)
Theorem token_validity_window
    (s : JwtCodec.JWTConfig) (now d t : Z) (email : string) :
  Jwt.ValidateToken s t (fst (Jwt.GenerateToken s now email d))
  = (if (JwtCodec.Unix (now + d) =? 0) || (t <? JwtCodec.Unix (now + d) * JwtCodec.second)
     then (Utf8.json_string email, None)
     else (EmptyString, Some (ErrTokenInvalidClaims [TokenExpired]))) /\
  Jwt.ValidateToken s t (fst (Jwt.GenerateAccessToken s now email))
  = (if (JwtCodec.Unix (now + JwtCodec.AccessTokenDuration s) =? 0)
        || (t <? JwtCodec.Unix (now + JwtCodec.AccessTokenDuration s) * JwtCodec.second)
     then (Utf8.json_string email, None)
     else (EmptyString, Some (ErrTokenInvalidClaims [TokenExpired]))) /\
  Jwt.ValidateRefreshToken s t (fst (Jwt.GenerateRefreshToken s now email))
  = (if (JwtCodec.Unix (now + JwtCodec.RefreshTokenDuration s) =? 0)
        || (t <? JwtCodec.Unix (now + JwtCodec.RefreshTokenDuration s) * JwtCodec.second)
     then (Utf8.json_string email, None)
     else (EmptyString, Some (ErrTokenInvalidClaims [TokenExpired]))) /\
  (t < now + d - JwtCodec.second ->
   Jwt.ValidateToken s t (fst (Jwt.GenerateToken s now email d))
   = (Utf8.json_string email, None)) /\
  (now + d <= t -> JwtCodec.Unix (now + d) <> 0 ->
   Jwt.ValidateToken s t (fst (Jwt.GenerateToken s now email d))
   = (EmptyString, Some (ErrTokenInvalidClaims [TokenExpired]))) /\
  (JwtCodec.Unix (now + d) = 0 ->
   Jwt.ValidateToken s t (fst (Jwt.GenerateToken s now email d))
   = (Utf8.json_string email, None)).
Proof.
  assert (H0 : forall d', Jwt.ValidateToken s t (fst (Jwt.GenerateToken s now email d'))
               = (if (JwtCodec.Unix (now + d') =? 0)
                     || (t <? JwtCodec.Unix (now + d') * JwtCodec.second)
                  then (Utf8.json_string email, None)
                  else (EmptyString, Some (ErrTokenInvalidClaims [TokenExpired])))).
  { intros d'.
    exact (RoundTripFacts.validate_generated s t email None _ "access" eq_refl). }
  split; [apply H0|]. split; [|split; [|split; [|split]]].
  - exact (RoundTripFacts.validate_generated s t email (Some "access"%string) _ "access"
             eq_refl).
  - exact (RoundTripFacts.validate_generated s t email (Some "refresh"%string) _ "refresh"
             eq_refl).
  - intros H. rewrite H0, (TokenFacts.before_written_expiry _ _ H). now rewrite orb_true_r.
  - intros H Hne. rewrite H0, (TokenFacts.after_asked_expiry _ _ H).
    apply Z.eqb_neq in Hne. now rewrite Hne.
  - intros H. rewrite H0, H. reflexivity.
Qed.

(** X4, for alice's 15-minute token issued at the epoch: accepted after 14
    minutes 58 seconds. *)
Lemma token_validity_window_witness :
  Jwt.ValidateToken Examples.cfg (898 * JwtCodec.second)
    (fst (Jwt.GenerateToken Examples.cfg 0 "alice@example.com" (15 * JwtCodec.minute)))
  = ("alice@example.com"%string, None).
Proof.
  refine (proj1 (proj2 (proj2 (proj2
            (token_validity_window Examples.cfg 0 (15 * JwtCodec.minute)
               (898 * JwtCodec.second) "alice@example.com")))) _).
  vm_compute. reflexivity.
Defined.



(** X6. The two tokens of a pair cannot stand in for each other: at every
    instant [ValidateToken] refuses the refresh token and
    [ValidateRefreshToken] refuses the access token.  The error is
    [ErrInvalidKey] while the token is unexpired (for ever, when its
    written expiry is 0) and [jwt.ErrTokenInvalidClaims] joined with
    [jwt.ErrTokenExpired] afterwards. *)
Theorem token_pair_kinds_not_interchangeable
    (s : JwtCodec.JWTConfig) (now_access now_refresh t : Z) (email : string) :
  exists tokens,
    Jwt.GenerateTokenPair s now_access now_refresh email = (Some tokens, None) /\
    Jwt.ValidateToken s t (JwtCodec.RefreshToken tokens)
    = (EmptyString,
       Some (if (JwtCodec.Unix (now_refresh + JwtCodec.RefreshTokenDuration s) =? 0)
                || (t <? JwtCodec.Unix (now_refresh + JwtCodec.RefreshTokenDuration s)
                         * JwtCodec.second)
             then ErrInvalidKey else ErrTokenInvalidClaims [TokenExpired])) /\
    Jwt.ValidateRefreshToken s t (JwtCodec.Token tokens)
    = (EmptyString,
       Some (if (JwtCodec.Unix (now_access + JwtCodec.AccessTokenDuration s) =? 0)
                || (t <? JwtCodec.Unix (now_access + JwtCodec.AccessTokenDuration s)
                         * JwtCodec.second)
             then ErrInvalidKey else ErrTokenInvalidClaims [TokenExpired])).
Proof.
  eexists. split; [reflexivity|]. cbn [JwtCodec.RefreshToken JwtCodec.Token]. split.
  - etransitivity;
      [exact (RoundTripFacts.validate_generated s t email (Some "refresh"%string) _ "access"
                eq_refl)|].
    now destruct (_ || _).
  - etransitivity;
      [exact (RoundTripFacts.validate_generated s t email (Some "access"%string) _ "refresh"
                eq_refl)|].
    now destruct (_ || _).
Qed.

(** X7. In the plain build the two tokens of a pair differ in lifetime
    only: [ValidateToken], the one validator there is, accepts the refresh
    token as it accepts the access token, for the whole lifetime of the
    refresh token, and returns the email as JSON carries it. *)
Theorem plain_refresh_token_validates_as_access
    (s : JwtCodec.JWTConfig) (now_access now_refresh t : Z) (email : string) :
  t < JwtCodec.Unix (now_refresh + JwtCodec.RefreshTokenDuration s) * JwtCodec.second ->
  exists tokens,
    JwtPlain.GenerateTokenPair s now_access now_refresh email = (Some tokens, None) /\
    JwtPlain.ValidateToken s t (JwtCodec.RefreshToken tokens)
    = (Utf8.json_string email, None) /\
    JwtPlain.ValidateToken s t (JwtCodec.RefreshToken tokens)
    = Jwt.ValidateToken s t (JwtCodec.RefreshToken tokens).
Proof.
  intros Ht. eexists. split; [reflexivity|]. cbn [JwtCodec.RefreshToken].
  assert (H : JwtPlain.ValidateToken s t
                (fst (JwtPlain.GenerateToken s now_refresh email
                        (JwtCodec.RefreshTokenDuration s)))
              = (Utf8.json_string email, None)).
  { unfold JwtPlain.ValidateToken. rewrite HandlersFacts.GenerateToken_plain_token.
    rewrite JwtFacts.Parse_Signed.
    - rewrite RoundTripFacts.claims_of_json, RoundTripFacts.claims_of_email. cbn.
      now rewrite Utf8Facts.json_string_idempotent.
    - rewrite RoundTripFacts.Validate_claims_of.
      now rewrite (RoundTripFacts.before_expiry _ _ Ht). }
  split; [exact H|]. etransitivity; [exact H|]. symmetry.
  etransitivity;
    [exact (RoundTripFacts.validate_generated s t email None _ "access" eq_refl)|].
  now rewrite (RoundTripFacts.before_expiry _ _ Ht).
Qed.

(** X7, for alice's plain pair issued at the epoch, the refresh token read
    after 23 hours. *)
Lemma plain_refresh_token_validates_as_access_witness :
  exists tokens,
    JwtPlain.GenerateTokenPair Examples.cfg 0 0 "alice@example.com" = (Some tokens, None) /\
    JwtPlain.ValidateToken Examples.cfg (23 * JwtCodec.hour) (JwtCodec.RefreshToken tokens)
    = ("alice@example.com"%string, None) /\
    JwtPlain.ValidateToken Examples.cfg (23 * JwtCodec.hour) (JwtCodec.RefreshToken tokens)
    = Jwt.ValidateToken Examples.cfg (23 * JwtCodec.hour) (JwtCodec.RefreshToken tokens).
Proof.
  apply (plain_refresh_token_validates_as_access Examples.cfg 0 0 (23 * JwtCodec.hour)
           "alice@example.com").
  vm_compute. reflexivity.
Defined.



(** ** Password reset through the handlers *)

Module ResetFlowFacts.
Import Database.

Lemma find_none {A} (f : A -> bool) (l : list A) :
  Forall (fun x => f x = false) l -> List.find f l = None.
Proof.
  induction 1 as [|x l Hx _ IH]; [reflexivity|]. cbn. now rewrite Hx.
Qed.

Lemma find_last {A} (f : A -> bool) (l : list A) (x : A) :
  Forall (fun y => f y = false) l -> f x = true -> List.find f (l ++ [x]) = Some x.
Proof.
  induction 1 as [|y l Hy _ IH]; intros Hx; cbn; [now rewrite Hx|].
  rewrite Hy. now apply IH.
Qed.

(** No row carries the token: what the uniqueness check of [Create]
    found. *)
Lemma no_row_with_token (rows : list ResetToken) (token : string) :
  ~ Exists (fun r => Token r = token) rows ->
  Forall (fun r => String.eqb (Token r) token = false) rows.
Proof.
  intros H. apply Forall_forall. intros r Hr.
  apply String.eqb_neq. intros Heq. apply H. apply Exists_exists. eauto.
Qed.

(** A request answered 200 found the user, found no row with the token of
    its second, and added that row. *)
Lemma RequestPasswordReset_ok_inv env db now_token now_expiry username resp db' :
  Handlers.RequestPasswordReset env db now_token now_expiry (Some username) = (resp, db') ->
  Http.Code resp = Http.StatusOK ->
  exists user,
    User.First_user (Handlers.find_user_err env) db username = inl user /\
    ~ Exists (fun r => Token r = ResetTokens.token_at now_token) (reset_tokens db) /\
    db' = set_reset_tokens
            (fun rows => rows ++ [{| TokID := reset_tokens_seq db + 1;
                                     Token := ResetTokens.token_at now_token;
                                     ExpiredAt := now_expiry + 5 * JwtCodec.minute;
                                     UserEmail := Email user |}])
            (reset_tokens_seq db + 1) db.
Proof.
  unfold Handlers.RequestPasswordReset.
  destruct (User.First_user _ db username) as [user|err].
  - unfold Reset.Create_token.
    destruct (Handlers.create_err env) as [e|]; [intros [= <- <-]; discriminate|].
    case_bool_decide as Hdup; intros [= <- <-]; [discriminate|].
    intros _. exists user. auto.
  - destruct (errors_Is err ErrRecordNotFound); intros [= <- <-]; discriminate.
Qed.

(** Redeeming the row a request has just added, before it expires. *)
Lemma SetNewPassword_redeems db now_token now_expiry now email password :
  ~ Exists (fun r => Token r = ResetTokens.token_at now_token) (reset_tokens db) ->
  now < now_expiry + 5 * JwtCodec.minute ->
  let db1 := set_reset_tokens
               (fun rows => rows ++ [{| TokID := reset_tokens_seq db + 1;
                                        Token := ResetTokens.token_at now_token;
                                        ExpiredAt := now_expiry + 5 * JwtCodec.minute;
                                        UserEmail := email |}])
               (reset_tokens_seq db + 1) db in
  Handlers.SetNewPassword Handlers.no_faults db1 now
    (Some (password, ResetTokens.token_at now_token))
  = ({| Http.Code := Http.StatusOK;
        Http.Payload := Http.MessageBody "Password updated successfully" |},
     set_reset_tokens (Reset.delete_token (reset_tokens_seq db + 1))
       (reset_tokens_seq db + 1) (Reset.Update_password db1 email password)).
Proof.
  intros Hfree Hlive db1. unfold Handlers.SetNewPassword.
  cbn [Handlers.find_token_err Handlers.update_err Handlers.delete_err Handlers.no_faults].
  subst db1. cbn [reset_tokens set_reset_tokens].
  rewrite find_last.
  - reflexivity.
  - apply no_row_with_token in Hfree.
    eapply Forall_impl; [exact Hfree|]. cbn. intros r Hr. now rewrite Hr.
  - cbn. rewrite String.eqb_refl. cbn. now apply Z.ltb_lt.
Qed.

(** After the redeemed row is deleted no row carries its token. *)
Lemma redeemed_token_gone (rows : list ResetToken) (new : ResetToken) :
  ~ Exists (fun r => Token r = Token new) rows ->
  ~ Exists (fun r => Token r = Token new)
      (Reset.delete_token (TokID new) (rows ++ [new])).
Proof.
  intros Hfree Hex. apply Exists_exists in Hex as (r & Hr & Htok).
  unfold Reset.delete_token in Hr. apply list_elem_of_filter in Hr as [Hid Hr].
  apply elem_of_app in Hr as [Hr|Hr].
  - apply Hfree. apply Exists_exists. eauto.
  - apply list_elem_of_singleton in Hr. subst r. contradiction.
Qed.

(** A token no row carries is answered 400 and changes nothing. *)
Lemma SetNewPassword_unknown_token db now password token :
  Forall (fun r => String.eqb (Token r) token && (now <? ExpiredAt r) = false)
    (reset_tokens db) ->
  Handlers.SetNewPassword Handlers.no_faults db now (Some (password, token))
  = ({| Http.Code := Http.StatusBadRequest;
        Http.Payload := Http.ErrorBody "Invalid or expired token" |}, db).
Proof.
  intros H. unfold Handlers.SetNewPassword.
  cbn [Handlers.find_token_err Handlers.no_faults].
  now rewrite (find_none _ _ H).
Qed.

End ResetFlowFacts.

(** X9. The reset token of the handlers is made of the second of the
    request alone.  Once a request has been answered 200, every further
    request in the same second, for any stored user, is answered 500
    "Failed to create reset token" and adds nothing to the store. *)
Theorem RequestPasswordReset_same_second_refused
    (env env' : Handlers.ResetFaults) (db db1 : Database.DB) (resp : Http.Response)
    (now_token now_expiry now_token' now_expiry' : Z) (username username' : string) :
  Handlers.RequestPasswordReset env db now_token now_expiry (Some username) = (resp, db1) ->
  Http.Code resp = Http.StatusOK ->
  JwtCodec.Unix now_token' = JwtCodec.Unix now_token ->
  Handlers.find_user_err env' = None ->
  is_Some (Database.users db1 !! username') ->
  Handlers.RequestPasswordReset env' db1 now_token' now_expiry' (Some username')
  = ({| Http.Code := Http.StatusInternalServerError;
        Http.Payload := Http.ErrorBody "Failed to create reset token" |}, db1).
Proof.
  intros H1 Hok Hsec Hfind [u' Hu'].
  destruct (ResetFlowFacts.RequestPasswordReset_ok_inv _ _ _ _ _ _ _ H1 Hok)
    as (user & _ & _ & ->).
  unfold Handlers.RequestPasswordReset, User.First_user. rewrite Hfind, Hu'.
  unfold Reset.Create_token.
  destruct (Handlers.create_err env') as [e|]; [reflexivity|].
  rewrite Hsec. rewrite bool_decide_true; [reflexivity|].
  cbn. apply Exists_app. right. apply Exists_cons_hd. reflexivity.
Qed.

(** X9, for alice asking twice within second 1000. *)
Lemma RequestPasswordReset_same_second_refused_witness :
  Handlers.RequestPasswordReset Handlers.no_faults (snd ResetExamples.after_first_request)
    (1000 * JwtCodec.second + 5) (1000 * JwtCodec.second + 5)
    (Some "alice@example.com"%string)
  = ({| Http.Code := Http.StatusInternalServerError;
        Http.Payload := Http.ErrorBody "Failed to create reset token" |},
     snd ResetExamples.after_first_request).
Proof.
  apply (RequestPasswordReset_same_second_refused Handlers.no_faults Handlers.no_faults
           Examples.db_alice (snd ResetExamples.after_first_request)
           (fst ResetExamples.after_first_request)
           (1000 * JwtCodec.second) (1000 * JwtCodec.second)
           (1000 * JwtCodec.second + 5) (1000 * JwtCodec.second + 5)
           "alice@example.com" "alice@example.com").
  - vm_compute. reflexivity.
  - vm_compute. reflexivity.
  - vm_compute. reflexivity.
  - reflexivity.
  - vm_compute. eauto.
Defined.

(** X10. The reset flow of the handlers, end to end.  After a request
    answered 200, presenting the token of that second with a new password
    before the five minutes are over is answered 200; from then on
    [ValidateUser] accepts the new password and no other, the token is no
    longer in the table, and presenting it once more, at any time, is
    answered 400 "Invalid or expired token" and changes nothing. *)
Theorem password_reset_round_trip
    (db db1 : Database.DB) (resp : Http.Response)
    (now_token now_expiry now : Z) (username password : string) :
  Handlers.RequestPasswordReset Handlers.no_faults db now_token now_expiry (Some username)
  = (resp, db1) ->
  Http.Code resp = Http.StatusOK ->
  (forall u, Database.users db !! username = Some u -> Database.Email u = username) ->
  now < now_expiry + 5 * JwtCodec.minute ->
  exists db2,
    Handlers.SetNewPassword Handlers.no_faults db1 now
      (Some (password, ResetTokens.token_at now_token))
    = ({| Http.Code := Http.StatusOK;
          Http.Payload := Http.MessageBody "Password updated successfully" |}, db2) /\
    User.ValidateUser None db2 username password = None /\
    (forall other, other <> password ->
       User.ValidateUser None db2 username other = Some ErrInvalidCredentials) /\
    ~ Exists (fun r => Database.Token r = ResetTokens.token_at now_token)
        (Database.reset_tokens db2) /\
    (forall later password',
       Handlers.SetNewPassword Handlers.no_faults db2 later
         (Some (password', ResetTokens.token_at now_token))
       = ({| Http.Code := Http.StatusBadRequest;
             Http.Payload := Http.ErrorBody "Invalid or expired token" |}, db2)).
Proof.
  intros H1 Hok Hwf Hlive.
  destruct (ResetFlowFacts.RequestPasswordReset_ok_inv _ _ _ _ _ _ _ H1 Hok)
    as (user & Hfirst & Hfree & ->).
  unfold User.First_user in Hfirst. cbn in Hfirst.
  destruct (Database.users db !! username) as [u|] eqn:Hu; [|discriminate].
  injection Hfirst as ->. pose proof (Hwf _ eq_refl) as Hemail.
  eexists. split; [apply ResetFlowFacts.SetNewPassword_redeems; assumption|].
  assert (Hgone : ~ Exists (fun r => Database.Token r = ResetTokens.token_at now_token)
                      (Reset.delete_token (Database.reset_tokens_seq db + 1)
                         (Database.reset_tokens db ++
                          [{| Database.TokID := Database.reset_tokens_seq db + 1;
                              Database.Token := ResetTokens.token_at now_token;
                              Database.ExpiredAt := now_expiry + 5 * JwtCodec.minute;
                              Database.UserEmail := Database.Email user |}]))).
  { exact (ResetFlowFacts.redeemed_token_gone _
             {| Database.TokID := Database.reset_tokens_seq db + 1;
                Database.Token := ResetTokens.token_at now_token;
                Database.ExpiredAt := now_expiry + 5 * JwtCodec.minute;
                Database.UserEmail := Database.Email user |} Hfree). }
  assert (Huser : forall p,
            User.ValidateUser None
              (Database.set_reset_tokens
                 (Reset.delete_token (Database.reset_tokens_seq db + 1))
                 (Database.reset_tokens_seq db + 1)
                 (Reset.Update_password
                    (Database.set_reset_tokens
                       (fun rows => rows ++
                          [{| Database.TokID := Database.reset_tokens_seq db + 1;
                              Database.Token := ResetTokens.token_at now_token;
                              Database.ExpiredAt := now_expiry + 5 * JwtCodec.minute;
                              Database.UserEmail := Database.Email user |}])
                       (Database.reset_tokens_seq db + 1) db)
                    (Database.Email user) password))
              username p
            = if String.eqb password p then None else Some ErrInvalidCredentials).
  { intros p. unfold User.ValidateUser, User.First_user, Reset.Update_password.
    cbn [Database.users Database.set_users Database.set_reset_tokens].
    rewrite Hemail, Hu, lookup_insert_eq. cbn [Database.Password].
    now destruct (String.eqb password p). }
  split; [|split; [|split]].
  - now rewrite Huser, String.eqb_refl.
  - intros other Hne. rewrite Huser.
    destruct (String.eqb_spec password other); [congruence|reflexivity].
  - exact Hgone.
  - intros later password'. apply ResetFlowFacts.SetNewPassword_unknown_token.
    cbn [Database.reset_tokens Database.set_reset_tokens Reset.Update_password
         Database.set_users].
    apply ResetFlowFacts.no_row_with_token in Hgone.
    eapply Forall_impl; [exact Hgone|]. cbn. intros r Hr. now rewrite Hr.
Qed.

(** X10, for alice: reset asked at second 1000, redeemed at second 1002
    with the password hunter2. *)
Lemma password_reset_round_trip_witness :
  exists db2,
    Handlers.SetNewPassword Handlers.no_faults (snd ResetExamples.after_first_request)
      (1002 * JwtCodec.second)
      (Some ("hunter2"%string, ResetTokens.token_at (1000 * JwtCodec.second)))
    = ({| Http.Code := Http.StatusOK;
          Http.Payload := Http.MessageBody "Password updated successfully" |}, db2) /\
    User.ValidateUser None db2 "alice@example.com" "hunter2" = None /\
    (forall other, other <> "hunter2"%string ->
       User.ValidateUser None db2 "alice@example.com" other = Some ErrInvalidCredentials) /\
    ~ Exists (fun r => Database.Token r = ResetTokens.token_at (1000 * JwtCodec.second))
        (Database.reset_tokens db2) /\
    (forall later password',
       Handlers.SetNewPassword Handlers.no_faults db2 later
         (Some (password', ResetTokens.token_at (1000 * JwtCodec.second)))
       = ({| Http.Code := Http.StatusBadRequest;
             Http.Payload := Http.ErrorBody "Invalid or expired token" |}, db2)).
Proof.
  apply (password_reset_round_trip Examples.db_alice (snd ResetExamples.after_first_request)
           (fst ResetExamples.after_first_request)
           (1000 * JwtCodec.second) (1000 * JwtCodec.second)).
  - vm_compute. reflexivity.
  - vm_compute. reflexivity.
  - intros u Hu. unfold Examples.db_alice in Hu. cbn in Hu.
    rewrite lookup_insert_eq in Hu. now injection Hu as <-.
  - unfold JwtCodec.minute, JwtCodec.second. lia.
Defined.

(** X11. The handlers refuse a token from its expiry on and keep its row:
    presenting the token of a request five minutes or more after it was
    made is answered 400 "Invalid or expired token", and the store,
    password and expired row included, stays as it was. *)
Theorem SetNewPassword_refuses_expired
    (db db1 : Database.DB) (resp : Http.Response)
    (now_token now_expiry now : Z) (username password : string) :
  Handlers.RequestPasswordReset Handlers.no_faults db now_token now_expiry (Some username)
  = (resp, db1) ->
  Http.Code resp = Http.StatusOK ->
  now_expiry + 5 * JwtCodec.minute <= now ->
  Handlers.SetNewPassword Handlers.no_faults db1 now
    (Some (password, ResetTokens.token_at now_token))
  = ({| Http.Code := Http.StatusBadRequest;
        Http.Payload := Http.ErrorBody "Invalid or expired token" |}, db1) /\
  Exists (fun r => Database.Token r = ResetTokens.token_at now_token)
    (Database.reset_tokens db1).
Proof.
  intros H1 Hok Hlate.
  destruct (ResetFlowFacts.RequestPasswordReset_ok_inv _ _ _ _ _ _ _ H1 Hok)
    as (user & _ & Hfree & ->).
  split.
  - apply ResetFlowFacts.SetNewPassword_unknown_token.
    cbn [Database.reset_tokens Database.set_reset_tokens].
    apply Forall_app. split.
    + apply ResetFlowFacts.no_row_with_token in Hfree.
      eapply Forall_impl; [exact Hfree|]. cbn. intros r Hr. now rewrite Hr.
    + apply Forall_singleton. cbn. rewrite String.eqb_refl. cbn. now apply Z.ltb_ge.
  - cbn [Database.reset_tokens Database.set_reset_tokens].
    apply Exists_app. right. now apply Exists_cons_hd.
Qed.

(** X11, for alice's token of second 1000 presented at second 1300. *)
Lemma SetNewPassword_refuses_expired_witness :
  Handlers.SetNewPassword Handlers.no_faults (snd ResetExamples.after_first_request)
    (1300 * JwtCodec.second)
    (Some ("hunter2"%string, ResetTokens.token_at (1000 * JwtCodec.second)))
  = ({| Http.Code := Http.StatusBadRequest;
        Http.Payload := Http.ErrorBody "Invalid or expired token" |},
     snd ResetExamples.after_first_request).
Proof.
  refine (proj1 (SetNewPassword_refuses_expired Examples.db_alice
                   (snd ResetExamples.after_first_request)
                   (fst ResetExamples.after_first_request)
                   (1000 * JwtCodec.second) (1000 * JwtCodec.second)
                   (1300 * JwtCodec.second) "alice@example.com" "hunter2" _ _ _)).
  - vm_compute. reflexivity.
  - vm_compute. reflexivity.
  - unfold JwtCodec.minute, JwtCodec.second. lia.
Defined.

(** ** Password reset through the reset service *)

Module ResetServiceFacts.
Import Database.

(** The rows the dropped [Delete] of [CreateResetToken] leaves. *)
Lemma reset_tokens_Delete_dropped fault f db :
  reset_tokens (Reset.Delete_dropped fault f db)
  = match fault with
    | None => f (reset_tokens db)
    | Some _ => reset_tokens db
    end.
Proof. now destruct fault. Qed.

(** A successful [CreateResetToken] returns the drawn token and has added
    the new row after the rows its [Delete] left, none of which carries
    the token. *)
Lemma CreateResetToken_ok_inv env db now token email tok db' :
  Reset.CreateResetToken env db now token email = ((tok, None), db') ->
  tok = token /\
  is_Some (users db !! email) /\
  exists rows,
    rows = match Reset.delete_err env with
           | None => Reset.delete_tokens_of email (reset_tokens db)
           | Some _ => reset_tokens db
           end /\
    ~ Exists (fun r => Token r = token) rows /\
    db' = set_reset_tokens
            (fun _ => rows ++ [{| TokID := reset_tokens_seq db + 1; Token := token;
                                  ExpiredAt := now + 5 * JwtCodec.minute;
                                  UserEmail := email |}])
            (reset_tokens_seq db + 1) db.
Proof.
  unfold Reset.CreateResetToken, User.First_user.
  destruct (Reset.find_user_err env) as [fe|].
  - destruct (errors_Is fe ErrRecordNotFound); discriminate.
  - destruct (users db !! email) as [u|]; [|cbn; discriminate].
    unfold Reset.Create_token.
    destruct (Reset.create_err env) as [e|]; [discriminate|].
    rewrite reset_tokens_Delete_dropped.
    case_bool_decide as Hdup; [discriminate|].
    intros [= <- <-]. split; [reflexivity|]. split; [eauto|].
    eexists. split; [reflexivity|]. split; [exact Hdup|].
    now destruct (Reset.delete_err env).
Qed.

(** The rows of the other users pass through the delete. *)
Lemma delete_tokens_of_others email (rows : list ResetToken) :
  filter (fun r => UserEmail r ≠ email) (Reset.delete_tokens_of email rows)
  = filter (fun r => UserEmail r ≠ email) rows.
Proof.
  unfold Reset.delete_tokens_of.
  induction rows as [|r rows IH]; [reflexivity|].
  rewrite !filter_cons. case_decide as Hr.
  - rewrite filter_cons. case_decide; [|contradiction]. now rewrite IH.
  - exact IH.
Qed.

Lemma find_token_last (rows : list ResetToken) (new : ResetToken) (token : string) :
  Token new = token ->
  ~ Exists (fun r => Token r = token) rows ->
  List.find (fun r => String.eqb (Token r) token) (rows ++ [new]) = Some new.
Proof.
  intros <- H. apply ResetFlowFacts.find_last.
  - now apply ResetFlowFacts.no_row_with_token.
  - apply String.eqb_refl.
Qed.

Lemma find_token_none (rows : list ResetToken) (token : string) :
  ~ Exists (fun r => Token r = token) rows ->
  List.find (fun r => String.eqb (Token r) token) rows = None.
Proof.
  intros H. apply ResetFlowFacts.find_none. now apply ResetFlowFacts.no_row_with_token.
Qed.

End ResetServiceFacts.

(** X12. After a successful [CreateResetToken] whose [Delete] the engine
    served, the user has exactly one row in the table, the one just made,
    which expires five minutes after the call.  The service drops the
    result of the [Delete]: when it failed the call succeeds all the same
    and the earlier rows of the user stay in front of the new one.  The
    rows of all other users and the users are as they were. *)
Theorem CreateResetToken_one_row_per_user
    (env : Reset.Faults) (db db' : Database.DB) (now : Z) (token email tok : string) :
  Reset.CreateResetToken env db now token email = ((tok, None), db') ->
  tok = token /\
  filter (fun r => Database.UserEmail r = email) (Database.reset_tokens db')
  = match Reset.delete_err env with
    | None => []
    | Some _ => filter (fun r => Database.UserEmail r = email) (Database.reset_tokens db)
    end ++
    [{| Database.TokID := Database.reset_tokens_seq db + 1; Database.Token := token;
        Database.ExpiredAt := now + 5 * JwtCodec.minute; Database.UserEmail := email |}] /\
  filter (fun r => Database.UserEmail r ≠ email) (Database.reset_tokens db')
  = filter (fun r => Database.UserEmail r ≠ email) (Database.reset_tokens db) /\
  Database.users db' = Database.users db.
Proof.
  intros H.
  destruct (ResetServiceFacts.CreateResetToken_ok_inv _ _ _ _ _ _ _ H)
    as (-> & _ & rows & Hrows & _ & ->).
  split; [reflexivity|]. cbn [Database.reset_tokens Database.set_reset_tokens Database.users].
  rewrite !filter_app, !filter_cons, !filter_nil. cbn [Database.UserEmail].
  split; [|split; [|reflexivity]].
  - case_decide; [|contradiction]. f_equal. subst rows.
    destruct (Reset.delete_err env); [reflexivity|].
    apply ResetFacts.filter_delete_tokens_of.
  - case_decide; [contradiction|]. rewrite app_nil_r. subst rows.
    destruct (Reset.delete_err env); [reflexivity|].
    apply ResetServiceFacts.delete_tokens_of_others.
Qed.

(** X12, for alice's second token through the service. *)
Lemma CreateResetToken_one_row_per_user_witness :
  "BBBBBBBBBBBBBBB"%string = "BBBBBBBBBBBBBBB"%string /\
  filter (fun r => Database.UserEmail r = "alice@example.com"%string)
    (Database.reset_tokens (snd ResetExamples.service_after_second))
  = [] ++
    [{| Database.TokID := Database.reset_tokens_seq (snd ResetExamples.service_after_first) + 1;
        Database.Token := "BBBBBBBBBBBBBBB";
        Database.ExpiredAt := 1001 * JwtCodec.second + 5 * JwtCodec.minute;
        Database.UserEmail := "alice@example.com" |}] /\
  filter (fun r => Database.UserEmail r ≠ "alice@example.com"%string)
    (Database.reset_tokens (snd ResetExamples.service_after_second))
  = filter (fun r => Database.UserEmail r ≠ "alice@example.com"%string)
      (Database.reset_tokens (snd ResetExamples.service_after_first)) /\
  Database.users (snd ResetExamples.service_after_second)
  = Database.users (snd ResetExamples.service_after_first).
Proof.
  apply (CreateResetToken_one_row_per_user Reset.no_faults
           (snd ResetExamples.service_after_first) (snd ResetExamples.service_after_second)
           (1001 * JwtCodec.second) "BBBBBBBBBBBBBBB" "alice@example.com" "BBBBBBBBBBBBBBB").
  vm_compute. reflexivity.
Defined.

(** With an engine that fails the [Delete], alice's second token leaves
    her with two rows. *)
Example CreateResetToken_delete_failed :
  map Database.Token
    (Database.reset_tokens
       (snd (Reset.CreateResetToken ResetServiceExamples.delete_fails
               (snd ResetExamples.service_after_first) (1001 * JwtCodec.second)
               "BBBBBBBBBBBBBBB" "alice@example.com")))
  = ["AAAAAAAAAAAAAAA"; "BBBBBBBBBBBBBBB"]%string.
Proof. vm_compute. reflexivity. Qed.

(** X13. [CreateResetToken] deletes before it creates and runs in no
    transaction: when the user exists and the creation then fails (the
    engine refuses it, or another row already carries the drawn token),
    the call returns the error and the table is left as the [Delete] left
    it.  When the engine served the [Delete], the user has no token at
    all; the rows of the other users are as they were in either case. *)
Theorem CreateResetToken_failure_drops_prior
    (env : Reset.Faults) (db db' : Database.DB) (now : Z) (token email tok : string)
    (e : error) :
  Reset.find_user_err env = None ->
  is_Some (Database.users db !! email) ->
  Reset.CreateResetToken env db now token email = ((tok, Some e), db') ->
  tok = EmptyString /\
  Database.reset_tokens db'
  = match Reset.delete_err env with
    | None => Reset.delete_tokens_of email (Database.reset_tokens db)
    | Some _ => Database.reset_tokens db
    end /\
  (Reset.delete_err env = None ->
   filter (fun r => Database.UserEmail r = email) (Database.reset_tokens db') = []) /\
  filter (fun r => Database.UserEmail r ≠ email) (Database.reset_tokens db')
  = filter (fun r => Database.UserEmail r ≠ email) (Database.reset_tokens db).
Proof.
  intros Hfind [u Hu]. unfold Reset.CreateResetToken, User.First_user.
  rewrite Hfind, Hu. unfold Reset.Create_token.
  assert (Hrows : forall db1,
            Database.reset_tokens db1
            = match Reset.delete_err env with
              | None => Reset.delete_tokens_of email (Database.reset_tokens db)
              | Some _ => Database.reset_tokens db
              end ->
            (Reset.delete_err env = None ->
             filter (fun r => Database.UserEmail r = email) (Database.reset_tokens db1) = []) /\
            filter (fun r => Database.UserEmail r ≠ email) (Database.reset_tokens db1)
            = filter (fun r => Database.UserEmail r ≠ email) (Database.reset_tokens db)).
  { intros db1 ->. split.
    - intros ->. apply ResetFacts.filter_delete_tokens_of.
    - destruct (Reset.delete_err env); [reflexivity|].
      apply ResetServiceFacts.delete_tokens_of_others. }
  pose proof (ResetServiceFacts.reset_tokens_Delete_dropped (Reset.delete_err env)
                (Reset.delete_tokens_of email) db) as Hd.
  destruct (Reset.create_err env) as [ce|].
  - intros [= <- _ <-]. split; [reflexivity|]. split; [exact Hd|]. now apply Hrows.
  - case_bool_decide; [|discriminate].
    intros [= <- _ <-]. split; [reflexivity|]. split; [exact Hd|]. now apply Hrows.
Qed.

(** X13, for alice holding a token when the engine refuses the insert of
    the next one. *)
Lemma CreateResetToken_failure_drops_prior_witness :
  filter (fun r => Database.UserEmail r = "alice@example.com"%string)
    (Database.reset_tokens
       (snd (Reset.CreateResetToken ResetServiceExamples.insert_fails
               (snd ResetExamples.service_after_first) (1001 * JwtCodec.second)
               "BBBBBBBBBBBBBBB" "alice@example.com")))
  = [].
Proof.
  refine (proj1 (proj2 (proj2
            (CreateResetToken_failure_drops_prior ResetServiceExamples.insert_fails
               (snd ResetExamples.service_after_first) _ (1001 * JwtCodec.second)
               "BBBBBBBBBBBBBBB" "alice@example.com" EmptyString
               (ErrDriver "connection reset") _ _ _))) _).
  - reflexivity.
  - vm_compute. eauto.
  - vm_compute. reflexivity.
  - reflexivity.
Defined.

(** X14. The reset service, end to end.  A token made by
    [CreateResetToken] and presented to [ResetPassword] no later than its
    expiry instant (five minutes after it was made, that instant included)
    sets the password: the call returns nil, [ValidateUser] then accepts
    the new password and no other, the token is gone from the table, and a
    second [ResetPassword] with it returns [ErrResetTokenNotFound] and
    changes nothing. *)
Theorem ResetPassword_round_trip
    (env : Reset.Faults) (db db1 : Database.DB) (now later : Z)
    (token email tok newPassword : string) :
  Reset.CreateResetToken env db now token email = ((tok, None), db1) ->
  later <= now + 5 * JwtCodec.minute ->
  exists db2,
    Reset.ResetPassword Reset.no_faults db1 later tok newPassword = (None, db2) /\
    User.ValidateUser None db2 email newPassword = None /\
    (forall other, other <> newPassword ->
       User.ValidateUser None db2 email other = Some ErrInvalidCredentials) /\
    ~ Exists (fun r => Database.Token r = tok) (Database.reset_tokens db2) /\
    (forall again password',
       Reset.ResetPassword Reset.no_faults db2 again tok password'
       = (Some ErrResetTokenNotFound, db2)).
Proof.
  intros H Hlive.
  destruct (ResetServiceFacts.CreateResetToken_ok_inv _ _ _ _ _ _ _ H)
    as (-> & [u Hu] & rows & _ & Hfree & ->).
  set (new := {| Database.TokID := Database.reset_tokens_seq db + 1;
                 Database.Token := token;
                 Database.ExpiredAt := now + 5 * JwtCodec.minute;
                 Database.UserEmail := email |}).
  assert (Hgone : ~ Exists (fun r => Database.Token r = token)
                      (Reset.delete_token (Database.reset_tokens_seq db + 1)
                         (rows ++ [new]))).
  { exact (ResetFlowFacts.redeemed_token_gone _ new Hfree). }
  eexists. split.
  { unfold Reset.ResetPassword, Reset.ValidateResetToken.
    cbn [Reset.find_token_err Reset.update_err Reset.delete_err Reset.no_faults
         Reset.Delete_dropped Database.reset_tokens Database.set_reset_tokens].
    rewrite (ResetServiceFacts.find_token_last _ new token eq_refl Hfree).
    cbn [Database.ExpiredAt new].
    assert (Hnot : (now + 5 * JwtCodec.minute <? later) = false) by now apply Z.ltb_ge.
    rewrite Hnot. reflexivity. }
  assert (Huser : forall p,
            User.ValidateUser None
              (Database.set_reset_tokens (Reset.delete_token (Database.TokID new))
                 (Database.reset_tokens_seq
                    (Reset.Update_password
                       (Database.set_reset_tokens (fun _ => rows ++ [new])
                          (Database.reset_tokens_seq db + 1) db)
                       (Database.UserEmail new) newPassword))
                 (Reset.Update_password
                    (Database.set_reset_tokens (fun _ => rows ++ [new])
                       (Database.reset_tokens_seq db + 1) db)
                    (Database.UserEmail new) newPassword))
              email p
            = if String.eqb newPassword p then None else Some ErrInvalidCredentials).
  { intros p. unfold User.ValidateUser, User.First_user, Reset.Update_password.
    cbn [Database.users Database.set_users Database.set_reset_tokens Database.UserEmail new].
    rewrite Hu, lookup_insert_eq. cbn [Database.Password].
    now destruct (String.eqb newPassword p). }
  split; [|split; [|split]].
  - now rewrite Huser, String.eqb_refl.
  - intros other Hne. rewrite Huser.
    destruct (String.eqb_spec newPassword other); [congruence|reflexivity].
  - exact Hgone.
  - intros again password'. unfold Reset.ResetPassword, Reset.ValidateResetToken.
    cbn [Reset.find_token_err Reset.no_faults].
    cbn [Database.reset_tokens Database.set_reset_tokens Reset.Update_password
         Database.set_users Database.TokID new].
    now rewrite (ResetServiceFacts.find_token_none _ _ Hgone).
Qed.

(** X14, for alice's first service token, redeemed at its expiry
    instant. *)
Lemma ResetPassword_round_trip_witness :
  exists db2,
    Reset.ResetPassword Reset.no_faults (snd ResetExamples.service_after_first)
      (1300 * JwtCodec.second) "AAAAAAAAAAAAAAA" "hunter2" = (None, db2) /\
    User.ValidateUser None db2 "alice@example.com" "hunter2" = None /\
    (forall other, other <> "hunter2"%string ->
       User.ValidateUser None db2 "alice@example.com" other = Some ErrInvalidCredentials) /\
    ~ Exists (fun r => Database.Token r = "AAAAAAAAAAAAAAA"%string)
        (Database.reset_tokens db2) /\
    (forall again password',
       Reset.ResetPassword Reset.no_faults db2 again "AAAAAAAAAAAAAAA" password'
       = (Some ErrResetTokenNotFound, db2)).
Proof.
  apply (ResetPassword_round_trip Reset.no_faults Examples.db_alice
           (snd ResetExamples.service_after_first) (1000 * JwtCodec.second)
           (1300 * JwtCodec.second) "AAAAAAAAAAAAAAA" "alice@example.com").
  - vm_compute. reflexivity.
  - vm_compute. discriminate.
Defined.

(** X15. Presented after its expiry instant, a token of the service is
    refused with [ErrResetTokenExpired] and its row is deleted on the
    spot, the users being left as they were; a further attempt with it
    returns [ErrResetTokenNotFound]. *)
Theorem ResetPassword_expired_token_deleted
    (env : Reset.Faults) (db db1 : Database.DB) (now later : Z)
    (token email tok newPassword : string) :
  Reset.CreateResetToken env db now token email = ((tok, None), db1) ->
  now + 5 * JwtCodec.minute < later ->
  exists db2,
    Reset.ResetPassword Reset.no_faults db1 later tok newPassword
    = (Some ErrResetTokenExpired, db2) /\
    Database.users db2 = Database.users db /\
    ~ Exists (fun r => Database.Token r = tok) (Database.reset_tokens db2) /\
    (forall again password',
       Reset.ResetPassword Reset.no_faults db2 again tok password'
       = (Some ErrResetTokenNotFound, db2)).
Proof.
  intros H Hlate.
  destruct (ResetServiceFacts.CreateResetToken_ok_inv _ _ _ _ _ _ _ H)
    as (-> & _ & rows & _ & Hfree & ->).
  set (new := {| Database.TokID := Database.reset_tokens_seq db + 1;
                 Database.Token := token;
                 Database.ExpiredAt := now + 5 * JwtCodec.minute;
                 Database.UserEmail := email |}).
  assert (Hgone : ~ Exists (fun r => Database.Token r = token)
                      (Reset.delete_token (Database.reset_tokens_seq db + 1)
                         (rows ++ [new]))).
  { exact (ResetFlowFacts.redeemed_token_gone _ new Hfree). }
  eexists. split.
  { unfold Reset.ResetPassword, Reset.ValidateResetToken.
    cbn [Reset.find_token_err Reset.delete_err Reset.no_faults Reset.Delete_dropped
         Database.reset_tokens Database.set_reset_tokens].
    rewrite (ResetServiceFacts.find_token_last _ new token eq_refl Hfree).
    cbn [Database.ExpiredAt new].
    assert (Hexp : (now + 5 * JwtCodec.minute <? later) = true) by now apply Z.ltb_lt.
    rewrite Hexp. reflexivity. }
  split; [reflexivity|]. split; [exact Hgone|].
  intros again password'. unfold Reset.ResetPassword, Reset.ValidateResetToken.
  cbn [Reset.find_token_err Reset.no_faults].
  cbn [Database.reset_tokens Database.set_reset_tokens Database.TokID new].
  now rewrite (ResetServiceFacts.find_token_none _ _ Hgone).
Qed.

(** X15, for alice's first service token presented one second late. *)
Lemma ResetPassword_expired_token_deleted_witness :
  exists db2,
    Reset.ResetPassword Reset.no_faults (snd ResetExamples.service_after_first)
      (1301 * JwtCodec.second) "AAAAAAAAAAAAAAA" "hunter2"
    = (Some ErrResetTokenExpired, db2) /\
    Database.users db2 = Database.users Examples.db_alice /\
    ~ Exists (fun r => Database.Token r = "AAAAAAAAAAAAAAA"%string)
        (Database.reset_tokens db2) /\
    (forall again password',
       Reset.ResetPassword Reset.no_faults db2 again "AAAAAAAAAAAAAAA" password'
       = (Some ErrResetTokenNotFound, db2)).
Proof.
  apply (ResetPassword_expired_token_deleted Reset.no_faults Examples.db_alice
           (snd ResetExamples.service_after_first) (1000 * JwtCodec.second)
           (1301 * JwtCodec.second) "AAAAAAAAAAAAAAA" "alice@example.com").
  - vm_compute. reflexivity.
  - vm_compute. reflexivity.
Defined.

Module CleanupFacts.
Import Database.

Lemma find_filter {A} (f : A -> bool) (P : A -> Prop) `{!forall x, Decision (P x)}
    (l : list A) (r : A) :
  List.find f l = Some r -> P r -> List.find f (filter P l) = Some r.
Proof.
  induction l as [|x l IH]; [discriminate|]. cbn [List.find].
  destruct (f x) eqn:Hx.
  - intros [= ->] Hr. rewrite filter_cons. case_decide; [|contradiction].
    cbn [List.find]. now rewrite Hx.
  - intros Hf Hr. rewrite filter_cons. case_decide; [|now apply IH].
    cbn [List.find]. rewrite Hx. now apply IH.
Qed.

Lemma filter_filter_same {A} (P : A -> Prop) `{!forall x, Decision (P x)} (l : list A) :
  filter P (filter P l) = filter P l.
Proof.
  induction l as [|x l IH]; [reflexivity|].
  rewrite filter_cons. case_decide; [|exact IH].
  rewrite filter_cons. case_decide; [|contradiction]. now rewrite IH.
Qed.

End CleanupFacts.

(** X16. [CleanupExpiredTokens] removes exactly the rows whose expiry lies
    before the instant of the call and touches nothing else; every token
    [ValidateResetToken] accepts at that instant is accepted after the
    cleanup as well, and cleaning twice is cleaning once. *)
Theorem CleanupExpiredTokens_keeps_redeemable (db : Database.DB) (now : Z) :
  let db' := snd (ResetService.CleanupExpiredTokens None db now) in
  fst (ResetService.CleanupExpiredTokens None db now) = None /\
  (forall r, r ∈ Database.reset_tokens db' <->
             r ∈ Database.reset_tokens db /\ now <= Database.ExpiredAt r) /\
  Database.users db' = Database.users db /\
  (forall token r,
     Reset.ValidateResetToken Reset.no_faults db now token = ((Some r, None), db) ->
     Reset.ValidateResetToken Reset.no_faults db' now token = ((Some r, None), db')) /\
  snd (ResetService.CleanupExpiredTokens None db' now) = db'.
Proof.
  cbn. split; [reflexivity|]. split; [|split; [reflexivity|split]].
  - intros r. rewrite list_elem_of_filter. split; intros [H1 H2]; split; auto; lia.
  - intros token r. unfold Reset.ValidateResetToken.
    cbn [Reset.find_token_err Reset.no_faults Database.reset_tokens Database.set_reset_tokens].
    destruct (List.find _ (Database.reset_tokens db)) as [r0|] eqn:Hf; [|discriminate].
    destruct (Database.ExpiredAt r0 <? now) eqn:E; [discriminate|].
    intros [= ->]. apply Z.ltb_ge in E.
    rewrite (CleanupFacts.find_filter _ _ _ _ Hf) by lia.
    apply Z.ltb_ge in E. now rewrite E.
  - unfold Database.set_reset_tokens. cbn. f_equal.
    apply CleanupFacts.filter_filter_same.
Qed.

(** X16, for the token alice got from the service at second 1000, with
    the cleanup run at second 1300. *)
Lemma CleanupExpiredTokens_keeps_redeemable_witness :
  exists r,
    Reset.ValidateResetToken Reset.no_faults
      (snd (ResetService.CleanupExpiredTokens None
              (snd ResetExamples.service_after_first) (1300 * JwtCodec.second)))
      (1300 * JwtCodec.second) "AAAAAAAAAAAAAAA"
    = ((Some r, None),
       snd (ResetService.CleanupExpiredTokens None
              (snd ResetExamples.service_after_first) (1300 * JwtCodec.second))).
Proof.
  eexists.
  refine (proj1 (proj2 (proj2 (proj2
            (CleanupExpiredTokens_keeps_redeemable
               (snd ResetExamples.service_after_first) (1300 * JwtCodec.second)))))
            "AAAAAAAAAAAAAAA" _ _).
  vm_compute. reflexivity.
Defined.

(** ** Registration and login *)

Module AuthFacts.
Import Database.

(** A [CreateUser] that returns nil on an email of at least 3 bytes has
    stored the user with the password given. *)
Lemma CreateUser_ok_inv env db email password db' :
  User.CreateUser env db email password = (None, db') ->
  (3 <= String.length email)%nat ->
  users db' !! email
  = Some {| Email := email; Password := password;
            Prefix := String.substring 0 3 email;
            ActiveOrganizationID := organizations_seq db + 1 |}.
Proof.
  intros H Hlen. rewrite CreateUserFacts.CreateUser_eq in H.
  destruct (String.eqb email ""); [discriminate|].
  destruct (String.eqb password ""); [discriminate|].
  destruct (User.begin_err env) as [be|] eqn:Hb; [discriminate|].
  unfold User.CreateUser_body in H.
  destruct (User.create_org_err env) as [oe|]; [discriminate|].
  cbn [User.Create_organization] in H.
  rewrite (CreateUserFacts.slice_to_in_bounds _ _ Hlen) in H.
  unfold User.Create_user in H.
  destruct (User.create_user_err env) as [ue|].
  - destruct (errors_Is ue ErrDuplicatedKey); discriminate.
  - cbn in H. destruct (users db !! email) as [u|].
    + destruct (errors_Is (User.duplicate_err env) ErrDuplicatedKey); discriminate.
    + unfold User.Append_user in H.
      destruct (User.append_err env), (User.commit_err env); cbn in H;
        try discriminate; injection H as <-; cbn; apply lookup_insert_eq.
Qed.

(** [CreateUser] on a stored email leaves the store as it was. *)
Lemma CreateUser_existing env db email password u :
  users db !! email = Some u ->
  snd (User.CreateUser env db email password) = db.
Proof.
  intros Hu. rewrite CreateUserFacts.CreateUser_eq.
  destruct (String.eqb email ""); [reflexivity|].
  destruct (String.eqb password ""); [reflexivity|].
  destruct (User.begin_err env) as [be|]; [reflexivity|].
  unfold User.CreateUser_body.
  destruct (User.create_org_err env) as [oe|]; [reflexivity|].
  cbn [User.Create_organization].
  destruct (Go.slice_to email 3) as [prefix|msg]; [|reflexivity].
  unfold User.Create_user.
  destruct (User.create_user_err env) as [ue|]; [reflexivity|].
  cbn. now rewrite Hu.
Qed.

(** [CreateUser] on a stored email, the store calls served: the error of
    the duplicate, translated when it is [ErrDuplicatedKey]. *)
Lemma CreateUser_duplicate env db email password u :
  users db !! email = Some u ->
  email <> EmptyString -> password <> EmptyString -> (3 <= String.length email)%nat ->
  User.begin_err env = None -> User.create_org_err env = None ->
  User.create_user_err env = None ->
  fst (User.CreateUser env db email password)
  = if errors_Is (User.duplicate_err env) ErrDuplicatedKey
    then Some ErrUserAlreadyExists else Some (User.duplicate_err env).
Proof.
  intros Hu He Hp Hlen Hb Ho Hc.
  rewrite (CreateUserFacts.CreateUser_guards _ _ _ _ He Hp Hb).
  rewrite (CreateUserFacts.CreateUser_body_org_written _ _ _ _ Ho Hlen).
  cbn zeta. unfold User.Create_user. rewrite Hc. cbn. rewrite Hu. reflexivity.
Qed.

End AuthFacts.

(** X17. [Login] tells nothing apart between an unknown email and a wrong
    password: on the same store both requests get the same response, 401
    with the body "Invalid credentials" and no token. *)
Theorem Login_same_response
    (h : Handlers.Handlers) (now_access now_refresh : Z)
    (nobody real wrong anything : string) (user : Database.User) :
  Database.users (Handlers.db h) !! nobody = None ->
  Database.users (Handlers.db h) !! real = Some user ->
  Database.Password user <> wrong ->
  AuthHandlers.Login h None now_access now_refresh (Some (nobody, anything))
  = {| Http.Code := Http.StatusUnauthorized;
       Http.Payload := Http.ErrorBody "Invalid credentials" |} /\
  AuthHandlers.Login h None now_access now_refresh (Some (real, wrong))
  = {| Http.Code := Http.StatusUnauthorized;
       Http.Payload := Http.ErrorBody "Invalid credentials" |}.
Proof.
  intros Hmiss Hreal Hwrong. unfold AuthHandlers.Login.
  rewrite (UserFacts.ValidateUser_missing _ _ _ Hmiss).
  rewrite (UserFacts.ValidateUser_found _ _ _ _ Hreal).
  apply String.eqb_neq in Hwrong. rewrite Hwrong. split; reflexivity.
Qed.

(** X17, on the store that holds alice only. *)
Lemma Login_same_response_witness :
  AuthHandlers.Login RefreshExamples.handlers None 0 0
    (Some ("nobody@x.com"%string, "anything"%string))
  = {| Http.Code := Http.StatusUnauthorized;
       Http.Payload := Http.ErrorBody "Invalid credentials" |} /\
  AuthHandlers.Login RefreshExamples.handlers None 0 0
    (Some ("alice@example.com"%string, "wrongpassword"%string))
  = {| Http.Code := Http.StatusUnauthorized;
       Http.Payload := Http.ErrorBody "Invalid credentials" |}.
Proof.
  apply (Login_same_response RefreshExamples.handlers 0 0 "nobody@x.com" "alice@example.com"
           "wrongpassword" "anything" Examples.alice).
  - vm_compute. reflexivity.
  - vm_compute. reflexivity.
  - discriminate.
Defined.

(** X18. Registration followed by login.  When [RegisterUser] answers 201
    for an email of at least 3 bytes, [Login] on the resulting store with
    the same email and password answers 200 with the pair made for that
    email, and with any other password answers 401 "Invalid
    credentials". *)
Theorem register_then_login
    (env : User.Faults) (db db' : Database.DB) (cfg : JwtCodec.JWTConfig)
    (resp : Http.Response) (email password : string) (now_access now_refresh : Z) :
  AuthHandlers.RegisterUser env db (Some (email, password)) = (resp, db') ->
  Http.Code resp = AuthHandlers.StatusCreated ->
  (3 <= String.length email)%nat ->
  AuthHandlers.Login {| Handlers.jwtService := cfg; Handlers.db := db' |} None
    now_access now_refresh (Some (email, password))
  = {| Http.Code := Http.StatusOK;
       Http.Payload := Http.TokenPairBody
         {| JwtCodec.Token := fst (Jwt.GenerateAccessToken cfg now_access email);
            JwtCodec.RefreshToken := fst (Jwt.GenerateRefreshToken cfg now_refresh email) |} |}
  /\
  (forall other, other <> password ->
     AuthHandlers.Login {| Handlers.jwtService := cfg; Handlers.db := db' |} None
       now_access now_refresh (Some (email, other))
     = {| Http.Code := Http.StatusUnauthorized;
          Http.Payload := Http.ErrorBody "Invalid credentials" |}).
Proof.
  intros H Hok Hlen. unfold AuthHandlers.RegisterUser in H.
  destruct (User.CreateUser env db email password) as [[err|] db1] eqn:HC.
  - destruct (errors_Is err ErrUserAlreadyExists); injection H as <- _; discriminate Hok.
  - injection H as _ <-.
    pose proof (AuthFacts.CreateUser_ok_inv _ _ _ _ _ HC Hlen) as Hu.
    unfold AuthHandlers.Login. cbn [Handlers.db Handlers.jwtService]. split.
    + rewrite (UserFacts.ValidateUser_found _ _ _ _ Hu). cbn [Database.Password].
      now rewrite String.eqb_refl.
    + intros other Hne. rewrite (UserFacts.ValidateUser_found _ _ _ _ Hu).
      cbn [Database.Password].
      destruct (String.eqb_spec password other); [congruence|reflexivity].
Qed.

(** X18, for alice registering on an empty store and logging in. *)
Lemma register_then_login_witness :
  AuthHandlers.Login
    {| Handlers.jwtService := Examples.cfg;
       Handlers.db := snd (AuthHandlers.RegisterUser User.no_faults Database.empty
                             (Some ("alice@example.com"%string, "password123"%string))) |}
    None 0 0 (Some ("alice@example.com"%string, "password123"%string))
  = {| Http.Code := Http.StatusOK;
       Http.Payload := Http.TokenPairBody
         {| JwtCodec.Token := fst (Jwt.GenerateAccessToken Examples.cfg 0 "alice@example.com");
            JwtCodec.RefreshToken :=
              fst (Jwt.GenerateRefreshToken Examples.cfg 0 "alice@example.com") |} |}.
Proof.
  refine (proj1 (register_then_login User.no_faults Database.empty _ Examples.cfg
                   (fst (AuthHandlers.RegisterUser User.no_faults Database.empty
                           (Some ("alice@example.com"%string, "password123"%string))))
                   "alice@example.com" "password123" 0 0 _ _ _)).
  - vm_compute. reflexivity.
  - vm_compute. reflexivity.
  - simpl. lia.
Defined.

(** X19. Registering an email that is already stored changes nothing in
    the store, whatever the engine does: the stored user keeps its
    password, and the organization written for the attempt is rolled back
    with it.  With the store calls served, the answer is 409 "User already
    exists" when the engine reports the duplicate as
    [gorm.ErrDuplicatedKey] and 500 "Failed to create user" when it
    reports it as an error of the driver. *)
Theorem RegisterUser_existing_email
    (env : User.Faults) (db : Database.DB) (email password : string) (u : Database.User) :
  Database.users db !! email = Some u ->
  snd (AuthHandlers.RegisterUser env db (Some (email, password))) = db /\
  (password <> EmptyString -> (3 <= String.length email)%nat ->
   User.begin_err env = None -> User.create_org_err env = None ->
   User.create_user_err env = None ->
   (User.duplicate_err env = ErrDuplicatedKey ->
    fst (AuthHandlers.RegisterUser env db (Some (email, password)))
    = {| Http.Code := AuthHandlers.StatusConflict;
         Http.Payload := Http.ErrorBody "User already exists" |}) /\
   (forall msg, User.duplicate_err env = ErrDriver msg ->
    fst (AuthHandlers.RegisterUser env db (Some (email, password)))
    = {| Http.Code := Http.StatusInternalServerError;
         Http.Payload := Http.ErrorBody "Failed to create user" |})).
Proof.
  intros Hu. split.
  - unfold AuthHandlers.RegisterUser.
    pose proof (AuthFacts.CreateUser_existing env db email password u Hu) as Hs.
    destruct (User.CreateUser env db email password) as [[err|] db1]; cbn in Hs; subst db1.
    + now destruct (errors_Is err ErrUserAlreadyExists).
    + reflexivity.
  - intros Hp Hlen Hb Ho Hc.
    assert (He : email <> EmptyString) by (destruct email; [simpl in Hlen; lia|discriminate]).
    pose proof (AuthFacts.CreateUser_duplicate env db email password u Hu He Hp Hlen Hb Ho Hc)
      as Hd.
    unfold AuthHandlers.RegisterUser.
    destruct (User.CreateUser env db email password) as [r db1]. cbn [fst] in Hd. subst r.
    split.
    + intros ->. reflexivity.
    + intros msg ->. reflexivity.
Qed.

(** X19, for alice registering again with another password, on an engine
    that reports the duplicate as an error of its own. *)
Lemma RegisterUser_existing_email_witness :
  snd (AuthHandlers.RegisterUser AuthExamples.untranslated Examples.db_alice
         (Some ("alice@example.com"%string, "another-password"%string)))
  = Examples.db_alice /\
  fst (AuthHandlers.RegisterUser AuthExamples.untranslated Examples.db_alice
         (Some ("alice@example.com"%string, "another-password"%string)))
  = {| Http.Code := Http.StatusInternalServerError;
       Http.Payload := Http.ErrorBody "Failed to create user" |}.
Proof.
  pose proof (RegisterUser_existing_email AuthExamples.untranslated Examples.db_alice
                "alice@example.com" "another-password" Examples.alice) as H.
  destruct H as [Hs Hr]; [vm_compute; reflexivity|].
  split; [exact Hs|].
  refine (proj2 (Hr _ _ _ _ _) "duplicate key value violates unique constraint"%string _).
  - discriminate.
  - simpl. lia.
  - reflexivity.
  - reflexivity.
  - reflexivity.
  - reflexivity.
Defined.

(** ** Refreshing again *)

Module RefreshChainFacts.
Import Database JwtCodec Http.

(** A 200 of the tagged build carries the pair made at the time of the
    call for the email of the presented token. *)
Lemma RefreshToken_ok_payload h fault clock body :
  Code (Handlers.RefreshToken h fault clock body) = StatusOK ->
  exists email,
    is_Some (users (Handlers.db h) !! email) /\
    Utf8.json_string email = email /\
    Payload (Handlers.RefreshToken h fault clock body)
    = TokenPairBody
        {| Token := fst (Jwt.GenerateAccessToken (Handlers.jwtService h)
                           (at_access clock) email);
           RefreshToken := fst (Jwt.GenerateRefreshToken (Handlers.jwtService h)
                                  (at_refresh clock) email) |}.
Proof.
  intros Hok.
  destruct (HandlersFacts.RefreshToken_ok_inv _ _ _ _ Hok) as (tok & email & -> & HV).
  exists email. rewrite (HandlersFacts.RefreshToken_validated _ _ _ _ _ HV) in *.
  destruct (User.GetUser fault (Handlers.db h) email) as [u [e|]] eqn:HG.
  - destruct (errors_Is e ErrUserNotFound); discriminate Hok.
  - split; [exact (UserFacts.GetUser_ok _ _ _ _ HG)|].
    split; [exact (ValidatorFacts.ValidateRefreshToken_email _ _ _ _ HV)|reflexivity].
Qed.

(** The same for the plain build: one token. *)
Lemma RefreshToken_plain_ok_payload h fault clock body :
  Code (HandlersPlain.RefreshToken h fault clock body) = StatusOK ->
  exists email,
    is_Some (users (HandlersPlain.db h) !! email) /\
    Utf8.json_string email = email /\
    Payload (HandlersPlain.RefreshToken h fault clock body)
    = TokenBody (fst (JwtPlain.GenerateToken (HandlersPlain.jwtService h) (at_access clock)
                        email (AccessTokenDuration (HandlersPlain.jwtService h)))).
Proof.
  intros Hok.
  destruct (HandlersFacts.RefreshToken_plain_ok_inv _ _ _ _ Hok) as (tok & email & -> & HV).
  exists email. rewrite (HandlersFacts.RefreshToken_plain_validated _ _ _ _ _ HV) in *.
  destruct (User.GetUser fault (HandlersPlain.db h) email) as [u [e|]] eqn:HG.
  - destruct (errors_Is e ErrUserNotFound); discriminate Hok.
  - split; [exact (UserFacts.GetUser_ok _ _ _ _ HG)|].
    split; [exact (ValidatorFacts.plain_ValidateToken_email _ _ _ _ HV)|reflexivity].
Qed.

Lemma GetUser_stored db email u :
  users db !! email = Some u -> User.GetUser None db email = (Some u, None).
Proof. intros H. unfold User.GetUser, User.First_user. now rewrite H. Qed.

(** The plain validator on a token of the plain generator. *)
Lemma plain_validate_generated s now email d t :
  t < Unix (now + d) * second ->
  JwtPlain.ValidateToken s t (fst (JwtPlain.GenerateToken s now email d))
  = (Utf8.json_string email, None).
Proof.
  intros Ht. unfold JwtPlain.ValidateToken. rewrite HandlersFacts.GenerateToken_plain_token.
  rewrite JwtFacts.Parse_Signed.
  - rewrite RoundTripFacts.claims_of_json, RoundTripFacts.claims_of_email. cbn.
    now rewrite Utf8Facts.json_string_idempotent.
  - rewrite RoundTripFacts.Validate_claims_of.
    now rewrite (RoundTripFacts.before_expiry _ _ Ht).
Qed.

(** A token the refresh validator refuses is answered 401. *)
Lemma RefreshToken_refused h fault clock m claims sig e err :
  Jwt.ValidateRefreshToken (Handlers.jwtService h) (at_validate clock) (Compact m claims sig)
  = (e, Some err) ->
  Handlers.RefreshToken h fault clock (RefreshJSON (Compact m claims sig))
  = {| Code := StatusUnauthorized; Payload := ErrorBody "Invalid refresh token" |}.
Proof.
  intros HV. unfold Handlers.RefreshToken. rewrite HandlersFacts.bind_refresh_compact.
  now rewrite HV.
Qed.

End RefreshChainFacts.

(** X20. In the build with kind-tagged tokens rotation can go on: the
    refresh token a successful [RefreshToken] call returns is accepted by a
    later call, read before its expiry, which answers 200 again; the access
    token of the same answer is refused as a refresh token, 401 "Invalid
    refresh token". *)
Theorem RefreshToken_chain
    (h : Handlers.Handlers) (clock later : Http.Clock) (body : Http.RefreshBody)
    (access refresh : JwtCodec.TokenString) :
  Http.Code (Handlers.RefreshToken h None clock body) = Http.StatusOK ->
  Http.token_of (Http.Payload (Handlers.RefreshToken h None clock body)) = Some access ->
  Http.refresh_token_of (Http.Payload (Handlers.RefreshToken h None clock body))
  = Some refresh ->
  Http.at_validate later
  < JwtCodec.Unix (Http.at_refresh clock + JwtCodec.RefreshTokenDuration (Handlers.jwtService h))
    * JwtCodec.second ->
  Http.Code (Handlers.RefreshToken h None later (Http.RefreshJSON refresh)) = Http.StatusOK /\
  Handlers.RefreshToken h None later (Http.RefreshJSON access)
  = {| Http.Code := Http.StatusUnauthorized;
       Http.Payload := Http.ErrorBody "Invalid refresh token" |}.
Proof.
  intros Hok Ha Hr Hlive.
  destruct (RefreshChainFacts.RefreshToken_ok_payload _ _ _ _ Hok)
    as (email & [u Hu] & Hemail & HP).
  rewrite HP in Ha, Hr. cbn [Http.token_of Http.refresh_token_of JwtCodec.Token
                              JwtCodec.RefreshToken] in Ha, Hr.
  apply (inj Some) in Ha. apply (inj Some) in Hr. subst access refresh.
  split.
  - assert (HV : Jwt.ValidateRefreshToken (Handlers.jwtService h) (Http.at_validate later)
                   (fst (Jwt.GenerateRefreshToken (Handlers.jwtService h)
                           (Http.at_refresh clock) email)) = (email, None)).
    { etransitivity;
        [exact (RoundTripFacts.validate_generated (Handlers.jwtService h)
                  (Http.at_validate later) email (Some "refresh"%string) _ "refresh"
                  eq_refl)|].
      now rewrite (RoundTripFacts.before_expiry _ _ Hlive), Hemail. }
    rewrite (HandlersFacts.RefreshToken_validated _ _ _ _ _ HV).
    now rewrite (RefreshChainFacts.GetUser_stored _ _ _ Hu).
  - assert (HV : exists err,
               Jwt.ValidateRefreshToken (Handlers.jwtService h) (Http.at_validate later)
                 (fst (Jwt.GenerateAccessToken (Handlers.jwtService h)
                         (Http.at_access clock) email))
               = (EmptyString, Some err)).
    { pose proof (RoundTripFacts.validate_generated (Handlers.jwtService h)
                    (Http.at_validate later) email (Some "access"%string)
                    (JwtCodec.Unix (Http.at_access clock
                                    + JwtCodec.AccessTokenDuration (Handlers.jwtService h)))
                    "refresh" eq_refl) as Hc.
      destruct (_ || _) in Hc; eexists; exact Hc. }
    destruct HV as [err HV]. rewrite HandlersFacts.GenerateAccessToken_token in HV |- *.
    exact (RefreshChainFacts.RefreshToken_refused _ _ _ _ _ _ _ _ HV).
Qed.

(** X20, for alice: the pair of a refresh at second 60 used again at
    second 120. *)
Lemma RefreshToken_chain_witness :
  Http.Code (Handlers.RefreshToken RefreshExamples.handlers None RefreshExamples.later
               (Http.RefreshJSON
                  (fst (Jwt.GenerateRefreshToken Examples.cfg
                          (Http.at_refresh Examples.clock) "alice@example.com"))))
  = Http.StatusOK /\
  Handlers.RefreshToken RefreshExamples.handlers None RefreshExamples.later
    (Http.RefreshJSON
       (fst (Jwt.GenerateAccessToken Examples.cfg
               (Http.at_access Examples.clock) "alice@example.com")))
  = {| Http.Code := Http.StatusUnauthorized;
       Http.Payload := Http.ErrorBody "Invalid refresh token" |}.
Proof.
  apply (RefreshToken_chain RefreshExamples.handlers Examples.clock RefreshExamples.later
           (Http.RefreshJSON RefreshExamples.alice_refresh)).
  - vm_compute. reflexivity.
  - vm_compute. reflexivity.
  - vm_compute. reflexivity.
  - vm_compute. reflexivity.
Defined.

(** X21. In the plain build an access token renews itself: [RefreshToken]
    accepts the token it has just returned, read before its expiry, and
    answers 200 with a further token, so that no refresh token is needed to
    keep a session going. *)
Theorem RefreshToken_plain_chain
    (h : HandlersPlain.Handlers) (clock later : Http.Clock) (body : Http.RefreshBody)
    (token : JwtCodec.TokenString) :
  Http.Code (HandlersPlain.RefreshToken h None clock body) = Http.StatusOK ->
  Http.token_of (Http.Payload (HandlersPlain.RefreshToken h None clock body)) = Some token ->
  Http.at_validate later
  < JwtCodec.Unix (Http.at_access clock
                   + JwtCodec.AccessTokenDuration (HandlersPlain.jwtService h))
    * JwtCodec.second ->
  Http.Code (HandlersPlain.RefreshToken h None later (Http.RefreshJSON token)) = Http.StatusOK.
Proof.
  intros Hok Ht Hlive.
  destruct (RefreshChainFacts.RefreshToken_plain_ok_payload _ _ _ _ Hok)
    as (email & [u Hu] & Hemail & HP).
  rewrite HP in Ht. cbn [Http.token_of] in Ht. apply (inj Some) in Ht. subst token.
  pose proof (RefreshChainFacts.plain_validate_generated (HandlersPlain.jwtService h)
                (Http.at_access clock) email _ _ Hlive) as HV.
  rewrite Hemail in HV.
  rewrite (HandlersFacts.RefreshToken_plain_validated _ _ _ _ _ HV).
  now rewrite (RefreshChainFacts.GetUser_stored _ _ _ Hu).
Qed.

(** X21, for alice in the plain build. *)
Lemma RefreshToken_plain_chain_witness :
  Http.Code (HandlersPlain.RefreshToken RefreshExamples.handlers_plain None
               RefreshExamples.later
               (Http.RefreshJSON
                  (fst (JwtPlain.GenerateToken Examples.cfg (Http.at_access Examples.clock)
                          "alice@example.com" (JwtCodec.AccessTokenDuration Examples.cfg)))))
  = Http.StatusOK.
Proof.
  apply (RefreshToken_plain_chain RefreshExamples.handlers_plain Examples.clock
           RefreshExamples.later (Http.RefreshJSON RefreshExamples.alice_refresh_plain)).
  - vm_compute. reflexivity.
  - vm_compute. reflexivity.
  - vm_compute. reflexivity.
Defined.

(** ** The bearer-token middleware *)

Module MiddlewareFacts.
Import Middleware.

Lemma substring_all (s : string) : String.substring 0 (String.length s) s = s.
Proof. induction s as [|c s IH]; [reflexivity|]. cbn. now rewrite IH. Qed.

(** A string with the prefix is the prefix followed by what [TrimPrefix]
    leaves. *)
Lemma HasPrefix_split (prefix : string) : forall s,
  HasPrefix s prefix = true ->
  s = String.append prefix (TrimPrefix s prefix).
Proof.
  unfold TrimPrefix. intros s H. rewrite H. revert s H. unfold HasPrefix.
  induction prefix as [|a prefix IH]; intros s H.
  - cbn [String.length]. rewrite Nat.sub_0_r.
    symmetry. destruct s; [reflexivity|]. apply (substring_all (String _ _)).
  - destruct s as [|b s]; [discriminate|]. cbn [String.prefix] in H.
    destruct (Ascii.ascii_dec a b) as [->|]; [|discriminate].
    rewrite FmtFacts.append_String. f_equal.
    cbn [String.length String.substring]. rewrite Nat.sub_succ.
    now apply IH.
Qed.

Lemma HasPrefix_append (prefix text : string) :
  HasPrefix (String.append prefix text) prefix = true /\
  TrimPrefix (String.append prefix text) prefix = text.
Proof.
  unfold TrimPrefix, HasPrefix.
  assert (H : String.prefix prefix (String.append prefix text) = true).
  { induction prefix as [|a prefix IH]; [now destruct text|].
    rewrite FmtFacts.append_String. cbn [String.prefix].
    destruct (Ascii.ascii_dec a a); [exact IH|contradiction]. }
  rewrite H. split; [reflexivity|].
  induction prefix as [|a prefix IH].
  - cbn [String.length]. rewrite Nat.sub_0_r.
    change (String.append "" text) with text. apply substring_all.
  - rewrite FmtFacts.append_String. cbn [String.length String.substring].
    rewrite Nat.sub_succ. apply IH.
    clear IH. cbn [String.prefix] in H. rewrite FmtFacts.append_String in H.
    cbn [String.prefix] in H. now destruct (Ascii.ascii_dec a a).
Qed.

End MiddlewareFacts.

(** X22. [AuthMiddleware] hands a request on exactly when its
    Authorization header is "Bearer " followed by a text whose token
    [ValidateToken] accepts, and the email it sets is the one
    [ValidateToken] returned; every other request is answered 401 and
    aborted.  In particular a refresh token of the service is never
    accepted as a bearer token. *)
Theorem AuthMiddleware_passes_valid_bearer_only
    (token_of_text : string -> JwtCodec.TokenString)
    (jwtService : JwtCodec.JWTConfig) (now : Z) (authHeader : string) :
  (forall email,
     Middleware.AuthMiddleware token_of_text jwtService now authHeader = Middleware.Next email
     <-> exists text,
           authHeader = String.append "Bearer " text /\
           Jwt.ValidateToken jwtService now (token_of_text text) = (email, None)) /\
  (forall resp,
     Middleware.AuthMiddleware token_of_text jwtService now authHeader = Middleware.Abort resp ->
     Http.Code resp = Http.StatusUnauthorized) /\
  (forall text issued email,
     authHeader = String.append "Bearer " text ->
     token_of_text text = fst (Jwt.GenerateRefreshToken jwtService issued email) ->
     exists resp,
       Middleware.AuthMiddleware token_of_text jwtService now authHeader
       = Middleware.Abort resp).
Proof.
  assert (Hbearer : forall text,
            authHeader = String.append "Bearer " text ->
            Middleware.AuthMiddleware token_of_text jwtService now authHeader
            = match Jwt.ValidateToken jwtService now (token_of_text text) with
              | (_, Some _) =>
                  Middleware.Abort {| Http.Code := Http.StatusUnauthorized;
                                      Http.Payload := Http.ErrorBody "Invalid token" |}
              | (email, None) => Middleware.Next email
              end).
  { intros text ->. unfold Middleware.AuthMiddleware.
    destruct (MiddlewareFacts.HasPrefix_append "Bearer " text) as [Hp Ht].
    rewrite Hp, Ht. reflexivity. }
  split; [|split].
  - intros email. split.
    + unfold Middleware.AuthMiddleware.
      destruct (String.eqb authHeader ""); [discriminate|].
      destruct (Middleware.HasPrefix authHeader "Bearer ") eqn:Hp; [|discriminate].
      cbn [negb].
      destruct (Jwt.ValidateToken jwtService now _) as [e [err|]] eqn:HV; [discriminate|].
      intros [= ->]. eexists. split; [|exact HV].
      now apply MiddlewareFacts.HasPrefix_split.
    + intros (text & Hh & HV). now rewrite (Hbearer text Hh), HV.
  - intros resp. unfold Middleware.AuthMiddleware.
    destruct (String.eqb authHeader ""); [now intros [= <-]|].
    destruct (negb (Middleware.HasPrefix authHeader "Bearer ")); [now intros [= <-]|].
    destruct (Jwt.ValidateToken jwtService now _) as [e [err|]]; [now intros [= <-]|].
    discriminate.
  - intros text issued email Hh Htok. rewrite (Hbearer text Hh), Htok.
    assert (HV : exists err,
               Jwt.ValidateToken jwtService now
                 (fst (Jwt.GenerateRefreshToken jwtService issued email))
               = (EmptyString, Some err)).
    { pose proof (RoundTripFacts.validate_generated jwtService now email
                    (Some "refresh"%string)
                    (JwtCodec.Unix (issued + JwtCodec.RefreshTokenDuration jwtService))
                    "access" eq_refl) as Hc.
      destruct (_ || _) in Hc; eexists; exact Hc. }
    destruct HV as [err ->]. eauto.
Qed.

(** X22, for alice's access token in the header, one minute after it was
    issued. *)
Lemma AuthMiddleware_passes_valid_bearer_only_witness :
  Middleware.AuthMiddleware MiddlewareExamples.token_of_text Examples.cfg
    (60 * JwtCodec.second) (String.append "Bearer " "alice-access")
  = Middleware.Next "alice@example.com".
Proof.
  apply (proj1 (AuthMiddleware_passes_valid_bearer_only MiddlewareExamples.token_of_text
                  Examples.cfg (60 * JwtCodec.second)
                  (String.append "Bearer " "alice-access"))).
  exists "alice-access"%string. split; [reflexivity|]. vm_compute. reflexivity.
Defined.

(** ** Items and their identifiers *)

Module ItemServiceFacts.
Import Database ItemService ItemNumbers.

Lemma getNextID_next db prefix :
  (forall n, backpack_id_next_numbers db !! prefix = Some n ->
             GoInt.min_int <= n < GoInt.max_int) ->
  Item.getNextID Item.no_faults db prefix
  = ((Fmt.Sprintf_04d (next_number (backpack_id_next_numbers db !! prefix)), None),
     set_next_numbers
       (fun m => <[prefix := next_number (backpack_id_next_numbers db !! prefix)]> m) db).
Proof.
  intros Hr. destruct (backpack_id_next_numbers db !! prefix) as [n|] eqn:Hc.
  - rewrite (ItemFacts.getNextID_present _ _ _ Hc).
    rewrite GoIntFacts.incr_below_max by now apply Hr. reflexivity.
  - now rewrite (ItemFacts.getNextID_absent _ _ Hc).
Qed.

(** [CreateItem] for a user who has a prefix, the look-up and the
    allocator served: the allocation is made and committed, then the row
    is inserted. *)
Lemma CreateItem_prefixed env draw st now name description userEmail parentID user :
  find_user_err env = None -> allocator env = Item.no_faults ->
  users (base st) !! userEmail = Some user -> Prefix user <> EmptyString ->
  (forall n, backpack_id_next_numbers (base st) !! Prefix user = Some n ->
             GoInt.min_int <= n < GoInt.max_int) ->
  CreateItem env draw st now name description userEmail parentID
  = let k := next_number (backpack_id_next_numbers (base st) !! Prefix user) in
    let st2 := with_base st (set_next_numbers (fun m => <[Prefix user := k]> m) (base st)) in
    match Create_item (create_item_err env) st2
            {| ItemID := 0; Name := name;
               BackpackID := String.append (Prefix user) (Fmt.Sprintf_04d k);
               Description := description; AddedAt := now;
               ItemUserEmail := userEmail; ParentID := parentID |} with
    | (st3, inr err) => ((None, Some err), st3)
    | (st3, inl row) => ((Some row, None), st3)
    end.
Proof.
  intros Hf Ha Hu Hp Hr. unfold CreateItem, User.First_user. rewrite Hf, Hu, Ha.
  apply String.eqb_neq in Hp. rewrite Hp.
  now rewrite (getNextID_next _ _ Hr).
Qed.

Lemma letter_at_uppercase d :
  (d < 26)%nat ->
  ResetService.letter_at uppercase d = ascii_of_nat (65 + d).
Proof.
  intros H. do 26 (destruct d as [|d]; [reflexivity|]). lia.
Qed.

Lemma generatePrefix_length draw : String.length (generatePrefix draw) = 3%nat.
Proof. reflexivity. Qed.

Lemma generatePrefix_not_empty draw : generatePrefix draw <> EmptyString.
Proof. discriminate. Qed.

End ItemServiceFacts.

(** X23. [CreateItem] for a user who has a prefix gives the item the
    identifier made of that prefix and the next number of the prefix's
    counter, zero-padded to 4 digits: 0001 when the prefix has no counter
    yet, [n + 1] when it stands at [n].  The item is stored under a fresh
    id as the last row, owned by the caller, and the counter then holds
    the number used. *)
Theorem CreateItem_identifier
    (draw : nat -> nat) (st : ItemService.Store) (now : Z)
    (name description userEmail : string) (parentID : option Z) (user : Database.User) :
  Database.users (ItemService.base st) !! userEmail = Some user ->
  Database.Prefix user <> EmptyString ->
  (forall n, Database.backpack_id_next_numbers (ItemService.base st) !! Database.Prefix user
             = Some n -> GoInt.min_int <= n < GoInt.max_int) ->
  let k := ItemNumbers.next_number
             (Database.backpack_id_next_numbers (ItemService.base st)
                !! Database.Prefix user) in
  let row := {| ItemService.ItemID := ItemService.items_seq st + 1;
                ItemService.Name := name;
                ItemService.BackpackID :=
                  String.append (Database.Prefix user) (Fmt.Sprintf_04d k);
                ItemService.Description := description;
                ItemService.AddedAt := now;
                ItemService.ItemUserEmail := userEmail;
                ItemService.ParentID := parentID |} in
  exists st',
    ItemService.CreateItem ItemService.no_faults draw st now name description userEmail
      parentID = ((Some row, None), st') /\
    ItemService.items st' = ItemService.items st ++ [row] /\
    Database.backpack_id_next_numbers (ItemService.base st') !! Database.Prefix user
    = Some k /\
    Database.users (ItemService.base st') = Database.users (ItemService.base st).
Proof.
  intros Hu Hp Hr k row.
  rewrite (ItemServiceFacts.CreateItem_prefixed ItemService.no_faults draw st now name
             description userEmail parentID user eq_refl eq_refl Hu Hp Hr).
  cbn. eexists. split; [reflexivity|]. cbn. split; [reflexivity|].
  split; [apply lookup_insert_eq|reflexivity].
Qed.

(** X23, for alice (prefix "ali", no counter yet) creating a tent. *)
Lemma CreateItem_identifier_witness :
  exists st',
    ItemService.CreateItem ItemService.no_faults ItemServiceExamples.draw
      ItemServiceExamples.store_alice 5 "tent" "" "alice@example.com" None
    = ((Some {| ItemService.ItemID := 0 + 1; ItemService.Name := "tent";
                ItemService.BackpackID := String.append "ali" (Fmt.Sprintf_04d 1);
                ItemService.Description := ""; ItemService.AddedAt := 5;
                ItemService.ItemUserEmail := "alice@example.com";
                ItemService.ParentID := None |}, None), st') /\
    ItemService.items st'
    = [] ++ [{| ItemService.ItemID := 0 + 1; ItemService.Name := "tent";
                ItemService.BackpackID := String.append "ali" (Fmt.Sprintf_04d 1);
                ItemService.Description := ""; ItemService.AddedAt := 5;
                ItemService.ItemUserEmail := "alice@example.com";
                ItemService.ParentID := None |}] /\
    Database.backpack_id_next_numbers (ItemService.base st') !! "ali"%string = Some 1 /\
    Database.users (ItemService.base st') = Database.users Examples.db_alice.
Proof.
  apply (CreateItem_identifier ItemServiceExamples.draw ItemServiceExamples.store_alice 5
           "tent" "" "alice@example.com" None Examples.alice).
  - vm_compute. reflexivity.
  - discriminate.
  - intros n Hn. vm_compute in Hn. discriminate.
Defined.

Module ItemFlowFacts.
Import Database ItemService.

(** A successful [CreateItem] has added the returned row, with the next
    id and the caller as owner, after the rows that were there. *)
Lemma CreateItem_ok_inv env draw st now name description userEmail parentID row st' :
  CreateItem env draw st now name description userEmail parentID = ((Some row, None), st') ->
  ItemID row = items_seq st + 1 /\
  ItemUserEmail row = userEmail /\
  items st' = items st ++ [row].
Proof.
  unfold CreateItem.
  destruct (User.First_user _ (base st) userEmail) as [user|err]; [|discriminate].
  assert (Htail : forall user1 db1,
    match Item.getNextID (allocator env) db1 (Prefix user1) with
    | ((_, Some err), db2) => ((None, Some err), with_base st db2)
    | ((nextID, None), db2) =>
        match Create_item (create_item_err env) (with_base st db2)
                {| ItemID := 0; Name := name;
                   BackpackID := String.append (Prefix user1) nextID;
                   Description := description; AddedAt := now;
                   ItemUserEmail := userEmail; ParentID := parentID |} with
        | (st3, inr err) => ((None, Some err), st3)
        | (st3, inl r) => ((Some r, None), st3)
        end
    end = ((Some row, None), st') ->
    ItemID row = items_seq st + 1 /\ ItemUserEmail row = userEmail /\
    items st' = items st ++ [row]).
  { intros user1 db1.
    destruct (Item.getNextID (allocator env) db1 (Prefix user1)) as [[nextID [e|]] db2];
      [discriminate|].
    unfold Create_item. destruct (create_item_err env); [discriminate|].
    intros [= <- <-]. cbn. auto. }
  destruct (String.eqb (Prefix user) "").
  - unfold Save_user. destruct (save_user_err env); [discriminate|]. apply Htail.
  - apply Htail.
Qed.

Lemma find_item_last (rows : list Item) (row : Item) (email : string) :
  Forall (fun i => ItemID i <> ItemID row) rows ->
  List.find (fun i => (ItemID i =? ItemID row) && String.eqb (ItemUserEmail i) email)
    (rows ++ [row])
  = if String.eqb (ItemUserEmail row) email then Some row else None.
Proof.
  induction 1 as [|x rows Hx _ IH]; cbn.
  - rewrite Z.eqb_refl. cbn. now destruct (String.eqb _ _).
  - apply Z.eqb_neq in Hx. rewrite Hx. cbn. exact IH.
Qed.

(** The call after the first allocation for a prefix: the counter stands
    at 1, the item gets 0002. *)
Lemma CreateItem_second_call draw P user db1 now name description userEmail parentID
    rows seq :
  users db1 !! userEmail = Some user -> Prefix user = P -> P <> EmptyString ->
  exists second st2,
    CreateItem no_faults draw
      {| base := set_next_numbers (fun m => <[P := 1]> m) db1;
         items := rows; items_seq := seq |}
      now name description userEmail parentID = ((Some second, None), st2) /\
    BackpackID second = String.append P "0002".
Proof.
  intros Hu HP Hne. subst P.
  rewrite (ItemServiceFacts.CreateItem_prefixed no_faults draw _ now name description
             userEmail parentID user eq_refl eq_refl).
  - cbn [base]. cbn [set_next_numbers backpack_id_next_numbers].
    rewrite lookup_insert_eq. cbn. do 2 eexists. split; reflexivity.
  - exact Hu.
  - exact Hne.
  - cbn. rewrite lookup_insert_eq. intros n [= <-].
    unfold GoInt.min_int, GoInt.max_int. lia.
Qed.

End ItemFlowFacts.

(** X24. The first two items of a user who has no prefix yet.  The first
    [CreateItem] draws a prefix of 3 bytes, writes it on the user and
    gives the item that prefix followed by 0001 (the prefix having no
    counter yet); the second call draws nothing, finds the prefix on the
    user and gives its item the same prefix followed by 0002. *)
Theorem CreateItem_first_two_items
    (draw draw' : nat -> nat) (st : ItemService.Store) (now now' : Z)
    (name name' description description' userEmail : string)
    (parentID parentID' : option Z) (user : Database.User) :
  Database.users (ItemService.base st) !! userEmail = Some user ->
  Database.Email user = userEmail ->
  Database.Prefix user = EmptyString ->
  Database.backpack_id_next_numbers (ItemService.base st)
    !! ItemService.generatePrefix draw = None ->
  exists first st1 second st2,
    ItemService.CreateItem ItemService.no_faults draw st now name description userEmail
      parentID = ((Some first, None), st1) /\
    ItemService.BackpackID first
    = String.append (ItemService.generatePrefix draw) "0001" /\
    Database.Prefix <$> (Database.users (ItemService.base st1) !! userEmail)
    = Some (ItemService.generatePrefix draw) /\
    String.length (ItemService.generatePrefix draw) = 3%nat /\
    ItemService.CreateItem ItemService.no_faults draw' st1 now' name' description' userEmail
      parentID' = ((Some second, None), st2) /\
    ItemService.BackpackID second
    = String.append (ItemService.generatePrefix draw) "0002".
Proof.
  intros Hu Hemail Hprefix Hfree.
  set (P := ItemService.generatePrefix draw) in *.
  set (user' := {| Database.Email := Database.Email user;
                   Database.Password := Database.Password user;
                   Database.Prefix := P;
                   Database.ActiveOrganizationID := Database.ActiveOrganizationID user |}).
  set (db1 := Database.set_users (fun m => <[Database.Email user' := user']> m)
                (ItemService.base st)).
  assert (H1 : ItemService.CreateItem ItemService.no_faults draw st now name description
                 userEmail parentID
               = ((Some {| ItemService.ItemID := ItemService.items_seq st + 1;
                           ItemService.Name := name;
                           ItemService.BackpackID := String.append P "0001";
                           ItemService.Description := description;
                           ItemService.AddedAt := now;
                           ItemService.ItemUserEmail := userEmail;
                           ItemService.ParentID := parentID |}, None),
                  {| ItemService.base :=
                       Database.set_next_numbers (fun m => <[P := 1]> m) db1;
                     ItemService.items := ItemService.items st ++
                       [{| ItemService.ItemID := ItemService.items_seq st + 1;
                           ItemService.Name := name;
                           ItemService.BackpackID := String.append P "0001";
                           ItemService.Description := description;
                           ItemService.AddedAt := now;
                           ItemService.ItemUserEmail := userEmail;
                           ItemService.ParentID := parentID |}];
                     ItemService.items_seq := ItemService.items_seq st + 1 |})).
  { unfold ItemService.CreateItem, User.First_user.
    cbn [ItemService.find_user_err ItemService.no_faults]. rewrite Hu, Hprefix.
    cbn [String.eqb ItemService.Save_user ItemService.save_user_err ItemService.no_faults
         ItemService.allocator Database.Prefix].
    fold P. fold user'. fold db1.
    rewrite (ItemFacts.getNextID_absent db1 P) by exact Hfree.
    reflexivity. }
  do 2 eexists.
  destruct (ItemFlowFacts.CreateItem_second_call draw' P user' db1 now' name' description' userEmail
              parentID' (ItemService.items st ++
                 [{| ItemService.ItemID := ItemService.items_seq st + 1;
                     ItemService.Name := name;
                     ItemService.BackpackID := String.append P "0001";
                     ItemService.Description := description;
                     ItemService.AddedAt := now;
                     ItemService.ItemUserEmail := userEmail;
                     ItemService.ParentID := parentID |}])
              (ItemService.items_seq st + 1)) as (second & st2 & H2 & Hid).
  - subst db1. cbn. subst user'. cbn. rewrite Hemail. apply lookup_insert_eq.
  - reflexivity.
  - discriminate.
  - exists second, st2. split; [exact H1|]. split; [reflexivity|].
    split; [|split; [reflexivity|split; [exact H2|exact Hid]]].
    cbn. subst db1. cbn. subst user'. cbn. rewrite Hemail, lookup_insert_eq. reflexivity.
Qed.

(** X24, for bob, who has no prefix, with the draws Q, B, X. *)
Lemma CreateItem_first_two_items_witness :
  exists first st1 second st2,
    ItemService.CreateItem ItemService.no_faults ItemServiceExamples.draw
      ItemServiceExamples.store_bob 5 "tent" "" "bob@example.com" None
    = ((Some first, None), st1) /\
    ItemService.BackpackID first
    = String.append (ItemService.generatePrefix ItemServiceExamples.draw) "0001" /\
    Database.Prefix <$> (Database.users (ItemService.base st1) !! "bob@example.com"%string)
    = Some (ItemService.generatePrefix ItemServiceExamples.draw) /\
    String.length (ItemService.generatePrefix ItemServiceExamples.draw) = 3%nat /\
    ItemService.CreateItem ItemService.no_faults ItemServiceExamples.draw st1 6 "stove" ""
      "bob@example.com" None = ((Some second, None), st2) /\
    ItemService.BackpackID second
    = String.append (ItemService.generatePrefix ItemServiceExamples.draw) "0002".
Proof.
  apply (CreateItem_first_two_items ItemServiceExamples.draw ItemServiceExamples.draw
           ItemServiceExamples.store_bob 5 6 "tent" "stove" "" "" "bob@example.com"
           None None ItemServiceExamples.bob).
  - vm_compute. reflexivity.
  - reflexivity.
  - reflexivity.
  - vm_compute. reflexivity.
Defined.

(** X25. The allocation is committed before the item is inserted: when
    the insert fails, [CreateItem] returns the error and stores no item,
    yet the counter of the prefix has advanced, so that the next item of
    that prefix skips a number. *)
Theorem CreateItem_failed_insert_consumes_number
    (env : ItemService.Faults) (draw : nat -> nat) (st : ItemService.Store) (now : Z)
    (name description userEmail : string) (parentID : option Z) (user : Database.User)
    (e : error) :
  ItemService.find_user_err env = None ->
  ItemService.allocator env = Item.no_faults ->
  ItemService.create_item_err env = Some e ->
  Database.users (ItemService.base st) !! userEmail = Some user ->
  Database.Prefix user <> EmptyString ->
  (forall n, Database.backpack_id_next_numbers (ItemService.base st) !! Database.Prefix user
             = Some n -> GoInt.min_int <= n < GoInt.max_int - 1) ->
  let k := ItemNumbers.next_number
             (Database.backpack_id_next_numbers (ItemService.base st)
                !! Database.Prefix user) in
  exists st',
    ItemService.CreateItem env draw st now name description userEmail parentID
    = ((None, Some e), st') /\
    ItemService.items st' = ItemService.items st /\
    Database.backpack_id_next_numbers (ItemService.base st') !! Database.Prefix user
    = Some k /\
    exists next st'',
      ItemService.CreateItem ItemService.no_faults draw st' now name description userEmail
        parentID = ((Some next, None), st'') /\
      ItemService.BackpackID next
      = String.append (Database.Prefix user) (Fmt.Sprintf_04d (k + 1)).
Proof.
  intros Hf Ha Hc Hu Hp Hr k.
  rewrite (ItemServiceFacts.CreateItem_prefixed env draw st now name description userEmail
             parentID user Hf Ha Hu Hp).
  2:{ intros n Hn. specialize (Hr n Hn). lia. }
  unfold ItemService.Create_item. rewrite Hc. cbn zeta.
  eexists. split; [reflexivity|]. cbn [ItemService.items ItemService.with_base].
  split; [reflexivity|]. fold k.
  assert (Hk : Database.backpack_id_next_numbers
                 (ItemService.base
                    (ItemService.with_base st
                       (Database.set_next_numbers (fun m => <[Database.Prefix user := k]> m)
                          (ItemService.base st))))
               !! Database.Prefix user = Some k).
  { cbn. apply lookup_insert_eq. }
  split; [exact Hk|].
  rewrite (ItemServiceFacts.CreateItem_prefixed ItemService.no_faults draw _ now name
             description userEmail parentID user eq_refl eq_refl).
  - rewrite Hk. cbn. do 2 eexists. split; reflexivity.
  - exact Hu.
  - exact Hp.
  - rewrite Hk. intros n [= <-]. subst k.
    destruct (Database.backpack_id_next_numbers (ItemService.base st)
                !! Database.Prefix user) as [m|]; cbn.
    + specialize (Hr m eq_refl). lia.
    + unfold GoInt.min_int, GoInt.max_int. lia.
Qed.

(** X25, for alice: the insert of her first item fails, her next item is
    ali0002. *)
Lemma CreateItem_failed_insert_consumes_number_witness :
  exists st',
    ItemService.CreateItem ItemServiceExamples.item_insert_fails ItemServiceExamples.draw
      ItemServiceExamples.store_alice 5 "tent" "" "alice@example.com" None
    = ((None, Some (ErrDriver "connection reset")), st') /\
    ItemService.items st' = ItemService.items ItemServiceExamples.store_alice /\
    Database.backpack_id_next_numbers (ItemService.base st') !! "ali"%string = Some 1 /\
    exists next st'',
      ItemService.CreateItem ItemService.no_faults ItemServiceExamples.draw st' 5 "tent" ""
        "alice@example.com" None = ((Some next, None), st'') /\
      ItemService.BackpackID next = String.append "ali" (Fmt.Sprintf_04d (1 + 1)).
Proof.
  apply (CreateItem_failed_insert_consumes_number ItemServiceExamples.item_insert_fails
           ItemServiceExamples.draw ItemServiceExamples.store_alice 5 "tent" ""
           "alice@example.com" None Examples.alice (ErrDriver "connection reset")).
  - reflexivity.
  - reflexivity.
  - reflexivity.
  - vm_compute. reflexivity.
  - discriminate.
  - intros n Hn. vm_compute in Hn. discriminate.
Defined.

(** X26. A generated prefix is always 3 bytes long, and it consists of
    capital letters A to Z whenever the three draws are results of
    [rand.Intn(26)], that is, below 26. *)
Theorem generatePrefix_three_capitals (draw : nat -> nat) :
  String.length (ItemService.generatePrefix draw) = 3%nat /\
  ((forall i, (draw i < 26)%nat) ->
   Forall (fun c => (65 <= nat_of_ascii c <= 90)%nat)
     (list_ascii_of_string (ItemService.generatePrefix draw))).
Proof.
  split; [reflexivity|]. intros Hd.
  unfold ItemService.generatePrefix. rewrite list_ascii_of_string_of_list_ascii.
  apply Forall_forall. intros c Hc.
  apply list_elem_of_fmap in Hc as (i & -> & _).
  rewrite (ItemServiceFacts.letter_at_uppercase _ (Hd i)).
  rewrite nat_ascii_embedding; specialize (Hd i); lia.
Qed.

(** X26, for the draws 16, 1, 23. *)
Lemma generatePrefix_three_capitals_witness :
  Forall (fun c => (65 <= nat_of_ascii c <= 90)%nat)
    (list_ascii_of_string (ItemService.generatePrefix ItemServiceExamples.draw)).
Proof.
  apply (proj2 (generatePrefix_three_capitals ItemServiceExamples.draw)).
  intros i. unfold ItemServiceExamples.draw. destruct i as [|[|i]]; lia.
Defined.

(** X27. An item just created is found again by its owner and by nobody
    else: on a store whose item ids do not exceed the sequence, [GetItem]
    with the id of the new item returns that item for the creating user
    and [ErrItemNotFound] for every other user. *)
Theorem CreateItem_then_GetItem
    (env : ItemService.Faults) (draw : nat -> nat) (st st' : ItemService.Store) (now : Z)
    (name description userEmail : string) (parentID : option Z) (row : ItemService.Item) :
  ItemService.CreateItem env draw st now name description userEmail parentID
  = ((Some row, None), st') ->
  Forall (fun i => ItemService.ItemID i <= ItemService.items_seq st) (ItemService.items st) ->
  ItemService.GetItem None st' (ItemService.ItemID row) userEmail = (Some row, None) /\
  (forall other, other <> userEmail ->
     ItemService.GetItem None st' (ItemService.ItemID row) other
     = (None, Some ItemService.ErrItemNotFound)).
Proof.
  intros H Hwf.
  destruct (ItemFlowFacts.CreateItem_ok_inv _ _ _ _ _ _ _ _ _ _ H) as (Hid & Hown & Hrows).
  assert (Hfresh : Forall (fun i => ItemService.ItemID i <> ItemService.ItemID row)
                     (ItemService.items st)).
  { eapply Forall_impl; [exact Hwf|]. cbn. intros i Hi. lia. }
  unfold ItemService.GetItem. rewrite Hrows.
  split.
  - rewrite (ItemFlowFacts.find_item_last _ _ _ Hfresh), Hown.
    now rewrite String.eqb_refl.
  - intros other Hne. rewrite (ItemFlowFacts.find_item_last _ _ _ Hfresh), Hown.
    destruct (String.eqb_spec userEmail other); [congruence|reflexivity].
Qed.

(** X27, for alice's tent, looked for by alice. *)
Lemma CreateItem_then_GetItem_witness :
  ItemService.GetItem None
    (snd (ItemService.CreateItem ItemService.no_faults ItemServiceExamples.draw
            ItemServiceExamples.store_alice 5 "tent" "" "alice@example.com" None))
    (ItemService.ItemID
       {| ItemService.ItemID := 1; ItemService.Name := "tent";
          ItemService.BackpackID := "ali0001"; ItemService.Description := "";
          ItemService.AddedAt := 5; ItemService.ItemUserEmail := "alice@example.com";
          ItemService.ParentID := None |})
    "alice@example.com"
  = (Some {| ItemService.ItemID := 1; ItemService.Name := "tent";
             ItemService.BackpackID := "ali0001"; ItemService.Description := "";
             ItemService.AddedAt := 5; ItemService.ItemUserEmail := "alice@example.com";
             ItemService.ParentID := None |}, None).
Proof.
  refine (proj1 (CreateItem_then_GetItem ItemService.no_faults ItemServiceExamples.draw
                   ItemServiceExamples.store_alice _ 5 "tent" "" "alice@example.com" None
                   _ _ _)).
  - vm_compute. reflexivity.
  - constructor.
Defined.

(** X28. The item handler does not go through the allocator: it builds
    the identifier from the prefix and the second of the request.  Two
    requests of a user within one second are both answered 201 and their
    two items, stored under different ids, carry the same identifier; the
    counters of the allocator are not touched. *)
Theorem CreateItem_handler_same_second
    (st : ItemService.Store) (now now_added now' now_added' : Z)
    (userEmail name description name' description' : string) (user : Database.User) :
  Database.users (ItemService.base st) !! userEmail = Some user ->
  JwtCodec.Unix now' = JwtCodec.Unix now ->
  exists first st1 second st2,
    ItemHandlers.CreateItem None None st now now_added (Some userEmail)
      (Some (name, description))
    = ({| ItemHandlers.ICode := AuthHandlers.StatusCreated;
          ItemHandlers.IPayload := ItemHandlers.ItemJSON first |}, st1) /\
    ItemHandlers.CreateItem None None st1 now' now_added' (Some userEmail)
      (Some (name', description'))
    = ({| ItemHandlers.ICode := AuthHandlers.StatusCreated;
          ItemHandlers.IPayload := ItemHandlers.ItemJSON second |}, st2) /\
    ItemService.BackpackID first
    = String.append (Database.Prefix user)
        (String.append "_" (Fmt.FormatInt (JwtCodec.Unix now))) /\
    ItemService.BackpackID second = ItemService.BackpackID first /\
    ItemService.ItemID second <> ItemService.ItemID first /\
    ItemService.items st2 = ItemService.items st ++ [first; second] /\
    ItemService.base st2 = ItemService.base st.
Proof.
  intros Hu Hsec.
  assert (Hcall : forall s t t' n d,
            ItemService.base s = ItemService.base st ->
            ItemHandlers.CreateItem None None s t t' (Some userEmail) (Some (n, d))
            = ({| ItemHandlers.ICode := AuthHandlers.StatusCreated;
                  ItemHandlers.IPayload :=
                    ItemHandlers.ItemJSON
                      {| ItemService.ItemID := ItemService.items_seq s + 1;
                         ItemService.Name := n;
                         ItemService.BackpackID :=
                           String.append (Database.Prefix user)
                             (String.append "_" (Fmt.FormatInt (JwtCodec.Unix t)));
                         ItemService.Description := d;
                         ItemService.AddedAt := t';
                         ItemService.ItemUserEmail := userEmail;
                         ItemService.ParentID := None |} |},
                {| ItemService.base := ItemService.base s;
                   ItemService.items :=
                     ItemService.items s ++
                     [{| ItemService.ItemID := ItemService.items_seq s + 1;
                         ItemService.Name := n;
                         ItemService.BackpackID :=
                           String.append (Database.Prefix user)
                             (String.append "_" (Fmt.FormatInt (JwtCodec.Unix t)));
                         ItemService.Description := d;
                         ItemService.AddedAt := t';
                         ItemService.ItemUserEmail := userEmail;
                         ItemService.ParentID := None |}];
                   ItemService.items_seq := ItemService.items_seq s + 1 |})).
  { intros s t t' n d Hs. unfold ItemHandlers.CreateItem, User.First_user.
    rewrite Hs, Hu. cbn [ItemService.Create_item]. rewrite Hs. reflexivity. }
  do 4 eexists. split; [apply Hcall; reflexivity|].
  split; [apply Hcall; reflexivity|].
  cbn. rewrite Hsec. split; [reflexivity|]. split; [reflexivity|]. split; [lia|].
  split; [now rewrite <- app_assoc|reflexivity].
Qed.

(** X28, for alice creating a tent and a stove within second 1000. *)
Lemma CreateItem_handler_same_second_witness :
  exists first st1 second st2,
    ItemHandlers.CreateItem None None ItemServiceExamples.store_alice
      (1000 * JwtCodec.second) (1000 * JwtCodec.second) (Some "alice@example.com"%string)
      (Some ("tent"%string, ""%string))
    = ({| ItemHandlers.ICode := AuthHandlers.StatusCreated;
          ItemHandlers.IPayload := ItemHandlers.ItemJSON first |}, st1) /\
    ItemHandlers.CreateItem None None st1
      (1000 * JwtCodec.second + 7) (1000 * JwtCodec.second + 7)
      (Some "alice@example.com"%string) (Some ("stove"%string, ""%string))
    = ({| ItemHandlers.ICode := AuthHandlers.StatusCreated;
          ItemHandlers.IPayload := ItemHandlers.ItemJSON second |}, st2) /\
    ItemService.BackpackID first
    = String.append (Database.Prefix Examples.alice)
        (String.append "_" (Fmt.FormatInt (JwtCodec.Unix (1000 * JwtCodec.second)))) /\
    ItemService.BackpackID second = ItemService.BackpackID first /\
    ItemService.ItemID second <> ItemService.ItemID first /\
    ItemService.items st2 = ItemService.items ItemServiceExamples.store_alice ++ [first; second] /\
    ItemService.base st2 = ItemService.base ItemServiceExamples.store_alice.
Proof.
  apply (CreateItem_handler_same_second ItemServiceExamples.store_alice
           (1000 * JwtCodec.second) (1000 * JwtCodec.second)
           (1000 * JwtCodec.second + 7) (1000 * JwtCodec.second + 7)
           "alice@example.com" "tent" "" "stove" "" Examples.alice).
  - vm_compute. reflexivity.
  - vm_compute. reflexivity.
Defined.

(** ** Organizations and membership *)

Module OrganizationFacts.
Import Database Organization.

(** The organizations of a user are the stored organizations that have a
    junction row with the user. *)
Lemma GetOrganizationsByUser_elem db userEmail (o : Database.Organization) :
  o ∈ fst (GetOrganizationsByUser None db userEmail) <->
  o ∈ organizations db /\ (OrgID o, userEmail) ∈ organization_users db.
Proof.
  cbn [GetOrganizationsByUser fst]. rewrite !list_elem_of_In, in_flat_map. split.
  - intros (o' & Ho' & Hin). apply in_flat_map in Hin as ([id e] & Hrow & Hin).
    cbn [fst snd] in Hin.
    destruct (id =? OrgID o') eqn:E1; [|destruct Hin].
    destruct (String.eqb_spec e userEmail) as [->|]; cbn in Hin; [|destruct Hin].
    destruct Hin as [<-|[]]. apply Z.eqb_eq in E1. subst id.
    split; [exact Ho'|exact Hrow].
  - intros [Ho Hrow]. exists o. split; [exact Ho|].
    apply in_flat_map. exists (OrgID o, userEmail).
    split; [exact Hrow|].
    cbn [fst snd]. rewrite Z.eqb_refl, String.eqb_refl. now left.
Qed.

(** What a [CreateUser] that returns nil on an email of at least 3 bytes
    has written to the organization tables. *)
Lemma CreateUser_ok_tables env db email password db' :
  User.CreateUser env db email password = (None, db') ->
  (3 <= String.length email)%nat ->
  organizations db'
  = organizations db ++ [{| OrgID := organizations_seq db + 1;
                            OrgName := String.append email "_org" |}] /\
  organization_users db'
  = organization_users db ++
    match User.append_err env with
    | None => [(organizations_seq db + 1, email)]
    | Some _ => []
    end.
Proof.
  intros H Hlen. rewrite CreateUserFacts.CreateUser_eq in H.
  destruct (String.eqb email ""); [discriminate|].
  destruct (String.eqb password ""); [discriminate|].
  destruct (User.begin_err env) as [be|] eqn:Hb; [discriminate|].
  unfold User.CreateUser_body in H.
  destruct (User.create_org_err env) as [oe|]; [discriminate|].
  cbn [User.Create_organization] in H.
  rewrite (CreateUserFacts.slice_to_in_bounds _ _ Hlen) in H.
  unfold User.Create_user in H.
  destruct (User.create_user_err env) as [ue|].
  - destruct (errors_Is ue ErrDuplicatedKey); discriminate.
  - cbn in H. destruct (users db !! email) as [u|].
    + destruct (errors_Is (User.duplicate_err env) ErrDuplicatedKey); discriminate.
    + unfold User.Append_user in H.
      destruct (User.append_err env), (User.commit_err env); cbn in H;
        try discriminate; injection H as <-; cbn; auto using app_nil_r.
Qed.

End OrganizationFacts.

(** X29. After a registration that returned nil (email of at least 3
    bytes) the user's active organization is the organization just
    written.  When the junction row was written, that organization is among
    the organizations [GetOrganizationsByUser] returns for the user; when
    its write failed and the email had no junction row before,
    [GetOrganizationsByUser] returns no organization at all: the user is
    active in an organization it is not a member of. *)
Theorem registration_membership
    (env : User.Faults) (db db' : Database.DB) (email password : string) :
  User.CreateUser env db email password = (None, db') ->
  (3 <= String.length email)%nat ->
  let organization := {| Database.OrgID := Database.organizations_seq db + 1;
                         Database.OrgName := String.append email "_org" |} in
  Database.ActiveOrganizationID <$> (Database.users db' !! email)
  = Some (Database.OrgID organization) /\
  organization ∈ Database.organizations db' /\
  (User.append_err env = None ->
   organization ∈ fst (Organization.GetOrganizationsByUser None db' email)) /\
  (forall e, User.append_err env = Some e ->
     (forall id, (id, email) ∉ Database.organization_users db) ->
     fst (Organization.GetOrganizationsByUser None db' email) = []).
Proof.
  intros H Hlen organization.
  pose proof (AuthFacts.CreateUser_ok_inv _ _ _ _ _ H Hlen) as Hu.
  destruct (OrganizationFacts.CreateUser_ok_tables _ _ _ _ _ H Hlen) as [Horgs Hrows].
  split; [now rewrite Hu|]. split; [|split].
  - rewrite Horgs. apply elem_of_app. right. now apply list_elem_of_singleton.
  - intros Ha. apply OrganizationFacts.GetOrganizationsByUser_elem.
    rewrite Horgs, Hrows, Ha. split; apply elem_of_app; right;
      now apply list_elem_of_singleton.
  - intros e Ha Hnone.
    destruct (fst (Organization.GetOrganizationsByUser None db' email)) as [|o l] eqn:E;
      [reflexivity|].
    assert (Ho : o ∈ fst (Organization.GetOrganizationsByUser None db' email)).
    { rewrite E. apply list_elem_of_here. }
    apply OrganizationFacts.GetOrganizationsByUser_elem in Ho as [_ Hrow].
    rewrite Hrows, Ha, app_nil_r in Hrow. now apply Hnone in Hrow.
Qed.

(** X29, for alice registering on an empty store whose engine cannot write
    the junction row. *)
Lemma registration_membership_witness :
  fst (Organization.GetOrganizationsByUser None
         (snd (User.CreateUser Examples.junction_fails Database.empty
                 "alice@example.com" "password123"))
         "alice@example.com") = [].
Proof.
  refine (proj2 (proj2 (proj2
            (registration_membership Examples.junction_fails Database.empty _
               "alice@example.com" "password123" _ _)))
            (ErrDriver "no such table: organization_users") _ _).
  - vm_compute. reflexivity.
  - simpl. lia.
  - reflexivity.
  - intros id Hin. cbn in Hin. now apply not_elem_of_nil in Hin.
Defined.

(** X30. [AddUserToOrganization] answers [ErrOrganizationNotFound] for an
    organization that is not stored and then changes nothing.  For a
    stored one it returns nil, and afterwards the organization is among
    those [GetOrganizationsByUser] returns for the user; adding the same
    user again returns nil and leaves the store as it is. *)
Theorem AddUserToOrganization_idempotent
    (db : Database.DB) (organizationID : Z) (userEmail : string) :
  (List.find (fun o => Database.OrgID o =? organizationID) (Database.organizations db) = None ->
   Organization.AddUserToOrganization None None db organizationID userEmail
   = (Some Organization.ErrOrganizationNotFound, db)) /\
  (forall organization,
     List.find (fun o => Database.OrgID o =? organizationID) (Database.organizations db)
     = Some organization ->
     exists db1,
       Organization.AddUserToOrganization None None db organizationID userEmail
       = (None, db1) /\
       organization ∈ fst (Organization.GetOrganizationsByUser None db1 userEmail) /\
       Organization.AddUserToOrganization None None db1 organizationID userEmail
       = (None, db1)).
Proof.
  split.
  - intros Hf. unfold Organization.AddUserToOrganization, Organization.GetOrganization.
    now rewrite Hf.
  - intros organization Hf.
    assert (Hadd : forall d,
              Database.organizations d = Database.organizations db ->
              Organization.AddUserToOrganization None None d organizationID userEmail
              = (None, Organization.insert_membership organizationID userEmail d)).
    { intros d Hd.
      unfold Organization.AddUserToOrganization, Organization.GetOrganization.
      now rewrite Hd, Hf. }
    assert (Horgs : Database.organizations
                      (Organization.insert_membership organizationID userEmail db)
                    = Database.organizations db).
    { unfold Organization.insert_membership. now case_bool_decide. }
    assert (Hrow : (organizationID, userEmail)
                   ∈ Database.organization_users
                       (Organization.insert_membership organizationID userEmail db)).
    { unfold Organization.insert_membership. case_bool_decide as Hin; [exact Hin|].
      cbn. apply elem_of_app. right. now apply list_elem_of_singleton. }
    eexists. split; [apply Hadd; reflexivity|]. split.
    + apply OrganizationFacts.GetOrganizationsByUser_elem.
      apply find_some in Hf as [Hin Hid]. apply Z.eqb_eq in Hid.
      rewrite Horgs, Hid. split; [now apply list_elem_of_In|exact Hrow].
    + rewrite (Hadd _ Horgs). f_equal.
      unfold Organization.insert_membership at 1.
      now rewrite bool_decide_true.
Qed.

(** X30, repairing alice's missing membership after the registration of
    X29. *)
Lemma AddUserToOrganization_idempotent_witness :
  exists db1,
    Organization.AddUserToOrganization None None
      (snd (User.CreateUser Examples.junction_fails Database.empty
              "alice@example.com" "password123")) 1 "alice@example.com"
    = (None, db1) /\
    {| Database.OrgID := 1; Database.OrgName := "alice@example.com_org" |}
    ∈ fst (Organization.GetOrganizationsByUser None db1 "alice@example.com") /\
    Organization.AddUserToOrganization None None db1 1 "alice@example.com" = (None, db1).
Proof.
  apply (proj2 (AddUserToOrganization_idempotent
                  (snd (User.CreateUser Examples.junction_fails Database.empty
                          "alice@example.com" "password123")) 1 "alice@example.com")).
  vm_compute. reflexivity.
Defined.
